(** * InventoryPOS: scanner decoder, barcode router, cart and checkout

    A shallow embedding of the transaction core of the point-of-sale
    terminal:

    - [src/services/api.js]: [productService], [transactionService];
    - [src/components/POS/POSScreen.jsx]: cart, totals, checkout;
    - [BarcodeProvider] (second half of [src/context/SyncContext.jsx]):
      the global scanner decoder and the barcode router;
    - the product form of the inventory screen ([handleBarcodeKeyDown]),
      which has a decoder of its own.

    Around that core, from the same files: the buttons, the manual entry
    box and the keyboard shortcuts of the sale screen; the provider seen
    as a machine driven by key events and timers; the start of a scan and
    the image logic of the product form; the inventory audit; the tiles of
    the inventory screen; and [src/utils/imageUtils.js].

    JavaScript numbers are IEEE-754 binary64 values.  Money amounts
    (prices, totals, received cash) are modelled by Rocq's primitive
    [float], which is that very format.  Stock and cart quantities are
    integer counters (they only ever change by [+ 1], [- 1] and by
    subtraction of one another), so they are modelled by [Z]; where the
    source multiplies a price by a quantity the counter is converted to
    the binary64 value that represents it ([Z2float]).

    Strings are held as the bytes of their UTF-8 encoding; their length
    is counted in UTF-16 code units and their white space is that of
    ECMAScript.

    Asynchronous handlers are modelled by explicit state passing.  A
    handler takes the back end as it is when its request is served and
    returns what it does: the notifications it raises, the requests it
    sends and the state it sets.  Where the source reads React state
    twice, once through the render closure and once through a state
    updater, the model keeps the two reads apart, and an updater that
    reads a ref reads it at the render that runs it.  Timers are part of
    the state; their callbacks are functions of their own, and a run on
    dated events fires the timers that are due before each event.
    [console.log] and [event.preventDefault] are left out. *)

From Stdlib Require Import ZArith Floats Ascii String List Bool Lia.
From stdpp Require Import base option list gmap strings pretty.
Import ListNotations.

Local Open Scope string_scope.
Local Open Scope list_scope.
Local Open Scope Z_scope.

(** ** JavaScript values *)

Module JS.

(** The binary64 value of an integer counter (round to nearest even). *)
Definition Z2float (z : Z) : float :=
  SF2Prim (binary_normalize prec emax z 0 false).

(** [Number.MAX_SAFE_INTEGER] *)
Definition MAX_SAFE_INTEGER : Z := 2 ^ 53 - 1.

(** [ToBoolean] of a number: false for [NaN], [+0] and [-0]. *)
Definition truthy (x : float) : bool := negb (is_nan x || is_zero x).

(** [ToBoolean] of a string: false for the empty string only. *)
Definition nonempty (s : string) : bool :=
  match s with
  | EmptyString => false
  | String _ _ => true
  end.

(** *** Strings

    A JavaScript string is held as the bytes of its UTF-8 encoding,
    which is what a string literal of this file denotes.  Lengths are
    counted in UTF-16 code units and white space is recognised on code
    points, as ECMAScript does. *)

(** The code units of the character a byte starts: one for a code point
    below U+10000 (a sequence of one, two or three bytes), two for a
    code point above (four bytes, a surrogate pair), none for a
    continuation byte. *)
Definition units (a : ascii) : nat :=
  let n := N_of_ascii a in
  if (n <? 128)%N then 1%nat
  else if (n <? 192)%N then 0%nat
  else if (n <? 240)%N then 1%nat
  else 2%nat.

(** [s.length] *)
Fixpoint length (s : string) : nat :=
  match s with
  | String a rest => (units a + length rest)%nat
  | EmptyString => 0%nat
  end.

(** The payload of a continuation byte [10xxxxxx]. *)
Definition continuation (s : string) : option (N * string) :=
  match s with
  | String a rest =>
      let n := N_of_ascii a in
      if ((128 <=? n) && (n <? 192))%N then Some ((n - 128)%N, rest)
      else None
  | EmptyString => None
  end.

(** The code point at the head of a string and the number of bytes it
    takes. *)
Definition code_point (s : string) : option (N * nat) :=
  match s with
  | String a s1 =>
      let n := N_of_ascii a in
      if (n <? 128)%N then Some (n, 1%nat)
      else if (n <? 192)%N then None
      else if (n <? 224)%N then
        match continuation s1 with
        | Some (x, _) => Some (((n - 192) * 64 + x)%N, 2%nat)
        | None => None
        end
      else if (n <? 240)%N then
        match continuation s1 with
        | Some (x, s2) =>
            match continuation s2 with
            | Some (y, _) =>
                Some (((n - 224) * 4096 + x * 64 + y)%N, 3%nat)
            | None => None
            end
        | None => None
        end
      else
        match continuation s1 with
        | Some (x, s2) =>
            match continuation s2 with
            | Some (y, s3) =>
                match continuation s3 with
                | Some (z, _) =>
                    Some (((n - 240) * 262144 + x * 4096 + y * 64 + z)%N,
                          4%nat)
                | None => None
                end
            | None => None
            end
        | None => None
        end
  | EmptyString => None
  end.

(** [WhiteSpace] and [LineTerminator] of ECMAScript: TAB, LF, VT, FF,
    CR, SP, NBSP (U+00A0), U+1680, U+2000 to U+200A, LS (U+2028),
    PS (U+2029), U+202F, U+205F, U+3000 and ZWNBSP (U+FEFF). *)
Definition is_white_space (c : N) : bool :=
  ((9 <=? c) && (c <=? 13) || (c =? 32) || (c =? 160) || (c =? 5760)
   || (8192 <=? c) && (c <=? 8202) || (c =? 8232) || (c =? 8233)
   || (c =? 8239) || (c =? 8287) || (c =? 12288) || (c =? 65279))%N.

(** The number of bytes of the white space character a string starts
    with, [0] when it starts with none. *)
Definition white_space_width (s : string) : nat :=
  match code_point s with
  | Some (c, width) => if is_white_space c then width else 0%nat
  | None => 0%nat
  end.

(** [String.prototype.trimStart]; [skip] bytes of a white space
    character are still to be dropped. *)
Fixpoint trimStart_from (skip : nat) (s : string) {struct s} : string :=
  match s with
  | String _ rest =>
      match skip with
      | S k => trimStart_from k rest
      | O =>
          match white_space_width s with
          | S k => trimStart_from k rest
          | O => s
          end
      end
  | EmptyString => EmptyString
  end.

Definition trimStart (s : string) : string := trimStart_from 0 s.

(** Nothing but white space. *)
Definition blank (s : string) : bool :=
  negb (nonempty (trimStart s)).

(** [String.prototype.trimEnd] *)
Fixpoint trimEnd (s : string) : string :=
  match s with
  | String a rest => if blank s then EmptyString else String a (trimEnd rest)
  | EmptyString => EmptyString
  end.

(** [String.prototype.trim] *)
Definition trim (s : string) : string := trimEnd (trimStart s).

(** [String.prototype.includes] *)
Fixpoint includes (s sub : string) : bool :=
  String.prefix sub s
  || match s with
     | String _ rest => includes rest sub
     | EmptyString => false
     end.

(** *** [parseFloat] on strings

    The longest prefix of the trimmed string that is a
    [StrDecimalLiteral] is read as [(-1)^neg * M * 10^E] and rounded to
    the nearest binary64 value; [NaN] when there is no such prefix. *)

Fixpoint read_digits (s : string) (acc count : Z) : Z * Z * string :=
  match s with
  | String a rest =>
      match Ascii.is_nat a with
      | Some d => read_digits rest (10 * acc + Z.of_nat d) (count + 1)
      | None => (acc, count, s)
      end
  | EmptyString => (acc, count, s)
  end.

Definition read_sign (s : string) : bool * string :=
  match s with
  | String "-" rest => (true, rest)
  | String "+" rest => (false, rest)
  | _ => (false, s)
  end.

Definition read_exponent (s : string) : Z :=
  match s with
  | String c rest =>
      if (Ascii.eqb c "e" || Ascii.eqb c "E")%bool then
        let '(neg, rest') := read_sign rest in
        let '(e, count, _) := read_digits rest' 0 0 in
        if count =? 0 then 0 else if neg then - e else e
      else 0
  | EmptyString => 0
  end.

Definition decimal_to_SF (neg : bool) (M E : Z) : spec_float :=
  match M with
  | Zpos m =>
      if 0 <=? E
      then binary_normalize prec emax
             (if neg then - (M * 10 ^ E) else M * 10 ^ E) 0 false
      else
        let '(mz, ez, lz) :=
          SFdiv_core_binary prec emax M 0 (10 ^ (- E)) 0 in
        binary_round_aux prec emax neg mz ez lz
  | _ => S754_zero neg
  end.

Definition parseFloat (input : string) : float :=
  let '(neg, s) := read_sign (trimStart input) in
  if String.prefix "Infinity" s
  then (if neg then neg_infinity else infinity)
  else
    let '(int_part, int_count, s) := read_digits s 0 0 in
    let '(M, frac_count, s) :=
      match s with
      | String "." rest => read_digits rest int_part 0
      | _ => (int_part, 0, s)
      end in
    if (int_count =? 0) && (frac_count =? 0) then nan
    else SF2Prim (decimal_to_SF neg M (read_exponent s - frac_count)).

(** *** Signs of binary64 values *)

(** [0 <= x && x < Infinity]: neither [NaN], nor negative, nor infinite. *)
Definition nonneg_finite (x : float) : bool :=
  (0 <=? x)%float && (x <? infinity)%float.

(** The same on the values of the IEEE-754 specification. *)
Definition SFsigned (s : bool) (x : spec_float) : Prop :=
  match x with
  | S754_nan => False
  | S754_zero s' | S754_infinity s' | S754_finite s' _ _ => s' = s
  end.

Definition SFnonneg (x : spec_float) : Prop :=
  match x with
  | S754_nan => False
  | S754_zero _ => True
  | S754_infinity s | S754_finite s _ _ => s = false
  end.

End JS.

(** ** Data model *)

(** The normalised product record returned by [productService.getAll] and
    [productService.getById].  A cart line is the same object with
    [quantity] overwritten by the quantity on the line
    ([{ ...product, quantity: 1 }]). *)
Record Product := mkProduct {
  id : string;
  name : string;
  description : string;
  category_name : string;
  price : float;
  costPrice : float;
  quantity : Z;
  lowStockThreshold : Z;
  barcode : string;
  imageUrl : string
}.

Abbreviation CartLine := Product.

(** [{ ...item, quantity: q }] *)
Definition with_quantity (item : Product) (q : Z) : Product :=
  {| id := id item; name := name item; description := description item;
     category_name := category_name item; price := price item;
     costPrice := costPrice item; quantity := q;
     lowStockThreshold := lowStockThreshold item;
     barcode := barcode item; imageUrl := imageUrl item |}.

(** A settled or rejected promise. *)
Inductive result (A : Type) : Type :=
| Ok (value : A)
| Err (message : string).
Arguments Ok {A} value.
Arguments Err {A} message.

(** [react-hot-toast] notifications. *)
Inductive Toast : Type :=
| toast_error (message : string)
| toast_success (message : string).

(** ** The Firestore back end (src/services/api.js) *)

Record TransactionItem := mkTransactionItem {
  ti_productId : string;
  ti_name : string;
  ti_category : string;
  ti_price : float;
  ti_quantity : Z;
  ti_subtotal : float
}.

Inductive PaymentMethod := cash | card | gcash.

Record Transaction := mkTransaction {
  tx_id : string;
  tx_timestamp : string;
  tx_items : list TransactionItem;
  tx_subtotal : float;
  tx_tax : float;
  tx_total : float;
  tx_paymentMethod : PaymentMethod;
  tx_receivedAmount : float;
  tx_change : float;
  tx_referenceNumber : option string
}.

(** The two collections, and the failure every request meets while the
    store cannot be reached ([None] when it can). *)
Record Backend := mkBackend {
  products_coll : gmap string Product;
  transactions_coll : gmap string Transaction;
  outage : option string
}.

Module productService.

(** The record that [getAll] (lines 20-31) and [getById] (lines 39-50)
    build from a document.  A document is held with the fields of the
    record, each read as the number or the string it stands for, so that
    [p.name || ''] and the like give the field back; [Number(p.price ||
    0)] and [Number(p.costPrice || 0)] turn a falsy number ([NaN], [-0])
    into [0], and [Number(p.lowStockThreshold || 10)] turns [0] into
    [10]. *)
Definition normalise (p : Product) : Product :=
  {| id := id p; name := name p; description := description p;
     category_name := category_name p;
     price := if JS.truthy (price p) then price p else 0%float;
     costPrice := if JS.truthy (costPrice p) then costPrice p else 0%float;
     quantity := quantity p;
     lowStockThreshold := if lowStockThreshold p =? 0 then 10
                          else lowStockThreshold p;
     barcode := barcode p; imageUrl := imageUrl p |}.

(** [getById]: the record of the document, or
    [Error('Product not found')]. *)
Definition getById (db : Backend) (pid : string) : result Product :=
  match outage db with
  | Some e => Err e
  | None =>
      match products_coll db !! pid with
      | Some p => Ok (normalise p)
      | None => Err "Product not found"
      end
  end.

(** [getAll]: the record of every document of the collection. *)
Definition getAll (db : Backend) : result (list Product) :=
  match outage db with
  | Some e => Err e
  | None => Ok ((fun entry => normalise (snd entry))
                <$> map_to_list (products_coll db))
  end.

(** [update]: [updateDoc] rejects when the document does not exist. *)
Definition update (db : Backend) (pid : string) (payload : Product)
  : Backend * result Product :=
  match outage db with
  | Some e => (db, Err e)
  | None =>
      match products_coll db !! pid with
      | Some _ =>
          ({| products_coll := <[pid := payload]> (products_coll db);
              transactions_coll := transactions_coll db;
              outage := outage db |}, Ok payload)
      | None => (db, Err "No document to update")
      end
  end.

End productService.

Module transactionService.

(** The message of the error with which [setDoc] refuses a record whose
    [referenceNumber] is [undefined]. *)
Definition invalid_data (transaction : Transaction) : string :=
  "Function setDoc() called with invalid data. Unsupported field value: "
  +:+ "undefined (found in field referenceNumber in document transactions/"
  +:+ tx_id transaction +:+ ")".

(** [create]: a single [setDoc] under the transaction's own id.
    [setDoc] first checks the record, before anything is sent: the
    Firestore client, which is set up without [ignoreUndefinedProperties],
    refuses a field whose value is [undefined].  Of the fields of a
    transaction only [referenceNumber] can be. *)
Definition create (db : Backend) (transaction : Transaction)
  : Backend * result Transaction :=
  match tx_referenceNumber transaction with
  | None => (db, Err (invalid_data transaction))
  | Some _ =>
      match outage db with
      | Some e => (db, Err e)
      | None =>
          ({| products_coll := products_coll db;
              transactions_coll :=
                <[tx_id transaction := transaction]> (transactions_coll db);
              outage := outage db |}, Ok transaction)
      end
  end.

End transactionService.

(** ** The cart (POSScreen.jsx, lines 139-197) *)

Module Cart.

Definition is_line_of (pid : string) (item : CartLine) : bool :=
  String.eqb (id item) pid.

(** [cart.find(item => item.id === product.id)] followed by
    [cartItem ? cartItem.quantity : 0]. *)
Definition currentCartQuantity (cart : list CartLine) (pid : string) : Z :=
  match List.find (is_line_of pid) cart with
  | Some cartItem => quantity cartItem
  | None => 0
  end.

(** [{ ...item, quantity: item.quantity + 1 }] on the lines of the product. *)
Definition incremented (pid : string) (item : CartLine) : CartLine :=
  if is_line_of pid item then with_quantity item (quantity item + 1)
  else item.

(** The state updater passed to [setCart] by [addToCart]. *)
Definition add_updater (product : Product) (prevCart : list CartLine)
  : list CartLine :=
  match List.find (is_line_of (id product)) prevCart with
  | Some _ => List.map (incremented (id product)) prevCart
  | None => prevCart ++ [with_quantity product 1]
  end.

Definition insufficient_stock (available : Z) : Toast :=
  toast_error ("Insufficient stock. Only " +:+ pretty available
               +:+ " available.").

(** [addToCart(product)].  [cart] is the cart captured by the render
    closure, which the stock check reads; [prevCart] is the state the
    updater is applied to. *)
Definition addToCart (db : Backend) (cart prevCart : list CartLine)
           (product : Product) : list CartLine * list Toast :=
  match productService.getById db (id product) with
  | Ok currentProduct =>
      if quantity currentProduct <=? currentCartQuantity cart (id product)
      then (prevCart, [insufficient_stock (quantity currentProduct)])
      else (add_updater product prevCart, [])
  | Err _ => (prevCart, [toast_error "Error checking stock availability"])
  end.

(** [removeFromCart(productId)] *)
Definition removeFromCart (prevCart : list CartLine) (productId : string)
  : list CartLine :=
  List.filter (fun item => negb (is_line_of productId item)) prevCart.

(** [updateQuantity(productId, newQuantity)] *)
Definition updateQuantity (db : Backend) (prevCart : list CartLine)
           (productId : string) (newQuantity : Z)
  : list CartLine * list Toast :=
  if newQuantity <? 1 then (removeFromCart prevCart productId, [])
  else
    match productService.getById db productId with
    | Ok product =>
        if quantity product <? newQuantity
        then (prevCart, [insufficient_stock (quantity product)])
        else (List.map (fun item =>
                          if is_line_of productId item
                          then with_quantity item newQuantity
                          else item) prevCart, [])
    | Err _ => (prevCart, [toast_error "Error updating quantity"])
    end.

(** One operator action on the cart, with the back end it is served by
    and, for [addToCart], the cart its render closure had captured. *)
Inductive Action : Type :=
| AddToCart (db : Backend) (closure : list CartLine) (product : Product)
| UpdateQuantity (db : Backend) (productId : string) (newQuantity : Z)
| RemoveFromCart (productId : string).

Definition perform (cart : list CartLine) (a : Action) : list CartLine :=
  match a with
  | AddToCart db closure product => fst (addToCart db closure cart product)
  | UpdateQuantity db productId newQuantity =>
      fst (updateQuantity db cart productId newQuantity)
  | RemoveFromCart productId => removeFromCart cart productId
  end.

(** The cart after a sequence of actions, starting from [useState([])]. *)
Definition run (actions : list Action) : list CartLine :=
  fold_left perform actions [].

(** At most one line per product. *)
Definition distinct_lines (cart : list CartLine) : Prop :=
  List.NoDup (List.map id cart).

End Cart.

(** ** Totals and checkout (POSScreen.jsx, lines 199-326) *)

Module POS.

(** The component state read by [handleCheckout]. *)
Record State := mkState {
  cart : list CartLine;
  products : list Product;
  paymentMethod : PaymentMethod;
  referenceNumber : string;
  receivedAmount : string;
  showCheckout : bool;
  isProcessing : bool
}.

Inductive StateUpdate : Type :=
| setCart (value : list CartLine)
| setProducts (value : list Product)
| setReferenceNumber (value : string)
| setReceivedAmount (value : string)
| setShowCheckout (value : bool)
| setIsProcessing (value : bool).

Inductive Request : Type :=
| transactionService_create (transaction : Transaction)
| productService_getById (pid : string)
| productService_update (pid : string) (payload : Product)
| productService_getAll.

(** What a handler does, in program order. *)
Inductive Event : Type :=
| toast (t : Toast)
| update (u : StateUpdate)
| request (r : Request).

Definition apply_update (st : State) (u : StateUpdate) : State :=
  match u with
  | setCart v =>
      mkState v (products st) (paymentMethod st) (referenceNumber st)
              (receivedAmount st) (showCheckout st) (isProcessing st)
  | setProducts v =>
      mkState (cart st) v (paymentMethod st) (referenceNumber st)
              (receivedAmount st) (showCheckout st) (isProcessing st)
  | setReferenceNumber v =>
      mkState (cart st) (products st) (paymentMethod st) v
              (receivedAmount st) (showCheckout st) (isProcessing st)
  | setReceivedAmount v =>
      mkState (cart st) (products st) (paymentMethod st)
              (referenceNumber st) v (showCheckout st) (isProcessing st)
  | setShowCheckout v =>
      mkState (cart st) (products st) (paymentMethod st)
              (referenceNumber st) (receivedAmount st) v (isProcessing st)
  | setIsProcessing v =>
      mkState (cart st) (products st) (paymentMethod st)
              (referenceNumber st) (receivedAmount st) (showCheckout st) v
  end.

(** The component state once the updates of a trace are applied. *)
Definition after (st : State) (trace : list Event) : State :=
  fold_left (fun st e => match e with
                         | update u => apply_update st u
                         | _ => st
                         end) trace st.

(** [parseFloat(item.price || 0)]: [item.price] is a number, and
    [parseFloat] of a number reads back the string it prints as, which
    is the number itself; a falsy price ([NaN], [0], [-0]) gives [0]. *)
Definition unit_price (item : CartLine) : float :=
  if JS.truthy (price item) then price item else 0%float.

(** [parseFloat(item.price || 0) * item.quantity] *)
Definition line_subtotal (item : CartLine) : float :=
  (unit_price item * JS.Z2float (quantity item))%float.

Definition calculateSubtotal (cart : list CartLine) : float :=
  fold_left (fun total item => (total + line_subtotal item)%float)
            cart 0%float.

Definition tax_rate : float := 0x1.eb851eb851eb8p-4%float. (* 0.12 *)

Definition calculateTax (subtotal : float) : float :=
  (subtotal * tax_rate)%float.

Definition calculateTotal (cart : list CartLine) : float :=
  let subtotal := calculateSubtotal cart in
  (subtotal + calculateTax subtotal)%float.

Definition getChange (st : State) : float :=
  if JS.nonempty (receivedAmount st)
  then (JS.parseFloat (receivedAmount st) - calculateTotal (cart st))%float
  else 0%float.

(** The payment check of [handleCheckout] (lines 225-239): the amount
    recorded as received, or the message of the rejection. *)
Definition validatePayment (st : State) : result float :=
  let total := calculateTotal (cart st) in
  let received := JS.parseFloat (receivedAmount st) in
  match paymentMethod st with
  | cash =>
      if negb (JS.truthy received) || (received <? total)%float
      then Err "Insufficient payment amount"
      else Ok received
  | _ =>
      if negb (JS.nonempty (JS.trim (referenceNumber st)))
      then Err "Please enter the reference number"
      else Ok total
  end.

(** [Date.now()] and [new Date().toISOString()]. *)
Record Clock := mkClock { now : Z; isoString : string }.

(** [item.category || item.category_name || 'Uncategorized']: the
    normalised product record has no [category] field. *)
Definition item_category (item : CartLine) : string :=
  if JS.nonempty (category_name item) then category_name item
  else "Uncategorized".

Definition transactionItem (item : CartLine) : TransactionItem :=
  {| ti_productId := id item;
     ti_name := name item;
     ti_category := item_category item;
     ti_price := unit_price item;
     ti_quantity := quantity item;
     ti_subtotal := line_subtotal item |}.

(** [transactionData] (lines 245-263). *)
Definition transactionData (clock : Clock) (st : State) (received : float)
  : Transaction :=
  {| tx_id := "TXN-" +:+ pretty (now clock);
     tx_timestamp := isoString clock;
     tx_items := List.map transactionItem (cart st);
     tx_subtotal := calculateSubtotal (cart st);
     tx_tax := calculateTax (calculateSubtotal (cart st));
     tx_total := calculateTotal (cart st);
     tx_paymentMethod := paymentMethod st;
     tx_receivedAmount := received;
     tx_change := match paymentMethod st with
                  | cash => getChange st
                  | _ => 0%float
                  end;
     tx_referenceNumber := match paymentMethod st with
                           | cash => None
                           | _ => Some (JS.trim (referenceNumber st))
                           end |}.

(** The [catch] block (lines 310-322). *)
Definition classify (message : string) : Toast :=
  if JS.includes message "Failed to create transaction"
  then toast_error "Failed to save transaction. Please check server connection."
  else if JS.includes message "Failed to fetch"
  then toast_error "Cannot connect to server. Please check if server is running."
  else if JS.includes message "database"
  then toast_error "Database error. Please check database connection."
  else toast_error ("Transaction failed: "
                    +:+ (if JS.nonempty message then message
                         else "Unknown error")).

(** *** Inventory updates (lines 273-290)

    [cart.map(async (item) => ...)] starts one promise per cart line.
    Each sends its [getById] at once, sends its [update] when the
    product comes back, and settles when the [update] returns.  The
    event loop decides in which order the responses are delivered. *)

(** [{ ...currentProduct, quantity: Math.max(0, newQuantity) }] *)
Definition decremented (currentProduct : Product) (item : CartLine)
  : Product :=
  let newQuantity := quantity currentProduct - quantity item in
  with_quantity currentProduct (Z.max 0 newQuantity).

Inductive Task : Type :=
| awaiting_getById (item : CartLine)
| awaiting_update (item : CartLine) (currentProduct : Product)
| fulfilled (item : CartLine) (currentProduct : Product)
| rejected_getById (item : CartLine) (message : string)
| rejected_update (item : CartLine) (currentProduct : Product)
                  (message : string).

Definition is_fulfilled (t : Task) : bool :=
  match t with
  | fulfilled _ _ => true
  | _ => false
  end.

(** [settled]: [await Promise.all(inventoryUpdates)] has returned or
    thrown, and the rest of [handleCheckout] has run. *)
Record Run := mkRun {
  run_db : Backend;
  run_tasks : list Task;
  run_settled : bool;
  run_trace : list Event
}.

(** [loadProducts()] (lines 107-115) *)
Definition loadProducts (db : Backend) : list Event :=
  request productService_getAll ::
  match productService.getAll db with
  | Ok data => [update (setProducts data)]
  | Err _ => [toast (toast_error "Failed to load products")]
  end.

(** Lines 293-308 and the [finally] block. *)
Definition on_all_fulfilled (db : Backend) : list Event :=
  loadProducts db ++
  [toast (toast_success "Transaction completed successfully!");
   update (setCart []);
   update (setShowCheckout false);
   update (setReceivedAmount "");
   update (setReferenceNumber "");
   update (setIsProcessing false)].

(** The [catch] and [finally] blocks. *)
Definition on_rejected (message : string) : list Event :=
  [toast (classify message); update (setIsProcessing false)].

Definition reject (r : Run) (i : nat) (t : Task) (db : Backend)
           (message : string) : Run :=
  {| run_db := db;
     run_tasks := <[i := t]> (run_tasks r);
     run_settled := true;
     run_trace := run_trace r ++
                  (if run_settled r then [] else on_rejected message) |}.

(** Delivery of the response the [i]-th promise is waiting for. *)
Definition deliver (r : Run) (i : nat) : Run :=
  match run_tasks r !! i with
  | Some (awaiting_getById item) =>
      match productService.getById (run_db r) (id item) with
      | Ok currentProduct =>
          {| run_db := run_db r;
             run_tasks := <[i := awaiting_update item currentProduct]>
                            (run_tasks r);
             run_settled := run_settled r;
             run_trace := run_trace r ++
               [request (productService_update
                           (id item) (decremented currentProduct item))] |}
      | Err e => reject r i (rejected_getById item e) (run_db r) e
      end
  | Some (awaiting_update item currentProduct) =>
      match productService.update (run_db r) (id item)
              (decremented currentProduct item) with
      | (db, Ok _) =>
          let tasks := <[i := fulfilled item currentProduct]> (run_tasks r) in
          let done := forallb is_fulfilled tasks && negb (run_settled r) in
          {| run_db := db;
             run_tasks := tasks;
             run_settled := run_settled r || done;
             run_trace := run_trace r ++
                          (if done then on_all_fulfilled db else []) |}
      | (db, Err e) =>
          reject r i (rejected_update item currentProduct e) db e
      end
  | _ => r
  end.

Definition inventoryUpdates (db : Backend) (cart : list CartLine) : Run :=
  {| run_db := db;
     run_tasks := List.map awaiting_getById cart;
     run_settled := false;
     run_trace := List.map (fun item => request (productService_getById (id item)))
                           cart |}.

(** [handleCheckout()].  [schedule] lists the promises in the order in
    which their pending responses are delivered. *)
Definition handleCheckout (clock : Clock) (schedule : list nat)
           (db : Backend) (st : State) : Backend * list Event :=
  match cart st with
  | [] => (db, [toast (toast_error "Cart is empty")])
  | _ :: _ =>
      match validatePayment st with
      | Err message => (db, [toast (toast_error message)])
      | Ok received =>
          let data := transactionData clock st received in
          let sent := [update (setIsProcessing true);
                       request (transactionService_create data)] in
          match transactionService.create db data with
          | (db', Ok _) =>
              let r := fold_left deliver schedule
                                 (inventoryUpdates db' (cart st)) in
              (run_db r, sent ++ run_trace r)
          | (db', Err e) => (db', sent ++ on_rejected e)
          end
      end
  end.

(** *** Observations on a run *)

(** The cart line a promise works for. *)
Definition line_of (t : Task) : CartLine :=
  match t with
  | awaiting_getById item | awaiting_update item _ | fulfilled item _
  | rejected_getById item _ | rejected_update item _ _ => item
  end.

(** The [update] request a promise has sent so far. *)
Definition sent (t : Task) : list Request :=
  match t with
  | awaiting_update item currentProduct | fulfilled item currentProduct
  | rejected_update item currentProduct _ =>
      [productService_update (id item) (decremented currentProduct item)]
  | awaiting_getById _ | rejected_getById _ _ => []
  end.

(** The [productService.update] requests of a trace, in order. *)
Definition updates_of (trace : list Event) : list Request :=
  flat_map (fun e => match e with
                     | request (productService_update pid payload) =>
                         [productService_update pid payload]
                     | _ => []
                     end) trace.

(** The transactions a trace asks to create. *)
Definition creates_of (trace : list Event) : list Transaction :=
  flat_map (fun e => match e with
                     | request (transactionService_create transaction) =>
                         [transaction]
                     | _ => []
                     end) trace.

(** The state of the promise of [item] after [n] deliveries, when its
    product [currentProduct] is in the store. *)
Definition progress (n : nat) (item : CartLine) (currentProduct : Product)
  : Task :=
  match n with
  | O => awaiting_getById item
  | S O => awaiting_update item currentProduct
  | S (S _) => fulfilled item currentProduct
  end.



(** A line whose price is a non-negative number and whose quantity is a
    non-negative integer. *)
Definition sellable (item : CartLine) : Prop :=
  JS.nonneg_finite (price item) = true
  /\ 0 <= quantity item <= JS.MAX_SAFE_INTEGER.

End POS.

(** ** The global scanner decoder and router ([BarcodeProvider]) *)

Module Scanner.

Record Target := mkTarget {
  tagName : string;
  isContentEditable : bool;
  role : option string
}.

Record KeyboardEvent := mkKeyboardEvent {
  key : string;
  target : Target
}.

(** The refs of [BarcodeProvider].  [timeout] is the deadline of the
    inactivity timer that is still pending ([None] once it has fired or
    was cleared); [resets] are the deadlines of the pending timers that
    lower [isProcessing]. *)
Record State := mkState {
  suspendedCount : Z;
  buffer : string;
  timeout : option Z;
  isProcessing : bool;
  lastProcessed : string;
  lastProcessedTime : Z;
  resets : list Z
}.

Definition initial : State := mkState 0 "" None false "" 0 [].

Definition set_buffer (st : State) (b : string) : State :=
  mkState (suspendedCount st) b (timeout st) (isProcessing st)
          (lastProcessed st) (lastProcessedTime st) (resets st).

Definition set_timeout (st : State) (t : option Z) : State :=
  mkState (suspendedCount st) (buffer st) t (isProcessing st)
          (lastProcessed st) (lastProcessedTime st) (resets st).

Definition suspendScanning (st : State) : State :=
  mkState (suspendedCount st + 1) (buffer st) (timeout st) (isProcessing st)
          (lastProcessed st) (lastProcessedTime st) (resets st).

Definition resumeScanning (st : State) : State :=
  mkState (Z.max 0 (suspendedCount st - 1)) (buffer st) (timeout st)
          (isProcessing st) (lastProcessed st) (lastProcessedTime st)
          (resets st).

(** The action a resolved token is routed to. *)
Inductive Routed : Type :=
| out_of_stock (product : Product)
| handoff (product : Product)
| add_to_cart (barcode : string) (product : Product) (timestamp : Z)
| unknown (barcode : string).

Inductive Effect : Type :=
| scanned (token : string)   (* the token handed to the router *)
| toast (t : Toast)
| navigate_pos (barcodeProduct : Product)
| navigate_add_product (barcode : string)
| setBarcodeData (barcode : string) (product : Product) (timestamp : Z).

Definition dquote : string := String (ascii_of_nat 34) EmptyString.

(** The body of each branch of [processBarcodeData] (lines 186-212). *)
Definition dispatch (r : Routed) : list Effect :=
  match r with
  | out_of_stock product =>
      [toast (toast_error (name product +:+ " is out of stock"))]
  | handoff product =>
      [toast (toast_success ("Product found: " +:+ name product
                             +:+ ". Navigating to POS..."));
       navigate_pos product]
  | add_to_cart barcode product timestamp =>
      [setBarcodeData barcode product timestamp;
       toast (toast_success (name product +:+ " found"))]
  | unknown barcode =>
      [toast (toast_error ("Product with barcode " +:+ dquote +:+ barcode
                           +:+ dquote +:+ " not found"))]
  end.

(** [toString] of a string. *)
Definition toString (s : string) : string := s.

(** The predicate given to [products.find] (lines 176-182). *)
Definition matches (token : string) (p : Product) : bool :=
  String.eqb (barcode p) token
  || String.eqb (toString (barcode p)) token
  || String.eqb (toString (id p)) token.

Definition lookup (products : list Product) (barcode : string)
  : option Product :=
  List.find (matches barcode) products.

Definition resolve (pathname : string) (products : list Product)
           (now : Z) (barcode : string) : Routed :=
  match lookup products barcode with
  | Some product =>
      if quantity product <=? 0 then out_of_stock product
      else if negb (String.eqb pathname "/pos") then handoff product
      else add_to_cart barcode product now
  | None => unknown barcode
  end.

Definition duplicateTimeout (pathname : string) : Z :=
  if String.eqb pathname "/pos" then 500 else 2000.

(** [processBarcodeData(barcode)]: the new refs and the action routed,
    [None] when the token is skipped. *)
Definition processBarcodeData (pathname : string) (products : list Product)
           (now : Z) (st : State) (barcode : string)
  : State * option Routed :=
  if isProcessing st
     || (String.eqb (lastProcessed st) barcode
         && (now - lastProcessedTime st <? duplicateTimeout pathname))
  then (st, None)
  else
    (mkState (suspendedCount st) (buffer st) (timeout st) true barcode now
             (resets st ++ [now + 300]),
     Some (resolve pathname products now barcode)).

(** The condition under which [processBarcodeData] returns at once. *)
Definition skipped (pathname : string) (now : Z) (st : State)
           (barcode : string) : Prop :=
  isProcessing st = true
  \/ (lastProcessed st = barcode
      /\ now - lastProcessedTime st < duplicateTimeout pathname).

(** The callback of the 300 ms timer set in the [finally] block. *)
Definition processing_reset (st : State) : State :=
  mkState (suspendedCount st) (buffer st) (timeout st) false
          (lastProcessed st) (lastProcessedTime st) (tl (resets st)).

(** [handleInventoryBarcode(barcode)] *)
Definition handleInventoryBarcode (products : list Product)
           (barcode : string) : list Effect :=
  match lookup products barcode with
  | Some existingProduct =>
      [toast (toast_error ("Product " +:+ dquote +:+ name existingProduct
                           +:+ dquote +:+ " already exists with this barcode"))]
  | None =>
      [toast (toast_success ("New barcode scanned: " +:+ barcode
                             +:+ ". Opening add product form..."));
       navigate_add_product barcode]
  end.

(** The decoder hands its token to the handler of the active page. *)
Inductive Page := global_page | inventory_page.

Definition emit (page : Page) (pathname : string) (products : list Product)
           (now : Z) (st : State) (barcode : string) : State * list Effect :=
  match page with
  | global_page =>
      let '(st', routed) := processBarcodeData pathname products now st barcode in
      (st', scanned barcode :: match routed with
                               | Some r => dispatch r
                               | None => []
                               end)
  | inventory_page =>
      (st, scanned barcode :: handleInventoryBarcode products barcode)
  end.

Definition editable (t : Target) : bool :=
  String.eqb (tagName t) "INPUT"
  || String.eqb (tagName t) "TEXTAREA"
  || isContentEditable t
  || match role t with
     | Some r => String.eqb r "textbox"
     | None => false
     end.

(** [/^[a-zA-Z0-9\-_.]$/.test(key)] *)
Definition accepted_char (c : ascii) : bool :=
  let n := N_of_ascii c in
  ((97 <=? n) && (n <=? 122) || (65 <=? n) && (n <=? 90)
   || (48 <=? n) && (n <=? 57)
   || Ascii.eqb c "-" || Ascii.eqb c "_" || Ascii.eqb c ".")%N.

Definition accepted_key (key : string) : bool :=
  match key with
  | String c EmptyString => accepted_char c
  | _ => false
  end.

Definition MIN_BARCODE_LENGTH : nat := 4.

(** The commit shared by the Enter branch and the timer callback:
    [const barcode = bufferRef.current.trim(); if (barcode.length >= 4)
    ...; bufferRef.current = '']. *)
Definition commit (page : Page) (pathname : string)
           (products : list Product) (now : Z) (st : State)
  : State * list Effect :=
  let barcode := JS.trim (buffer st) in
  let '(st', effects) :=
    if (MIN_BARCODE_LENGTH <=? JS.length barcode)%nat
    then emit page pathname products now st barcode
    else (st, []) in
  (set_buffer st' "", effects).

(** Lines 108-151 of [handleKeyDown], which lines 269-312 of
    [handleInventoryKeyDown] repeat with the other handler. *)
Definition decode (page : Page) (pathname : string)
           (products : list Product) (now : Z) (st : State)
           (event : KeyboardEvent) : State * list Effect :=
  if isProcessing st then (st, [])
  else if (1 <? JS.length (key event))%nat
          && negb (String.eqb (key event) "Enter")
  then (st, [])
  else
    let st := set_timeout st None in
    if String.eqb (key event) "Enter"
    then commit page pathname products now st
    else if accepted_key (key event)
    then (set_timeout (set_buffer st (buffer st +:+ key event))
                      (Some (now + 150)), [])
    else (st, []).

(** [handleKeyDown(event)] *)
Definition handleKeyDown (pathname : string) (products : list Product)
           (now : Z) (st : State) (event : KeyboardEvent)
  : State * list Effect :=
  if 0 <? suspendedCount st then (st, [])
  else if editable (target event) then (st, [])
  else if String.eqb pathname "/inventory" then (st, [])
  else decode global_page pathname products now st event.

(** [handleInventoryKeyDown(event)] *)
Definition handleInventoryKeyDown (pathname : string)
           (products : list Product) (now : Z) (st : State)
           (event : KeyboardEvent) : State * list Effect :=
  if 0 <? suspendedCount st then (st, [])
  else if editable (target event) then (st, [])
  else decode inventory_page pathname products now st event.

(** [handleGlobalKeyDown(event)], the listener on [document]. *)
Definition handleGlobalKeyDown (pathname : string)
           (products : list Product) (now : Z) (st : State)
           (event : KeyboardEvent) : State * list Effect :=
  if String.eqb pathname "/inventory"
  then handleInventoryKeyDown pathname products now st event
  else handleKeyDown pathname products now st event.

(** The callback of the 150 ms inactivity timer, armed by a listener of
    page [page]. *)
Definition inactivity_timeout (page : Page) (pathname : string)
           (products : list Product) (now : Z) (st : State)
  : State * list Effect :=
  commit page pathname products now (set_timeout st None).

Definition page_of (pathname : string) : Page :=
  if String.eqb pathname "/inventory" then inventory_page else global_page.

End Scanner.

(** ** The decoder of the product form (inventory screen) *)

Module ProductForm.

Record Target := mkTarget {
  tagName : string;
  is_barcodeInput : bool   (* [event.target === barcodeInputRef.current] *)
}.

Record KeyboardEvent := mkKeyboardEvent {
  key : string;
  target : Target
}.

Record State := mkState {
  isScanningBarcode : bool;
  barcodeBuffer : string;
  barcodeTimeout : option Z;
  formData_barcode : string
}.

(** [setFormData_barcode] is the call [setFormData(prev => ({ ...prev,
    barcode: barcodeBufferRef.current.trim() }))]: it queues the
    updater. *)
Inductive Effect : Type :=
| setFormData_barcode
| toast (t : Toast).

(** [/^[a-zA-Z0-9]$/.test(key)] *)
Definition accepted_char (c : ascii) : bool :=
  let n := N_of_ascii c in
  ((97 <=? n) && (n <=? 122) || (65 <=? n) && (n <=? 90)
   || (48 <=? n) && (n <=? 57))%N.

Definition accepted_key (key : string) : bool :=
  match key with
  | String c EmptyString => accepted_char c
  | _ => false
  end.

(** The block run when the buffer is long enough: the updater of the
    bar code is queued, the notification raised, the buffer emptied and
    scanning stopped (which removes the listener and clears the
    timer). *)
Definition accept (st : State) : State * list Effect :=
  (mkState false "" None (formData_barcode st),
   [setFormData_barcode;
    toast (toast_success "Barcode scanned successfully!")]).

(** The render that follows a handler.  React runs a queued updater when
    it renders next; the updater of the bar code then reads
    [barcodeBufferRef.current] as the handler has left it. *)
Definition render (st : State) (effects : list Effect) : State :=
  fold_left (fun st e =>
               match e with
               | setFormData_barcode =>
                   mkState (isScanningBarcode st) (barcodeBuffer st)
                           (barcodeTimeout st) (JS.trim (barcodeBuffer st))
               | toast _ => st
               end) effects st.

(** [handleBarcodeKeyDown(event)] *)
Definition handleBarcodeKeyDown (now : Z) (st : State)
           (event : KeyboardEvent) : State * list Effect :=
  if negb (isScanningBarcode st) then (st, [])
  else if negb (is_barcodeInput (target event))
          && (String.eqb (tagName (target event)) "INPUT"
              || String.eqb (tagName (target event)) "TEXTAREA")
  then (st, [])
  else
    let st := mkState (isScanningBarcode st) (barcodeBuffer st) None
                      (formData_barcode st) in
    if String.eqb (key event) "Enter"
    then
      if (6 <? JS.length (barcodeBuffer st))%nat
      then accept st
      else (st, [])
    else if accepted_key (key event)
    then (mkState (isScanningBarcode st)
                  (barcodeBuffer st +:+ key event)
                  (Some (now + 100)) (formData_barcode st), [])
    else (st, []).

(** The callback of the 100 ms timer. *)
Definition inactivity_timeout (st : State) : State * list Effect :=
  let st := mkState (isScanningBarcode st) (barcodeBuffer st) None
                    (formData_barcode st) in
  if (6 <? JS.length (barcodeBuffer st))%nat
  then accept st
  else (mkState (isScanningBarcode st) "" None (formData_barcode st), []).

End ProductForm.

(** ** Other requests to the back end (src/services/api.js) *)

Module Store.

(** [transactionService.getById]: the document, or
    [Error('Transaction not found')]. *)
Definition transaction_getById (db : Backend) (tid : string)
  : result Transaction :=
  match outage db with
  | Some e => Err e
  | None =>
      match transactions_coll db !! tid with
      | Some transaction => Ok transaction
      | None => Err "Transaction not found"
      end
  end.

(** [productService.delete]: [deleteDoc] resolves whether or not the
    document exists. *)
Definition product_delete (db : Backend) (pid : string)
  : Backend * result unit :=
  match outage db with
  | Some e => (db, Err e)
  | None =>
      ({| products_coll := delete pid (products_coll db);
          transactions_coll := transactions_coll db;
          outage := outage db |}, Ok tt)
  end.

End Store.

(** ** Reading a trace of [handleCheckout] *)

Module Settlement.
Import POS.

Definition is_request (e : Event) : bool :=
  match e with
  | request _ => true
  | _ => false
  end.

(** What the operator gets to see of a trace: the notifications and the
    state updates. *)
Definition notices (trace : list Event) : list Event :=
  List.filter (fun e => negb (is_request e)) trace.

(** The notification of a completed sale (line 296). *)
Definition completed : Event :=
  toast (toast_success "Transaction completed successfully!").

End Settlement.

(** ** The sale screen around the cart (POSScreen.jsx) *)

(** [[...new Set(values)]]: the values in the order of their first
    insertion. *)
Module JSSet.

Definition add (elements : list string) (value : string) : list string :=
  if existsb (String.eqb value) elements then elements
  else elements ++ [value].

Definition of_list (values : list string) : list string :=
  fold_left add values [].

End JSSet.

Module SaleScreen.

Inductive StockWarning := Out_of_stock | Low_stock.

(** [product.lowStockThreshold || 10] *)
Definition threshold (product : Product) : Z :=
  if lowStockThreshold product =? 0 then 10 else lowStockThreshold product.

(** [getStockWarning(product)] (lines 365-369) *)
Definition getStockWarning (product : Product) : option StockWarning :=
  if quantity product <=? 0 then Some Out_of_stock
  else if quantity product <=? threshold product then Some Low_stock
  else None.

(** [getUniqueCategories()] (lines 360-363) *)
Definition getUniqueCategories (products : list Product) : list string :=
  List.filter JS.nonempty (JSSet.of_list (List.map category_name products)).

(** What the operator clicks: the [ProductCard] of a catalogue entry
    (lines 379-390), or a button of the [CartItem] shown for the line at
    position [line] of the cart (lines 421-454 and 530-532). *)
Inductive Gesture : Type :=
| click_product (product : Product)
| click_plus (line : nat)
| click_minus (line : nat)
| click_remove (line : nat).

(** A gesture made on the screen rendered from [cart], no other update
    of the cart being under way: the render closure and the state the
    updater meets are both [cart]. *)
Definition gesture (db : Backend) (cart : list CartLine) (g : Gesture)
  : list CartLine * list Toast :=
  match g with
  | click_product product =>
      match getStockWarning product with
      | Some Out_of_stock => (cart, [])
      | _ => Cart.addToCart db cart cart product
      end
  | click_plus line =>
      match cart !! line with
      | Some item => Cart.updateQuantity db cart (id item) (quantity item + 1)
      | None => (cart, [])
      end
  | click_minus line =>
      match cart !! line with
      | Some item => Cart.updateQuantity db cart (id item) (quantity item - 1)
      | None => (cart, [])
      end
  | click_remove line =>
      match cart !! line with
      | Some item => (Cart.removeFromCart cart (id item), [])
      | None => (cart, [])
      end
  end.

(** The same gesture when the state has moved on since the render:
    the buttons and the closure of [addToCart] are those of the cart
    [shown], the updaters meet [prevCart]. *)
Definition gesture_on (db : Backend) (shown prevCart : list CartLine)
           (g : Gesture) : list CartLine * list Toast :=
  match g with
  | click_product product =>
      match getStockWarning product with
      | Some Out_of_stock => (prevCart, [])
      | _ => Cart.addToCart db shown prevCart product
      end
  | click_plus line =>
      match shown !! line with
      | Some item =>
          Cart.updateQuantity db prevCart (id item) (quantity item + 1)
      | None => (prevCart, [])
      end
  | click_minus line =>
      match shown !! line with
      | Some item =>
          Cart.updateQuantity db prevCart (id item) (quantity item - 1)
      | None => (prevCart, [])
      end
  | click_remove line =>
      match shown !! line with
      | Some item => (Cart.removeFromCart prevCart (id item), [])
      | None => (prevCart, [])
      end
  end.

(** The screen between two renders: the cart it shows and the cart the
    state holds. *)
Record Screen := mkScreen {
  shown : list CartLine;
  held : list CartLine
}.

(** What happens on the screen: the operator makes a gesture, whose
    handler runs to its end, or React renders the component again. *)
Inductive Moment : Type :=
| makes (g : Gesture)
| renders.

Definition moment (db : Backend) (screen : Screen) (m : Moment) : Screen :=
  match m with
  | makes g =>
      mkScreen (shown screen)
               (fst (gesture_on db (shown screen) (held screen) g))
  | renders => mkScreen (held screen) (held screen)
  end.

(** The screen after a sequence of moments, starting from the first
    render of [useState([])]. *)
Definition sale (db : Backend) (moments : list Moment) : Screen :=
  fold_left (moment db) moments (mkScreen [] []).

(** No gesture is made before the one before it has been rendered;
    [fresh] tells whether the screen shows the state. *)
Fixpoint unhurried (fresh : bool) (moments : list Moment) : bool :=
  match moments with
  | makes _ :: rest => fresh && unhurried false rest
  | renders :: rest => unhurried true rest
  | [] => true
  end.

(** Every line holds at least one unit. *)
Definition positive_lines (cart : list CartLine) : Prop :=
  List.Forall (fun item => 1 <= quantity item) cart.

(** Every line is of a product of the store, and holds at most its stock. *)
Definition within_stock (db : Backend) (cart : list CartLine) : Prop :=
  forall item, In item cart ->
    exists product,
      productService.getById db (id item) = Ok product
      /\ quantity item <= quantity product.

(** [handleBarcodeScanned(product)] (lines 117-137).  [db1] is the store
    when its own [getById] is served, [db2] the store when that of
    [addToCart] is. *)
Definition handleBarcodeScanned (db1 db2 : Backend)
           (cart prevCart : list CartLine) (product : Product)
  : list CartLine * list Toast :=
  match productService.getById db1 (id product) with
  | Ok currentProduct =>
      if 0 <? quantity currentProduct
      then
        let '(cart', toasts) :=
          Cart.addToCart db2 cart prevCart currentProduct in
        (cart', toasts ++ [toast_success (name currentProduct
                                          +:+ " added to cart!")])
      else (prevCart, [toast_error (name currentProduct
                                    +:+ " is out of stock")])
  | Err _ => (prevCart, [toast_error "Error processing barcode"])
  end.

(** [handleManualBarcodeSubmit(e)] (lines 328-349): the cart, the content
    of the manual entry box and the notifications. *)
Definition handleManualBarcodeSubmit (db1 db2 : Backend)
           (products : list Product) (cart prevCart : list CartLine)
           (manualBarcode : string)
  : list CartLine * string * list Toast :=
  if JS.nonempty (JS.trim manualBarcode)
  then
    match List.find (Scanner.matches (JS.trim manualBarcode)) products with
    | Some product =>
        let '(cart', toasts) :=
          handleBarcodeScanned db1 db2 cart prevCart product in
        (cart', "", toasts)
    | None =>
        (prevCart, manualBarcode,
         [toast_error ("Product with barcode " +:+ Scanner.dquote
                       +:+ manualBarcode +:+ Scanner.dquote
                       +:+ " not found")])
    end
  else (prevCart, manualBarcode, []).

(** The effect on [barcodeData] (lines 72-82): the new value of
    [processedBarcodeRef] and the product handed to
    [handleBarcodeScanned], if any ([clearBarcodeData] is then called as
    well).  [barcodeData] is what the provider last set: the token, the
    product and [Date.now()]. *)
Definition onBarcodeData (processedBarcode : option Z)
           (barcodeData : option (string * Product * Z))
  : option Z * option Product :=
  match barcodeData with
  | Some (_, product, timestamp) =>
      if negb (timestamp =? 0)
         && negb (match processedBarcode with
                  | Some t => t =? timestamp
                  | None => false
                  end)
      then (Some timestamp, Some product)
      else (processedBarcode, None)
  | None => (processedBarcode, None)
  end.

(** The effect on [location.state] (lines 85-105): the new value of
    [lastNavigationProductRef] and the product handed to
    [handleBarcodeScanned], if any; the effect then also takes
    [barcodeProduct] out of the history state and arms the timer that
    clears the ref 1000 ms later. *)
Definition onLocationState (lastNavigationProduct : option string)
           (barcodeProduct : option Product)
  : option string * option Product :=
  match barcodeProduct with
  | Some product =>
      if match lastNavigationProduct with
         | Some pid => String.eqb pid (id product)
         | None => false
         end
      then (lastNavigationProduct, None)
      else (Some (id product), Some product)
  | None => (lastNavigationProduct, None)
  end.

(** [canCheckout] (lines 50-54).  [length > 0] is tested on the bytes:
    a string is empty exactly when its encoding is. *)
Definition canCheckout (st : POS.State) : bool :=
  negb (POS.isProcessing st)
  && (0 <? length (POS.cart st))%nat
  && match POS.paymentMethod st with
     | cash =>
         (POS.calculateTotal (POS.cart st)
          <=? JS.parseFloat (if JS.nonempty (POS.receivedAmount st)
                             then POS.receivedAmount st else "0"))%float
     | _ => (0 <? String.length (JS.trim (POS.referenceNumber st)))%nat
     end.

(** [handleGlobalKeys(e)] (lines 38-66) *)
Definition handleGlobalKeys (clock : POS.Clock) (schedule : list nat)
           (db : Backend) (st : POS.State) (key : string)
  : Backend * list POS.Event :=
  if String.eqb key "Escape"
  then (db, if POS.showCheckout st
            then [POS.update (POS.setShowCheckout false)] else [])
  else if String.eqb key "Enter"
  then
    if POS.showCheckout st
    then
      if canCheckout st then POS.handleCheckout clock schedule db st
      else (db, [])
    else (db, if (0 <? length (POS.cart st))%nat
              then [POS.update (POS.setShowCheckout true)] else [])
  else (db, []).

End SaleScreen.

(** ** The inventory screen (part_004, lines 1054-1263) *)

Module InventoryScreen.

(** [getUniqueCategories()] (lines 1249-1252) *)
Definition getUniqueCategories (safeProducts : list Product) : list string :=
  JSSet.of_list (List.filter JS.nonempty
                             (List.map category_name safeProducts)).

Inductive StockStatus := Out_of_Stock | Low_Stock | In_Stock.

(** [getStockStatus(product)] (lines 1214-1218) *)
Definition getStockStatus (product : Product) : StockStatus :=
  if quantity product <=? 0 then Out_of_Stock
  else if quantity product <=? SaleScreen.threshold product then Low_Stock
  else In_Stock.

Record Stats := mkStats {
  totalProducts : Z;
  lowStock : Z;
  outOfStock : Z;
  inStock : Z
}.

(** [getInventoryStats()] (lines 1254-1261), on the filtered list. *)
Definition getInventoryStats (filteredProducts : list Product) : Stats :=
  let totalProducts := Z.of_nat (length filteredProducts) in
  let lowStock :=
    Z.of_nat (length (List.filter
                        (fun p => quantity p <=? SaleScreen.threshold p)
                        filteredProducts)) in
  let outOfStock :=
    Z.of_nat (length (List.filter (fun p => quantity p <=? 0)
                                  filteredProducts)) in
  mkStats totalProducts lowStock outOfStock (totalProducts - outOfStock).

(** The number of products of a list that [getStockStatus] gives the
    status [status]. *)
Definition has_status (status : StockStatus) (product : Product) : bool :=
  match status, getStockStatus product with
  | Out_of_Stock, Out_of_Stock | Low_Stock, Low_Stock
  | In_Stock, In_Stock => true
  | _, _ => false
  end.

Definition labelled (status : StockStatus) (products : list Product) : Z :=
  Z.of_nat (length (List.filter (has_status status) products)).

End InventoryScreen.

(** ** Image addresses (src/utils/imageUtils.js) *)

Module imageUtils.

Definition placeholder : string := "/placeholder-product.svg".

(** [imageUrl.startsWith(prefix)] *)
Definition startsWith (s prefix : string) : bool := String.prefix prefix s.

(** [resolveImageUrl(imageUrl)] (lines 6-26) *)
Definition resolveImageUrl (imageUrl : string) : string :=
  if negb (JS.nonempty imageUrl) then placeholder
  else if startsWith imageUrl "http://" || startsWith imageUrl "https://"
  then imageUrl
  else if startsWith imageUrl "/uploads/" then imageUrl
  else placeholder.

End imageUtils.

(** ** The inventory audit (part_004, lines 7-145) *)

Module Audit.

Record Item := mkItem {
  item_id : string;
  item_name : string;
  item_category : option string;
  currentStock : Z;
  countedStock : Z;
  discrepancy : Z;
  notes : string;
  verified : bool;
  item_barcode : string
}.

Inductive Mode := full | spot.

(** [selectedCategories.includes(product.category)] *)
Definition includes (selectedCategories : list string)
           (value : option string) : bool :=
  match value with
  | Some c => existsb (String.eqb c) selectedCategories
  | None => false
  end.

(** [initializeAuditData()] (lines 23-45).  [category] reads
    [product.category]: a field that the normalised product record does
    not have ([undefined], here [None]) and that an entry created in the
    same session carries. *)
Definition initializeAuditData (category : Product -> option string)
           (products : list Product) (auditMode : Mode)
           (selectedCategories : list string) : list Item :=
  let productsToAudit :=
    match auditMode with
    | spot =>
        if (0 <? length selectedCategories)%nat
        then List.filter (fun product =>
                            includes selectedCategories (category product))
                         products
        else products
    | full => products
    end in
  List.map (fun product =>
              mkItem (id product) (name product) (category product)
                     (quantity product) (quantity product) 0 "" false
                     (barcode product))
           productsToAudit.

(** [handleStockChange(productId, newCount)] (lines 47-60) *)
Definition handleStockChange (prev : list Item) (productId : string)
           (newCount : Z) : list Item :=
  List.map (fun item =>
              if String.eqb (item_id item) productId
              then mkItem (item_id item) (item_name item) (item_category item)
                          (currentStock item) newCount
                          (newCount - currentStock item) (notes item) false
                          (item_barcode item)
              else item) prev.

(** [handleVerifyProduct(productId)] (lines 62-69) *)
Definition handleVerifyProduct (prev : list Item) (productId : string)
  : list Item :=
  List.map (fun item =>
              if String.eqb (item_id item) productId
              then mkItem (item_id item) (item_name item) (item_category item)
                          (currentStock item) (countedStock item)
                          (discrepancy item) (notes item) true
                          (item_barcode item)
              else item) prev.

(** [handleProductNotes(productId, notes)] (lines 71-78) *)
Definition handleProductNotes (prev : list Item) (productId : string)
           (text : string) : list Item :=
  List.map (fun item =>
              if String.eqb (item_id item) productId
              then mkItem (item_id item) (item_name item) (item_category item)
                          (currentStock item) (countedStock item)
                          (discrepancy item) text (verified item)
                          (item_barcode item)
              else item) prev.

(** [nextProduct()] and [previousProduct()] (lines 80-90): the test reads
    the index of the render closure, the updater the current one. *)
Definition nextProduct (currentProductIndex : Z) (auditData : list Item)
           (prev : Z) : Z :=
  if currentProductIndex <? Z.of_nat (length auditData) - 1
  then prev + 1 else prev.

Definition previousProduct (currentProductIndex prev : Z) : Z :=
  if 0 <? currentProductIndex then prev - 1 else prev.

Record Summary := mkSummary {
  positive : Z;
  negative : Z;
  totalItems : Z
}.

(** [getDiscrepancySummary()] (lines 139-145) *)
Definition getDiscrepancySummary (auditData : list Item) : Summary :=
  mkSummary
    (Z.of_nat (length (List.filter (fun item => 0 <? discrepancy item)
                                   auditData)))
    (Z.of_nat (length (List.filter (fun item => discrepancy item <? 0)
                                   auditData)))
    (Z.of_nat (length (List.filter (fun item => negb (discrepancy item =? 0))
                                   auditData))).

(** The updates [completeAudit] asks for (lines 97-105): the id, the
    catalogue entry that is spread into the payload ([undefined] when the
    catalogue has none of that id) and the quantity written over it. *)
Definition completeAudit_updates (products : list Product)
           (auditData : list Item) : list (string * option Product * Z) :=
  List.map (fun item =>
              (item_id item,
               List.find (fun p => String.eqb (id p) (item_id item)) products,
               countedStock item))
           (List.filter (fun item => negb (discrepancy item =? 0)) auditData).

(** [auditRecord] (lines 110-119) *)
Record AuditRecord := mkAuditRecord {
  auditId : string;
  date : string;
  mode : Mode;
  productsAudited : Z;
  discrepancies : Z;
  totalAdjustments : Z;
  record_notes : string;
  results : list Item
}.

Definition auditRecord (clock : POS.Clock) (auditMode : Mode)
           (auditNotes : string) (auditData : list Item) : AuditRecord :=
  mkAuditRecord ("AUDIT-" +:+ pretty (POS.now clock)) (POS.isoString clock)
    auditMode
    (Z.of_nat (length auditData))
    (Z.of_nat (length (List.filter (fun item => negb (discrepancy item =? 0))
                                   auditData)))
    (fold_left (fun sum item => sum + Z.abs (discrepancy item)) auditData 0)
    auditNotes auditData.

(** The modal once the audit has started: the audit data and the
    cursor. *)
Record State := mkState {
  auditData : list Item;
  currentProductIndex : Z
}.

(** [auditData[currentProductIndex]] (line 264) *)
Definition currentProduct (st : State) : option Item :=
  if currentProductIndex st <? 0 then None
  else auditData st !! Z.to_nat (currentProductIndex st).

(** What the auditor does on the screen of the current product (lines
    322-340, 370-385 and 416-460); [value] is [parseInt(e.target.value)],
    [None] when that is [NaN]. *)
Inductive Event : Type :=
| press_minus
| type_count (value : option Z)
| press_plus
| type_notes (text : string)
| tick_verified
| press_next
| press_previous.

Definition step (st : State) (e : Event) : State :=
  match currentProduct st with
  | None => st
  | Some current =>
      match e with
      | press_minus =>
          mkState (handleStockChange (auditData st) (item_id current)
                                     (Z.max 0 (countedStock current - 1)))
                  (currentProductIndex st)
      | type_count value =>
          mkState (handleStockChange (auditData st) (item_id current)
                                     (Z.max 0 (default 0 value)))
                  (currentProductIndex st)
      | press_plus =>
          mkState (handleStockChange (auditData st) (item_id current)
                                     (countedStock current + 1))
                  (currentProductIndex st)
      | type_notes text =>
          mkState (handleProductNotes (auditData st) (item_id current) text)
                  (currentProductIndex st)
      | tick_verified =>
          mkState (handleVerifyProduct (auditData st) (item_id current))
                  (currentProductIndex st)
      | press_next =>
          mkState (auditData st)
                  (nextProduct (currentProductIndex st) (auditData st)
                               (currentProductIndex st))
      | press_previous =>
          mkState (auditData st)
                  (previousProduct (currentProductIndex st)
                                   (currentProductIndex st))
      end
  end.

(** The audit after a sequence of events, from the start of the audit. *)
Definition run (category : Product -> option string)
           (products : list Product) (auditMode : Mode)
           (selectedCategories : list string) (events : list Event) : State :=
  fold_left step events
            (mkState (initializeAuditData category products auditMode
                                          selectedCategories)
                     0).

End Audit.

(** ** The provider as a machine

    What happens to the refs of [BarcodeProvider] over time: key events
    reach the listener, the two kinds of timers fire, pages call
    [manualScan], [suspendScanning] and [resumeScanning]. *)

Module Provider.
Import Scanner.

(** A handler runs with the [location.pathname] and the [products] of the
    render that installed it; a timer callback with those of the render
    whose listener armed it. *)
Inductive Input : Type :=
| keydown (pathname : string) (products : list Product) (now : Z)
          (event : KeyboardEvent)
| inactivity (page : Page) (pathname : string) (products : list Product)
             (now : Z)
| processing_done
| manualScan (pathname : string) (products : list Product) (now : Z)
             (barcode : string)
| suspend
| resume.

Definition step (st : State) (input : Input) : State * list Effect :=
  match input with
  | keydown pathname products now event =>
      handleGlobalKeyDown pathname products now st event
  | inactivity page pathname products now =>
      match timeout st with
      | Some _ => inactivity_timeout page pathname products now st
      | None => (st, [])
      end
  | processing_done =>
      match resets st with
      | _ :: _ => (processing_reset st, [])
      | [] => (st, [])
      end
  | manualScan pathname products now barcode =>
      let '(st', routed) :=
        processBarcodeData pathname products now st barcode in
      (st', match routed with
            | Some r => dispatch r
            | None => []
            end)
  | suspend => (suspendScanning st, [])
  | resume => (resumeScanning st, [])
  end.

(** The refs after a sequence of inputs, starting from those of the
    mounted provider. *)
Definition run (inputs : list Input) : State :=
  fold_left (fun st input => fst (step st input)) inputs initial.

(** While a resolution is under way exactly one timer is pending that
    will lower the flag, 300 ms after the token was taken; otherwise
    none is. *)
Definition flag_backed (st : State) : Prop :=
  if isProcessing st then resets st = [lastProcessedTime st + 300]
  else resets st = [].

(** The key events of a scanner that sends [token]: one [keydown] per
    character. *)
Fixpoint keys (target : Target) (token : string) : list KeyboardEvent :=
  match token with
  | String c rest =>
      mkKeyboardEvent (String c EmptyString) target :: keys target rest
  | EmptyString => []
  end.

Definition Enter (target : Target) : KeyboardEvent :=
  mkKeyboardEvent "Enter" target.

(** The pending timers of the provider. *)
Inductive Timer := inactivity_timer | reset_timer.

(** The timer that runs next when the clock reaches [now], if one is
    due: the pending timer of the earliest deadline, a reset before the
    inactivity timer when both have the same (it was armed first). *)
Definition due (now : Z) (st : State) : option Timer :=
  match timeout st, resets st with
  | Some deadline, reset :: _ =>
      if reset <=? deadline
      then (if reset <=? now then Some reset_timer else None)
      else (if deadline <=? now then Some inactivity_timer else None)
  | Some deadline, [] =>
      if deadline <=? now then Some inactivity_timer else None
  | None, reset :: _ => if reset <=? now then Some reset_timer else None
  | None, [] => None
  end.

(** The timers that are due at [now] run, each at its deadline, with
    the [location.pathname] and the [products] of the listener.  [fuel]
    bounds their number. *)
Fixpoint elapse (fuel : nat) (pathname : string) (products : list Product)
         (now : Z) (st : State) : State * list Effect :=
  match fuel with
  | O => (st, [])
  | S fuel =>
      match due now st with
      | Some inactivity_timer =>
          let '(st1, effects1) :=
            inactivity_timeout (page_of pathname) pathname products
                               (default now (timeout st)) st in
          let '(st2, effects2) := elapse fuel pathname products now st1 in
          (st2, effects1 ++ effects2)
      | Some reset_timer =>
          elapse fuel pathname products now (processing_reset st)
      | None => (st, [])
      end
  end.

(** A key event at time [now]: the timers that are due run first, then
    the listener.  The inactivity timer runs at most once and arms at
    most one reset. *)
Definition key_at (pathname : string) (products : list Product)
           (st : State) (now : Z) (event : KeyboardEvent)
  : State * list Effect :=
  let '(st1, effects1) :=
    elapse (2 + length (resets st)) pathname products now st in
  let '(st2, effects2) :=
    handleGlobalKeyDown pathname products now st1 event in
  (st2, effects1 ++ effects2).

(** The listener and the timers run on dated key events, one after the
    other. *)
Definition feed (pathname : string) (products : list Product)
           (st : State) (events : list (Z * KeyboardEvent))
  : State * list Effect :=
  fold_left (fun acc e =>
               let '(st', effects) :=
                 key_at pathname products (fst acc) (fst e) (snd e) in
               (st', snd acc ++ effects))
            events (st, []).

(** Dates that follow one another, each less than [gap] milliseconds
    after the one before. *)
Fixpoint paced (gap : Z) (times : list Z) : Prop :=
  match times with
  | t1 :: rest =>
      match rest with
      | t2 :: _ => t1 <= t2 < t1 + gap
      | [] => True
      end /\ paced gap rest
  | [] => True
  end.

(** Every character of the token is one the decoder takes. *)
Fixpoint all_accepted (token : string) : bool :=
  match token with
  | String c rest => accepted_char c && all_accepted rest
  | EmptyString => true
  end.

End Provider.

(** ** The product form: starting and stopping a scan *)

Module ProductModal.
Import ProductForm.

(** How [toggleBarcodeScanning] ends: with the notification that
    scanning has started, or with the [TypeError] of the call
    [toast.info(...)], a function that [react-hot-toast] does not
    have. *)
Inductive Notice : Type :=
| toast_success_started
| TypeError_toast_info_is_not_a_function.

(** [toggleBarcodeScanning()] (lines 655-663).  The state is set and the
    buffer emptied before the notification is asked for, so both hold
    whichever way the handler ends.  The clean-up of the effect on
    [isScanningBarcode] (lines 647-652) clears the pending timer. *)
Definition toggleBarcodeScanning (st : State) : State * Notice :=
  (mkState (negb (isScanningBarcode st)) "" None (formData_barcode st),
   if negb (isScanningBarcode st) then toast_success_started
   else TypeError_toast_info_is_not_a_function).

(** The key events of a scanner that sends [token]. *)
Fixpoint keys (target : Target) (token : string) : list KeyboardEvent :=
  match token with
  | String c rest =>
      mkKeyboardEvent (String c EmptyString) target :: keys target rest
  | EmptyString => []
  end.

(** The 100 ms timer when the clock reaches [now]: its callback, then
    the render it asks for. *)
Definition elapse (now : Z) (st : State) : State * list Effect :=
  match barcodeTimeout st with
  | Some deadline =>
      if deadline <=? now
      then let '(st', effects) := inactivity_timeout st in
           (render st' effects, effects)
      else (st, [])
  | None => (st, [])
  end.

(** A key event at time [now]: the timer runs first when it is due, then
    the listener, then the render the listener asks for. *)
Definition key_at (st : State) (now : Z) (event : KeyboardEvent)
  : State * list Effect :=
  let '(st1, effects1) := elapse now st in
  let '(st2, effects2) := handleBarcodeKeyDown now st1 event in
  (render st2 effects2, effects1 ++ effects2).

(** The listener and the timer run on dated key events, one after the
    other. *)
Definition feed (st : State) (events : list (Z * KeyboardEvent))
  : State * list Effect :=
  fold_left (fun acc e =>
               let '(st', effects) := key_at (fst acc) (fst e) (snd e) in
               (st', snd acc ++ effects))
            events (st, []).

Fixpoint all_accepted (token : string) : bool :=
  match token with
  | String c rest => accepted_char c && all_accepted rest
  | EmptyString => true
  end.

(** *** The image of the product (lines 559-584 and 673-779) *)

Record File := mkFile {
  file_type : string;
  file_size : Z
}.

(** The image states of the modal. *)
Record Images := mkImages {
  imageFile : option File;
  imagePreview : option string;
  originalImageUrl : option string
}.

(** [ToBoolean] of a string that may be [null] or [undefined]. *)
Definition truthy (value : option string) : bool :=
  match value with
  | Some s => JS.nonempty s
  | None => false
  end.

(** What [uploadImageToServer()] gets from [/api/upload-image]: the
    [imageUrl] of the response, or a failure (of the request, or a
    response that is not [ok]) that it throws on. *)
Inductive Upload : Type :=
| uploaded (imageUrl : option string)
| upload_failed.

(** What [handleSubmit] does.  [data] is [finalFormData] without its
    [imageUrl], which is given apart ([None] when the field is not
    set). *)
Inductive Submission (FormData : Type) : Type :=
| setIsUploading (value : bool)
| post_upload_image (file : File)
| onSave (data : FormData) (imageUrl : option string)
| delete_image (imageUrl : string)
| toast_error_saving.
Arguments setIsUploading {FormData} value.
Arguments post_upload_image {FormData} file.
Arguments onSave {FormData} data imageUrl.
Arguments delete_image {FormData} imageUrl.
Arguments toast_error_saving {FormData}.

(** [deleteOldImage(imageUrl)] (lines 559-584); its own failures are
    logged and go no further. *)
Definition deleteOldImage {FormData : Type} (imageUrl : option string)
  : list (Submission FormData) :=
  match imageUrl with
  | Some url =>
      if negb (JS.nonempty url) || negb (imageUtils.startsWith url "/uploads/")
      then []
      else [delete_image url]
  | None => []
  end.

(** [handleSubmit(e)] (lines 742-779).  [upload] is the answer to the
    upload, if one is made; [saved] tells whether the promise of [onSave]
    is fulfilled. *)
Definition handleSubmit {FormData : Type} (formData : FormData)
           (images : Images) (upload : Upload) (saved : bool)
  : list (Submission FormData) :=
  let save (imageUrl : option string) (newImageUploaded : bool) :=
    onSave formData imageUrl ::
    (if saved
     then
       if newImageUploaded && truthy (originalImageUrl images)
          && negb (match originalImageUrl images, imageUrl with
                   | Some old, Some new => String.eqb old new
                   | None, None => true
                   | _, _ => false
                   end)
       then deleteOldImage (originalImageUrl images)
       else []
     else [toast_error_saving]) in
  match imageFile images with
  | Some file =>
      setIsUploading true :: post_upload_image file ::
      setIsUploading false ::
      match upload with
      | uploaded uploadedImageUrl =>
          if truthy uploadedImageUrl then save uploadedImageUrl true
          else save None false
      | upload_failed => [toast_error_saving]
      end
  | None =>
      if truthy (originalImageUrl images)
         && match imagePreview images, originalImageUrl images with
            | Some preview, Some old => String.eqb preview old
            | None, None => true
            | _, _ => false
            end
      then save (originalImageUrl images) false
      else if negb (truthy (imagePreview images))
      then save (Some "") false
      else save None false
  end.

(** [removeImage()] (lines 737-740) *)
Definition removeImage (images : Images) : Images :=
  mkImages None None (originalImageUrl images).

End ProductModal.

(** ** The lookup as the specification words it *)

Module Spec.

(** "The first product whose barcode equals the token, falling back to
    string equality against the product id only when no barcode match
    exists." *)
Definition lookup (products : list Product) (token : string)
  : option Product :=
  match List.find (fun p => String.eqb (barcode p) token) products with
  | Some p => Some p
  | None => List.find (fun p => String.eqb (id p) token) products
  end.

End Spec.

(** ** Sample data *)

Module Samples.

Definition cola : Product :=
  mkProduct "p1" "Cola" "" "Drinks" 100 60 1 10 "8991234567890" "".

Definition soap : Product :=
  mkProduct "p2" "Soap" "" "" 50 30 7 10 "4800011122233" "".

Definition store : Backend :=
  mkBackend (<["p1" := cola]> (<["p2" := soap]> ∅)) ∅ None.

(** A product whose id is the barcode of a later product. *)
Definition gum : Product :=
  mkProduct "12345" "Gum" "" "" 5 3 20 10 "7622210449283" "".

Definition mints : Product :=
  mkProduct "p4" "Mints" "" "" 8 4 20 10 "12345" "".

Definition shelf : list Product := [gum; mints; cola].

Definition body : Scanner.Target := Scanner.mkTarget "BODY" false None.

(** A scanner burst on the page body: the characters of [token] one
    millisecond apart, then Enter. *)
Fixpoint burst (pathname : string) (products : list Product) (now : Z)
         (st : Scanner.State) (token : string)
  : Scanner.State * list Scanner.Effect :=
  match token with
  | EmptyString =>
      Scanner.handleGlobalKeyDown pathname products now st
        (Scanner.mkKeyboardEvent "Enter" body)
  | String c rest =>
      let '(st1, effects1) :=
        Scanner.handleGlobalKeyDown pathname products now st
          (Scanner.mkKeyboardEvent (String c EmptyString) body) in
      let '(st2, effects2) := burst pathname products (now + 1) st1 rest in
      (st2, effects1 ++ effects2)
  end.

Definition scanned_once : Scanner.State :=
  fst (Scanner.processBarcodeData "/pos" shelf 1000 Scanner.initial
                                  "8991234567890").

Definition form_scanning_12345 : ProductForm.State :=
  ProductForm.mkState true "12345" (Some 100) "".

Definition form_enter : ProductForm.KeyboardEvent :=
  ProductForm.mkKeyboardEvent "Enter" (ProductForm.mkTarget "BODY" false).

Definition typing_abc : Scanner.State :=
  Scanner.mkState 0 "abc" (Some 1150) false "" 0 [].

Definition space_key : Scanner.KeyboardEvent :=
  Scanner.mkKeyboardEvent " " body.

Definition shift_key : Scanner.KeyboardEvent :=
  Scanner.mkKeyboardEvent "Shift" body.

(** A no-break space (U+00A0) and the key of the letter e with an acute
    accent (U+00E9), in UTF-8. *)
Definition nbsp : string := String "194"%char (String "160"%char "").

Definition e_acute_key : Scanner.KeyboardEvent :=
  Scanner.mkKeyboardEvent (String "195"%char (String "169"%char "")) body.

(** Scenario A: one line of price 100 and quantity 2, cash, 300 received. *)
Definition tea : Product :=
  mkProduct "p5" "Tea" "" "Drinks" 100 70 9 10 "4800016644801" "".

Definition tea_store : Backend :=
  mkBackend (<["p5" := tea]> ∅) ∅ None.

Definition tea_store_down : Backend :=
  mkBackend (<["p5" := tea]> ∅) ∅ (Some "Failed to fetch").

Definition scenario_A : POS.State :=
  POS.mkState [with_quantity tea 2] [tea] cash "" "300" true false.

(** Scenario B: one line of price 50 and quantity 1, card, no reference. *)
Definition scenario_B : POS.State :=
  POS.mkState [with_quantity soap 1] [soap] card "" "" true false.

Definition card_payment : POS.State :=
  POS.mkState [with_quantity soap 1] [soap] card " REF-77 " "" true false.

Definition noon : POS.Clock := POS.mkClock 1700000000000 "2023-11-14T22:13:20.000Z".

End Samples.

(** * Properties *)

(** ** Binary64 arithmetic on non-negative values *)

Module FloatFacts.
Import JS.

Lemma shr_1_nonneg mrs : 0 <= shr_m mrs -> 0 <= shr_m (shr_1 mrs).
Proof.
  destruct mrs as [m r s]. simpl.
  destruct m as [|[p|p|]|p]; simpl; lia.
Qed.

Lemma iter_shr_1_nonneg p mrs :
  0 <= shr_m mrs -> 0 <= shr_m (SpecFloat.iter_pos shr_1 p mrs).
Proof.
  revert mrs. induction p as [p IH|p IH|]; simpl; intros mrs H.
  - apply IH, IH, shr_1_nonneg, H.
  - apply IH, IH, H.
  - apply shr_1_nonneg, H.
Qed.

Lemma shr_fexp_nonneg m e l :
  0 <= m -> 0 <= shr_m (fst (shr_fexp prec emax m e l)).
Proof.
  intros H. unfold shr_fexp, shr.
  assert (H0 : 0 <= shr_m (shr_record_of_loc m l)).
  { destruct l as [|[]]; simpl; exact H. }
  destruct (fexp prec emax (Zdigits2 m + e) - e); simpl; auto.
  apply iter_shr_1_nonneg, H0.
Qed.

Lemma round_nearest_even_nonneg m l : 0 <= m -> 0 <= round_nearest_even m l.
Proof.
  intros H. destruct l as [|[]]; simpl; try lia.
  destruct (Z.even m); lia.
Qed.

Lemma binary_round_aux_signed s m e l :
  0 <= m -> SFsigned s (binary_round_aux prec emax s m e l).
Proof.
  intros H. unfold binary_round_aux.
  pose proof (shr_fexp_nonneg m e l H) as H1.
  destruct (shr_fexp prec emax m e l) as [mrs' e']. simpl in H1.
  pose proof (shr_fexp_nonneg _ e' loc_Exact
                (round_nearest_even_nonneg _ (loc_of_shr_record mrs') H1)) as H2.
  destruct (shr_fexp prec emax _ e' loc_Exact) as [mrs'' e'']. simpl in H2.
  destruct (shr_m mrs'') as [|p|p]; simpl; [reflexivity| |lia].
  destruct (e'' <=? emax - prec); reflexivity.
Qed.

Lemma binary_round_signed s m e : SFsigned s (binary_round prec emax s m e).
Proof.
  unfold binary_round.
  destruct (shl_align m e _) as [mz ez].
  apply binary_round_aux_signed. lia.
Qed.

Lemma SFsigned_nonneg x : SFsigned false x -> SFnonneg x.
Proof. destruct x; simpl; auto. Qed.

Lemma SFadd_nonneg x y :
  SFnonneg x -> SFnonneg y -> SFnonneg (SFadd prec emax x y).
Proof.
  destruct x as [sx|sx| |sx mx ex], y as [sy|sy| |sy my ey]; simpl;
    try tauto; intros Hx Hy; subst; simpl; auto.
  - destruct sx, sy; simpl; auto.
  - apply SFsigned_nonneg. unfold binary_normalize. simpl.
    apply binary_round_signed.
Qed.

Lemma SFmul_nonneg x y :
  SFnonneg x -> SFnonneg y ->
  (forall s, x = S754_infinity s -> False) ->
  (forall s, y = S754_infinity s -> False) ->
  SFnonneg (SFmul prec emax x y).
Proof.
  destruct x as [sx|sx| |sx mx ex], y as [sy|sy| |sy my ey]; simpl;
    try tauto; intros Hx Hy Fx Fy; subst; simpl; auto;
    try (exfalso; eauto; fail).
  apply SFsigned_nonneg, binary_round_aux_signed. lia.
Qed.

Lemma SFmul_nonneg_pos x m e :
  SFnonneg x -> SFnonneg (SFmul prec emax x (S754_finite false m e)).
Proof.
  destruct x as [sx|sx| |sx mx ex]; simpl; try tauto; intros Hx; subst; auto.
  apply SFsigned_nonneg, binary_round_aux_signed. lia.
Qed.

(** *** Integers below [2^53] convert exactly *)

Lemma digits2_pos_shift m p :
  digits2_pos (Pos.iter xO m p) = (digits2_pos m + p)%positive.
Proof.
  induction p as [|p IH] using Pos.peano_ind.
  - simpl. rewrite Pos.add_1_r. reflexivity.
  - rewrite Pos.iter_succ. simpl. rewrite IH, Pos.add_succ_r. reflexivity.
Qed.

Lemma digits2_pos_bound m n :
  Zpos m < 2 ^ n -> 0 <= n -> Zpos (digits2_pos m) <= n.
Proof.
  revert n. induction m as [m IH|m IH|]; intros n Hm Hn; simpl.
  - assert (n <> 0) by (intros ->; simpl in Hm; lia).
    replace n with (Z.succ (n - 1)) in Hm by lia.
    rewrite Z.pow_succ_r in Hm by lia.
    specialize (IH (n - 1) ltac:(lia) ltac:(lia)). lia.
  - assert (n <> 0) by (intros ->; simpl in Hm; lia).
    replace n with (Z.succ (n - 1)) in Hm by lia.
    rewrite Z.pow_succ_r in Hm by lia.
    specialize (IH (n - 1) ltac:(lia) ltac:(lia)). lia.
  - assert (n <> 0) by (intros ->; simpl in Hm; lia). lia.
Qed.

(** A mantissa of exactly 53 digits is kept as it is. *)
Lemma binary_round_aux_full s mz ez :
  Zpos (digits2_pos mz) = 53 -> -1074 <= ez <= 971 ->
  binary_round_aux prec emax s (Zpos mz) ez loc_Exact = S754_finite s mz ez.
Proof.
  intros Hd He.
  assert (Hshr : shr_fexp prec emax (Zpos mz) ez loc_Exact
                 = ({| shr_m := Zpos mz; shr_r := false; shr_s := false |}, ez)).
  { unfold shr_fexp, shr, fexp, SpecFloat.emin, Zdigits2, prec, emax.
    rewrite Hd.
    replace (Z.max (53 + ez - 53) (3 - 1024 - 53) - ez) with 0 by lia.
    reflexivity. }
  unfold binary_round_aux. rewrite Hshr. simpl. rewrite Hshr. simpl.
  destruct (ez <=? emax - prec) eqn:E; [reflexivity|].
  apply Z.leb_gt in E. unfold emax, prec in E. lia.
Qed.

Lemma binary_normalize_safe m :
  Zpos m < 2 ^ 53 ->
  exists mz ez,
    binary_normalize prec emax (Zpos m) 0 false = S754_finite false mz ez
    /\ valid_binary (S754_finite false mz ez) = true.
Proof.
  intros Hm.
  pose proof (digits2_pos_bound m 53 Hm ltac:(lia)) as Hd.
  assert (Hd1 : 1 <= Zpos (digits2_pos m)) by lia.
  unfold binary_normalize, binary_round, shl_align.
  unfold fexp at 1. unfold SpecFloat.emin, prec, emax.
  replace (Z.max (Zpos (digits2_pos m) + 0 - 53) (3 - 1024 - 53) - 0)
    with (Zpos (digits2_pos m) - 53) by lia.
  replace (Z.max (Zpos (digits2_pos m) + 0 - 53) (3 - 1024 - 53))
    with (Zpos (digits2_pos m) - 53) by lia.
  destruct (Zpos (digits2_pos m) - 53) as [|p|p] eqn:E; [| exfalso; lia |].
  - exists m, 0. rewrite binary_round_aux_full by lia. split; [reflexivity|].
    simpl. unfold bounded, canonical_mantissa, fexp, SpecFloat.emin, prec, emax.
    apply andb_true_iff. split; [apply Z.eqb_eq | apply Z.leb_le]; lia.
  - assert (Hs : Zpos (digits2_pos (Pos.iter xO m p)) = 53).
    { rewrite digits2_pos_shift. lia. }
    assert (Hf : fexp 53 1024 (Zpos (digits2_pos m) + 0) = Zneg p)
      by (unfold fexp, SpecFloat.emin; lia).
    exists (Pos.iter xO m p), (Zneg p).
    rewrite Hf, (binary_round_aux_full _ _ _ Hs) by lia.
    split; [reflexivity|].
    simpl. unfold bounded, canonical_mantissa, fexp, SpecFloat.emin, prec, emax.
    rewrite Hs.
    apply andb_true_iff. split; [apply Z.eqb_eq | apply Z.leb_le]; lia.
Qed.

Local Open Scope float_scope.

Lemma zero_spec : Prim2SF 0 = S754_zero false. Proof. reflexivity. Qed.
Lemma infinity_spec : Prim2SF infinity = S754_infinity false. Proof. reflexivity. Qed.

Lemma leb_zero x : (0 <=? x) = true <-> SFnonneg (Prim2SF x).
Proof.
  rewrite FloatAxioms.leb_spec, zero_spec. unfold SFleb.
  destruct (Prim2SF x) as [s|s| |s m e]; simpl; try destruct s; simpl;
    intuition discriminate.
Qed.

Lemma ltb_infinity x :
  (x <? infinity) = true <->
  Prim2SF x <> S754_nan /\ Prim2SF x <> S754_infinity false.
Proof.
  rewrite FloatAxioms.ltb_spec, infinity_spec. unfold SFltb.
  destruct (Prim2SF x) as [s|s| |s m e]; simpl; try destruct s; simpl;
    intuition (discriminate || congruence).
Qed.

Lemma SFcompare_refl x : x <> S754_nan -> SFcompare x x = Some Eq.
Proof.
  destruct x as [s|s| |s m e]; simpl; try congruence; intros _.
  - destruct s; reflexivity.
  - rewrite Z.compare_refl.
    assert (H : Pos.compare_cont Eq m m = Eq) by apply Pos.compare_refl.
    destruct s; rewrite H; reflexivity.
Qed.

Lemma SFcompare_antisym x y :
  SFcompare y x = match SFcompare x y with
                  | Some c => Some (CompOpp c)
                  | None => None
                  end.
Proof.
  destruct x as [sx|sx| |sx mx ex], y as [sy|sy| |sy my ey]; simpl;
    try reflexivity; try (destruct sx; reflexivity);
    try (destruct sy; reflexivity);
    try (destruct sx, sy; reflexivity).
  assert (Hm : Pos.compare_cont Eq my mx = CompOpp (Pos.compare_cont Eq mx my)).
  { apply Pos.compare_antisym. }
  rewrite (Z.compare_antisym ex ey).
  destruct sx, sy; try reflexivity;
    destruct (ex ?= ey)%Z; simpl; try reflexivity; rewrite Hm;
    destruct (Pos.compare_cont Eq mx my); reflexivity.
Qed.

Lemma is_nan_spec x : is_nan x = false <-> Prim2SF x <> S754_nan.
Proof.
  unfold is_nan. rewrite negb_false_iff, FloatAxioms.eqb_spec. unfold SFeqb. split.
  - intros H E. rewrite E in H. discriminate.
  - intros H. rewrite SFcompare_refl; auto.
Qed.

Lemma eqb_refl x : is_nan x = false -> (x =? x) = true.
Proof. unfold is_nan. now rewrite negb_false_iff. Qed.

Lemma nonneg_not_nan x : (0 <=? x) = true -> is_nan x = false.
Proof.
  rewrite leb_zero, is_nan_spec. intros H E. rewrite E in H. exact H.
Qed.

Lemma not_ltb_leb x y :
  is_nan x = false -> is_nan y = false -> (x <? y) = false -> (y <=? x) = true.
Proof.
  rewrite !is_nan_spec, FloatAxioms.ltb_spec, FloatAxioms.leb_spec. unfold SFltb, SFleb.
  intros Hx Hy. rewrite (SFcompare_antisym (Prim2SF x) (Prim2SF y)).
  destruct (Prim2SF x) as [sx|sx| |sx mx ex], (Prim2SF y) as [sy|sy| |sy my ey];
    try congruence;
    destruct (SFcompare _ _) as [[]|] eqn:E; simpl; try congruence;
    simpl in E; discriminate.
Qed.

Lemma leb_not_ltb x y : (x <=? y) = true -> (y <? x) = false.
Proof.
  rewrite FloatAxioms.ltb_spec, FloatAxioms.leb_spec. unfold SFltb, SFleb.
  rewrite (SFcompare_antisym (Prim2SF x) (Prim2SF y)).
  destruct (SFcompare (Prim2SF x) (Prim2SF y)) as [[]|]; simpl; congruence.
Qed.

Lemma leb_not_nan x y : (x <=? y) = true -> is_nan y = false.
Proof.
  rewrite FloatAxioms.leb_spec, is_nan_spec. unfold SFleb. intros H E.
  rewrite E in H. destruct (Prim2SF x); discriminate.
Qed.

Lemma nonneg_leb_trans t r :
  (0 <=? t) = true -> (t <=? r) = true -> (0 <=? r) = true.
Proof.
  rewrite !leb_zero, FloatAxioms.leb_spec. unfold SFleb.
  destruct (Prim2SF t) as [st|st| |st mt et], (Prim2SF r) as [sr|sr| |sr mr er];
    simpl; try tauto; try discriminate; intros Ht; subst;
    try destruct sr; try destruct st; simpl; try tauto; try discriminate; auto.
Qed.

Lemma add_nonneg x y :
  (0 <=? x) = true -> (0 <=? y) = true -> (0 <=? x + y) = true.
Proof. rewrite !leb_zero, FloatAxioms.add_spec. apply SFadd_nonneg. Qed.

Lemma mul_nonneg_finite x y :
  JS.nonneg_finite x = true -> JS.nonneg_finite y = true -> (0 <=? x * y) = true.
Proof.
  unfold JS.nonneg_finite. rewrite !andb_true_iff, !leb_zero, !ltb_infinity, FloatAxioms.mul_spec.
  intros [Hx [_ Fx]] [Hy [_ Fy]].
  apply SFmul_nonneg; auto.
  - intros s E. rewrite E in Hx, Fx. simpl in Hx. subst. congruence.
  - intros s E. rewrite E in Hy, Fy. simpl in Hy. subst. congruence.
Qed.

Lemma tax_rate_spec : exists m e, Prim2SF POS.tax_rate = S754_finite false m e.
Proof. vm_compute. eauto. Qed.

Lemma tax_nonneg x : (0 <=? x) = true -> (0 <=? x * POS.tax_rate) = true.
Proof.
  rewrite !leb_zero, FloatAxioms.mul_spec. destruct tax_rate_spec as (m & e & ->).
  apply SFmul_nonneg_pos.
Qed.

Lemma truthy_not_nan x : negb (is_nan x || is_zero x) = true -> is_nan x = false.
Proof. destruct (is_nan x); simpl; auto. Qed.

(** A safe integer is represented by a non-negative finite value. *)
Lemma Z2float_safe q :
  (0 <= q <= MAX_SAFE_INTEGER)%Z -> nonneg_finite (Z2float q) = true.
Proof.
  intros [Hq0 Hq]. unfold nonneg_finite, Z2float.
  assert (Hq' : (q < 2 ^ 53)%Z) by (unfold MAX_SAFE_INTEGER in Hq; lia).
  clear Hq. rename Hq' into Hq.
  destruct q as [|m|m]; [reflexivity | | lia].
  destruct (binary_normalize_safe m Hq) as (mz & ez & -> & Hvalid).
  rewrite FloatAxioms.leb_spec, FloatAxioms.ltb_spec,
    (Prim2SF_SF2Prim _ Hvalid).
  reflexivity.
Qed.

End FloatFacts.

(** ** The cart *)

Module CartFacts.
Import Cart.

Lemma is_line_of_iff pid item : is_line_of pid item = true <-> id item = pid.
Proof. unfold is_line_of. apply String.eqb_eq. Qed.

Lemma is_line_of_false pid item :
  is_line_of pid item = false <-> id item <> pid.
Proof. unfold is_line_of. apply String.eqb_neq. Qed.

Lemma find_line_none pid cart :
  List.find (is_line_of pid) cart = None <-> ~ In pid (List.map id cart).
Proof.
  induction cart as [|item cart IH]; simpl.
  - tauto.
  - destruct (is_line_of pid item) eqn:E.
    + apply is_line_of_iff in E. split; [discriminate | intros H; tauto].
    + apply is_line_of_false in E. rewrite IH. tauto.
Qed.

(** Rewriting the quantity of some lines keeps the ids, in order. *)
Lemma map_id_requantify (f : CartLine -> Z) (p : CartLine -> bool) cart :
  List.map id (List.map (fun item => if p item
                                     then with_quantity item (f item)
                                     else item) cart)
  = List.map id cart.
Proof.
  induction cart as [|item cart IH]; simpl; [reflexivity|].
  rewrite IH. destruct (p item); reflexivity.
Qed.

Lemma map_id_remove pid cart :
  List.map id (removeFromCart cart pid)
  = List.filter (fun i => negb (String.eqb i pid)) (List.map id cart).
Proof.
  unfold removeFromCart, is_line_of.
  induction cart as [|item cart IH]; simpl; [reflexivity|].
  destruct (String.eqb (id item) pid); simpl; congruence.
Qed.

Lemma removeFromCart_distinct cart pid :
  distinct_lines cart -> distinct_lines (removeFromCart cart pid).
Proof.
  unfold distinct_lines. rewrite map_id_remove. apply List.NoDup_filter.
Qed.

Lemma removeFromCart_gone cart pid :
  ~ In pid (List.map id (removeFromCart cart pid)).
Proof.
  rewrite map_id_remove, filter_In. intros [_ H].
  rewrite String.eqb_refl in H. discriminate.
Qed.

Lemma removeFromCart_others cart pid item :
  In item (removeFromCart cart pid) <-> In item cart /\ id item <> pid.
Proof.
  unfold removeFromCart. rewrite filter_In, negb_true_iff, is_line_of_false.
  reflexivity.
Qed.

Lemma add_updater_distinct product prevCart :
  distinct_lines prevCart -> distinct_lines (add_updater product prevCart).
Proof.
  unfold distinct_lines, add_updater. intros ND.
  destruct (List.find (is_line_of (id product)) prevCart) eqn:F.
  - unfold incremented.
    rewrite (map_id_requantify (fun item => quantity item + 1)). exact ND.
  - apply find_line_none in F.
    rewrite List.map_app. simpl.
    apply List.NoDup_app; [exact ND | repeat constructor; simpl; tauto |].
    intros x Hx [<- | []]. exact (F Hx).
Qed.

Lemma addToCart_distinct db closure prevCart product :
  distinct_lines prevCart ->
  distinct_lines (fst (addToCart db closure prevCart product)).
Proof.
  intros ND. unfold addToCart.
  destruct (productService.getById db (id product)) as [cur|e]; simpl; auto.
  destruct (quantity cur <=? currentCartQuantity closure (id product));
    simpl; auto using add_updater_distinct.
Qed.

Lemma updateQuantity_distinct db prevCart pid q :
  distinct_lines prevCart ->
  distinct_lines (fst (updateQuantity db prevCart pid q)).
Proof.
  intros ND. unfold updateQuantity.
  destruct (q <? 1); simpl; auto using removeFromCart_distinct.
  destruct (productService.getById db pid) as [p|e]; simpl; auto.
  destruct (quantity p <? q); simpl; auto.
  unfold distinct_lines.
  rewrite (map_id_requantify (fun _ => q)). exact ND.
Qed.

Lemma perform_distinct cart a :
  distinct_lines cart -> distinct_lines (perform cart a).
Proof.
  destruct a; simpl;
    auto using addToCart_distinct, updateQuantity_distinct,
               removeFromCart_distinct.
Qed.

Lemma fold_perform_distinct actions cart :
  distinct_lines cart -> distinct_lines (fold_left perform actions cart).
Proof.
  revert cart. induction actions as [|a actions IH]; simpl; intros cart ND.
  - exact ND.
  - apply IH, perform_distinct, ND.
Qed.

(** C10: from the empty cart, every sequence of [addToCart],
    [updateQuantity] and [removeFromCart] calls (whatever the back end
    answers and whatever cart the render closure of [addToCart] had
    captured) leaves at most one line per product; and [updateQuantity]
    with a new quantity below 1 removes the product's line: no line of
    that product remains and all other lines stay. *)
Theorem cart_one_line_per_product :
  (forall actions, distinct_lines (run actions))
  /\ (forall db cart productId newQuantity,
         newQuantity < 1 ->
         let cart' := fst (updateQuantity db cart productId newQuantity) in
         ~ In productId (List.map id cart')
         /\ (forall item, In item cart' <->
                          In item cart /\ id item <> productId)
         /\ snd (updateQuantity db cart productId newQuantity) = []).
Proof.
  split.
  - intros actions. apply fold_perform_distinct. constructor.
  - intros db cart pid q Hq. unfold updateQuantity.
    apply Z.ltb_lt in Hq. rewrite Hq. simpl.
    split; [apply removeFromCart_gone|].
    split; [intros item; apply removeFromCart_others | reflexivity].
Qed.

(** *** The stock check of [addToCart] *)

Lemma find_incremented pid cart :
  List.find (is_line_of pid) (List.map (incremented pid) cart)
  = match List.find (is_line_of pid) cart with
    | Some line => Some (with_quantity line (quantity line + 1))
    | None => None
    end.
Proof.
  unfold incremented.
  induction cart as [|item cart IH]; simpl; [reflexivity|].
  destruct (is_line_of pid item) eqn:E; simpl.
  - unfold is_line_of in *. simpl. rewrite E. reflexivity.
  - rewrite E. exact IH.
Qed.

Lemma find_appended pid cart (line : CartLine) :
  List.find (is_line_of pid) cart = None ->
  List.find (is_line_of pid) (cart ++ [line])
  = if is_line_of pid line then Some line else None.
Proof.
  induction cart as [|item cart IH]; simpl; [reflexivity|].
  destruct (is_line_of pid item); [discriminate | exact IH].
Qed.

Lemma quantity_add_updater product cart :
  currentCartQuantity (add_updater product cart) (id product)
  = currentCartQuantity cart (id product) + 1.
Proof.
  unfold add_updater, currentCartQuantity.
  destruct (List.find (is_line_of (id product)) cart) as [line|] eqn:F.
  - rewrite find_incremented, F. reflexivity.
  - rewrite (find_appended _ _ _ F). unfold is_line_of. simpl.
    rewrite String.eqb_refl. reflexivity.
Qed.

Lemma distinct_line_found pid cart item :
  distinct_lines cart -> In item cart -> id item = pid ->
  List.find (is_line_of pid) cart = Some item.
Proof.
  unfold distinct_lines.
  induction cart as [|x cart IH]; simpl; intros ND Hin Hid; [tauto|].
  inversion ND as [|? ? Hx ND']; subst.
  destruct Hin as [-> | Hin].
  - rewrite (proj2 (is_line_of_iff (id item) item) eq_refl). reflexivity.
  - destruct (is_line_of (id item) x) eqn:E.
    + apply is_line_of_iff in E. exfalso. apply Hx. rewrite E.
      apply in_map, Hin.
    + auto.
Qed.

Lemma add_updater_others product cart item :
  In item (add_updater product cart) -> id item <> id product ->
  In item cart.
Proof.
  unfold add_updater.
  destruct (List.find (is_line_of (id product)) cart).
  - rewrite in_map_iff. unfold incremented. intros (x & <- & Hx) Hne.
    destruct (is_line_of (id product) x) eqn:E; [|exact Hx].
    apply is_line_of_iff in E. simpl in Hne. contradiction.
  - rewrite in_app_iff. simpl. intros [H | [<- | []]] Hne; [exact H|].
    simpl in Hne. contradiction.
Qed.

(** The effect of [addToCart] when the product is fetched and the cart
    of the render closure shows, for this product, the quantity that is on
    its line in the current cart. *)
Lemma addToCart_checked db closure cart product currentProduct :
  productService.getById db (id product) = Ok currentProduct ->
  currentCartQuantity closure (id product)
  = currentCartQuantity cart (id product) ->
  let inCart := currentCartQuantity cart (id product) in
  let cart' := fst (addToCart db closure cart product) in
  let toasts := snd (addToCart db closure cart product) in
  (toasts = [insufficient_stock (quantity currentProduct)]
   <-> quantity currentProduct <= inCart)
  /\ (quantity currentProduct <= inCart -> cart' = cart)
  /\ (inCart < quantity currentProduct ->
      toasts = []
      /\ (~ In (id product) (List.map id cart) ->
          cart' = cart ++ [with_quantity product 1])
      /\ (In (id product) (List.map id cart) ->
          cart' = List.map (incremented (id product)) cart)
      /\ (forall item, In item cart' -> id item <> id product ->
                       In item cart)
      /\ currentCartQuantity cart' (id product) = inCart + 1
      /\ currentCartQuantity cart' (id product) <= quantity currentProduct
      /\ (distinct_lines cart ->
          forall item, In item cart' -> id item = id product ->
                       quantity item = inCart + 1
                       /\ quantity item <= quantity currentProduct)).
Proof.
  intros Hget Hsame inCart cart' toasts.
  subst cart' toasts. unfold addToCart. rewrite Hget, Hsame. fold inCart.
  destruct (quantity currentProduct <=? inCart) eqn:Hle; simpl.
  - apply Z.leb_le in Hle.
    split; [split; [intros _; exact Hle | reflexivity]|].
    split; [reflexivity | intros Hlt; lia].
  - apply Z.leb_gt in Hle.
    split; [split; [discriminate | lia]|].
    split; [lia|]. intros _.
    split; [reflexivity|].
    split.
    { intros Hnone. apply find_line_none in Hnone.
      unfold add_updater. rewrite Hnone. reflexivity. }
    split.
    { intros Hsome. unfold add_updater.
      destruct (List.find (is_line_of (id product)) cart) eqn:F.
      - reflexivity.
      - apply find_line_none in F. contradiction. }
    split; [intros item; apply add_updater_others|].
    pose proof (quantity_add_updater product cart) as Hq. fold inCart in Hq.
    split; [exact Hq|]. split; [lia|].
    intros ND item Hin Hid.
    pose proof (distinct_line_found (id product) _ item
                  (add_updater_distinct product cart ND) Hin Hid) as F.
    unfold currentCartQuantity in Hq at 1. rewrite F in Hq. lia.
Qed.

(** A call of [addToCart] made on the cart the component has rendered,
    no other update of the cart being under way ([cart] is both the
    closure and the state): it raises the insufficient-stock error
    exactly when the fetched quantity is at most the quantity on the
    product's line (0 without a line), and then leaves the cart as it is.
    Otherwise it raises nothing, appends the line with quantity 1 when
    the product has no line, adds 1 to the quantity of the product's line
    when it has one, and keeps the lines of the other products; the
    quantity on the product's line is then at most the fetched
    quantity. *)
Theorem addToCart_respects_stock db cart product currentProduct :
  productService.getById db (id product) = Ok currentProduct ->
  let inCart := currentCartQuantity cart (id product) in
  let cart' := fst (addToCart db cart cart product) in
  let toasts := snd (addToCart db cart cart product) in
  (toasts = [insufficient_stock (quantity currentProduct)]
   <-> quantity currentProduct <= inCart)
  /\ (quantity currentProduct <= inCart -> cart' = cart)
  /\ (inCart < quantity currentProduct ->
      toasts = []
      /\ (~ In (id product) (List.map id cart) ->
          cart' = cart ++ [with_quantity product 1])
      /\ (In (id product) (List.map id cart) ->
          cart' = List.map (incremented (id product)) cart)
      /\ (forall item, In item cart' -> id item <> id product ->
                       In item cart)
      /\ currentCartQuantity cart' (id product) = inCart + 1
      /\ currentCartQuantity cart' (id product) <= quantity currentProduct
      /\ (distinct_lines cart ->
          forall item, In item cart' -> id item = id product ->
                       quantity item = inCart + 1
                       /\ quantity item <= quantity currentProduct)).
Proof.
  intros Hget inCart cart' toasts.
  destruct (addToCart_checked db cart cart product currentProduct Hget eq_refl)
    as (Hreject & Hkept & Hadded).
  split; [exact Hreject|]. split; [exact Hkept|].
  intros Hlt. exact (Hadded Hlt).
Qed.

Lemma addToCart_respects_stock_witness :
  let cart := [with_quantity Samples.soap 2] in
  let cart' := fst (addToCart Samples.store cart cart Samples.soap) in
  currentCartQuantity cart' "p2" = 3
  /\ forall item, In item cart' -> id item = "p2" -> quantity item <= 7.
Proof.
  intros cart cart'.
  destruct (addToCart_respects_stock Samples.store cart Samples.soap
              Samples.soap eq_refl) as (_ & _ & H).
  destruct (H ltac:(vm_compute; reflexivity)) as (_ & _ & _ & _ & Hq & _ & Hall).
  split; [exact Hq|].
  intros item Hin Hid.
  apply (Hall ltac:(repeat constructor; simpl; tauto) item Hin Hid).
Defined.

Lemma cart_one_line_per_product_witness :
  let cart := [with_quantity Samples.soap 2; with_quantity Samples.cola 1] in
  ~ In "p2" (List.map id (fst (updateQuantity Samples.store cart "p2" 0))).
Proof.
  intros cart.
  destruct cart_one_line_per_product as [_ H].
  apply (H Samples.store cart "p2" 0 ltac:(lia)).
Defined.

(** Scenario D, one call after the other: with one unit in stock the
    second [addToCart], whose closure holds the cart left by the first,
    is rejected. *)
Example second_add_rejected :
  let cart1 := fst (addToCart Samples.store [] [] Samples.cola) in
  cart1 = [with_quantity Samples.cola 1]
  /\ addToCart Samples.store cart1 cart1 Samples.cola
     = (cart1, [insufficient_stock 1]).
Proof. vm_compute. split; reflexivity. Qed.

(** C1: two calls of [addToCart] for a product of which the store has
    one unit, made from the same render of the empty cart (the second
    before the first has updated the cart).  Both read the cart of that
    render in the stock check, so both find no line and pass, while the
    update of the second is applied to the cart left by the first: the
    second call raises no insufficient-stock error and the line gets
    quantity 2, one more than the quantity fetched at the time of the
    call. *)
Theorem overlapping_adds_overshoot :
  let rendered := [] in
  let cart1 := fst (addToCart Samples.store rendered rendered Samples.cola) in
  let second := addToCart Samples.store rendered cart1 Samples.cola in
  productService.getById Samples.store "p1" = Ok Samples.cola
  /\ quantity Samples.cola = 1
  /\ cart1 = [with_quantity Samples.cola 1]
  /\ currentCartQuantity cart1 "p1" = 1
  /\ second = ([with_quantity Samples.cola 2], [])
  /\ currentCartQuantity (fst second) "p1" = 2.
Proof. vm_compute. repeat split; reflexivity. Qed.

End CartFacts.

(** ** Barcode resolution and routing *)

Module RouterFacts.
Import Scanner.

Lemma find_first {A} (f : A -> bool) (l : list A) (x : A) :
  List.find f l = Some x <->
  exists before after,
    l = before ++ x :: after /\ f x = true
    /\ forall y, In y before -> f y = false.
Proof.
  induction l as [|a l IH]; simpl.
  - split; [discriminate|]. intros ([|? ?] & ? & H & _); discriminate.
  - destruct (f a) eqn:E.
    + split.
      * intros [= <-]. exists [], l. simpl. tauto.
      * intros ([|b before] & after & H & Hx & Hb); simpl in H.
        -- congruence.
        -- injection H as <- _. rewrite (Hb a (or_introl eq_refl)) in E.
           discriminate.
    + rewrite IH. split.
      * intros (before & after & -> & Hx & Hb).
        exists (a :: before), after. simpl.
        repeat split; auto. intros y [<- | Hy]; auto.
      * intros ([|b before] & after & H & Hx & Hb); simpl in H.
        -- injection H as <- _. congruence.
        -- injection H as <- ->. exists before, after.
           repeat split; auto. intros y Hy. apply Hb. now right.
Qed.

Lemma find_ext_in {A} (f g : A -> bool) (l : list A) :
  (forall x, In x l -> f x = g x) -> List.find f l = List.find g l.
Proof.
  induction l as [|a l IH]; simpl; intros H; [reflexivity|].
  rewrite <- (H a (or_introl eq_refl)).
  destruct (f a); [reflexivity|]. apply IH. intros x Hx. apply H. now right.
Qed.

Lemma matches_iff token p :
  matches token p = true <-> barcode p = token \/ id p = token.
Proof.
  unfold matches, toString.
  rewrite !orb_true_iff, !String.eqb_eq. tauto.
Qed.

Lemma matches_false token p :
  matches token p = false <-> barcode p <> token /\ id p <> token.
Proof.
  unfold matches, toString.
  rewrite !orb_false_iff, !String.eqb_neq. tauto.
Qed.

(** The claim of C8 read as stated fails: [gum] carries as id the
    barcode of [mints], which comes later on the shelf.  The code selects
    [gum] on its id although a barcode match exists. *)
Lemma lookup_id_match_before_barcode_match :
  Scanner.lookup Samples.shelf "12345" = Some Samples.gum
  /\ Spec.lookup Samples.shelf "12345" = Some Samples.mints
  /\ barcode Samples.gum <> "12345".
Proof. repeat split; discriminate. Qed.

(** C8 (amended): resolution selects the first product, in the order of
    the catalog, whose barcode or whose id equals the token, and none
    when no product matches either way.  This is the first product whose
    barcode equals the token when no product has the token as id, and the
    first product whose id equals the token when no product has the token
    as barcode. *)
Theorem lookup_first_match (products : list Product) (token : string) :
  (forall p,
      lookup products token = Some p <->
      exists before after,
        products = before ++ p :: after
        /\ (barcode p = token \/ id p = token)
        /\ forall q, In q before -> barcode q <> token /\ id q <> token)
  /\ (lookup products token = None <->
      forall q, In q products -> barcode q <> token /\ id q <> token)
  /\ ((forall q, In q products -> id q <> token) ->
      lookup products token
      = List.find (fun p => String.eqb (barcode p) token) products)
  /\ ((forall q, In q products -> barcode q <> token) ->
      lookup products token
      = List.find (fun p => String.eqb (id p) token) products).
Proof.
  unfold lookup. split; [|split; [|split]].
  - intros p. rewrite find_first. split.
    + intros (before & after & -> & Hp & Hb).
      exists before, after. rewrite <- matches_iff.
      repeat split; auto; apply matches_false, Hb; assumption.
    + intros (before & after & -> & Hp & Hb).
      exists before, after. rewrite matches_iff. repeat split; auto.
      intros y Hy. apply matches_false, Hb, Hy.
  - split.
    + intros F q Hq. apply matches_false. eapply find_none; eauto.
    + intros H. destruct (List.find (matches token) products) eqn:F; auto.
      apply find_some in F as [Hin Hm].
      apply H, matches_false in Hin. congruence.
  - intros Hid. apply find_ext_in. intros x Hx. unfold matches, toString.
    rewrite (proj2 (String.eqb_neq _ _) (Hid x Hx)).
    destruct (String.eqb (barcode x) token); reflexivity.
  - intros Hbc. apply find_ext_in. intros x Hx. unfold matches, toString.
    rewrite (proj2 (String.eqb_neq _ _) (Hbc x Hx)). reflexivity.
Qed.

Lemma lookup_first_match_witness :
  lookup [Samples.soap; Samples.cola] "8991234567890"
  = List.find (fun p => String.eqb (barcode p) "8991234567890")
              [Samples.soap; Samples.cola]
  /\ lookup [Samples.soap; Samples.cola] "p1"
     = List.find (fun p => String.eqb (id p) "p1")
                 [Samples.soap; Samples.cola].
Proof.
  destruct (lookup_first_match [Samples.soap; Samples.cola] "8991234567890")
    as (_ & _ & H & _).
  destruct (lookup_first_match [Samples.soap; Samples.cola] "p1")
    as (_ & _ & _ & H').
  split.
  - apply H. intros q [<- | [<- | []]]; discriminate.
  - apply H'. intros q [<- | [<- | []]]; discriminate.
Defined.

(** *** Duplicate suppression *)

Lemma skip_test pathname now st barcode :
  isProcessing st
  || (String.eqb (lastProcessed st) barcode
      && (now - lastProcessedTime st <? duplicateTimeout pathname)) = true
  <-> skipped pathname now st barcode.
Proof.
  unfold skipped.
  rewrite orb_true_iff, andb_true_iff, String.eqb_eq, Z.ltb_lt. tauto.
Qed.

(** The claim of C6 read as stated fails: it has every screen but the
    sale screen discard a token that comes again within 2000 ms.  On the
    inventory screen the scanner sends the bar code of the cola and
    Enter, and the same again 400 ms later: both tokens are handed to
    [handleInventoryBarcode], which raises its warning each time. *)
Lemma inventory_scan_not_deduplicated :
  let scan := Provider.keys Samples.body "8991234567890"
              ++ [Provider.Enter Samples.body] in
  let twice :=
    Provider.feed "/inventory" Samples.shelf initial
      (combine [1000; 1001; 1002; 1003; 1004; 1005; 1006; 1007; 1008; 1009;
                1010; 1011; 1012; 1013;
                1400; 1401; 1402; 1403; 1404; 1405; 1406; 1407; 1408; 1409;
                1410; 1411; 1412; 1413]
               (scan ++ scan)) in
  let warned :=
    [scanned "8991234567890";
     toast (toast_error ("Product " +:+ dquote +:+ "Cola" +:+ dquote
                         +:+ " already exists with this barcode"))] in
  snd twice = warned ++ warned
  /\ 1413 - 1013 < duplicateTimeout "/inventory".
Proof. vm_compute. split; reflexivity. Qed.

(** C6: the window is 500 ms on the sale screen and 2000 ms elsewhere.
    On every screen but the inventory screen, a committed token that
    equals the last processed token and arrives within the window, or
    arrives while a resolution is in flight, changes nothing and routes
    nothing.  Hence when a token is resolved (not skipped) and is
    committed again while it is still the last processed token and the
    window of the current screen is open, the two commits together route
    exactly one action, that of the first: the unknown-product error,
    the out-of-stock error, the bar-code data for the sale screen, or
    the navigation to the sale screen.  On the inventory screen a
    committed token is handed to the handler of that screen whatever was
    processed before. *)
Theorem duplicate_token_skipped :
  duplicateTimeout "/pos" = 500
  /\ (forall pathname, pathname <> "/pos" -> duplicateTimeout pathname = 2000)
  /\ (forall pathname products now st barcode,
         pathname <> "/inventory" ->
         skipped pathname now st barcode ->
         emit (page_of pathname) pathname products now st barcode
         = (st, [scanned barcode]))
  /\ (forall pathname1 products1 now1 st0 barcode,
         pathname1 <> "/inventory" ->
         ~ skipped pathname1 now1 st0 barcode ->
         let first :=
           emit (page_of pathname1) pathname1 products1 now1 st0 barcode in
         snd first
         = scanned barcode
           :: match lookup products1 barcode with
              | None =>
                  [toast (toast_error ("Product with barcode " +:+ dquote
                                       +:+ barcode +:+ dquote
                                       +:+ " not found"))]
              | Some product =>
                  if quantity product <=? 0
                  then [toast (toast_error (name product
                                            +:+ " is out of stock"))]
                  else if String.eqb pathname1 "/pos"
                  then [setBarcodeData barcode product now1;
                        toast (toast_success (name product +:+ " found"))]
                  else [toast (toast_success
                                 ("Product found: " +:+ name product
                                  +:+ ". Navigating to POS..."));
                        navigate_pos product]
              end
         /\ forall pathname2 products2 now2 st2,
             pathname2 <> "/inventory" ->
             lastProcessed st2 = lastProcessed (fst first) ->
             lastProcessedTime st2 = lastProcessedTime (fst first) ->
             now2 - now1 < duplicateTimeout pathname2 ->
             emit (page_of pathname2) pathname2 products2 now2 st2 barcode
             = (st2, [scanned barcode]))
  /\ (forall products now st barcode,
         emit (page_of "/inventory") "/inventory" products now st barcode
         = (st, scanned barcode :: handleInventoryBarcode products barcode)
         /\ handleInventoryBarcode products barcode <> []).
Proof.
  split; [reflexivity|].
  split.
  { intros pathname Hne. unfold duplicateTimeout.
    apply String.eqb_neq in Hne. rewrite Hne. reflexivity. }
  assert (Hpage : forall pathname, pathname <> "/inventory" ->
                                   page_of pathname = global_page).
  { intros pathname Hne. unfold page_of.
    apply String.eqb_neq in Hne. rewrite Hne. reflexivity. }
  assert (Hskip : forall pathname products now st barcode,
             pathname <> "/inventory" ->
             skipped pathname now st barcode ->
             emit (page_of pathname) pathname products now st barcode
             = (st, [scanned barcode])).
  { intros pathname products now st barcode Hne H.
    rewrite (Hpage pathname Hne). unfold emit, processBarcodeData.
    apply skip_test in H. rewrite H. reflexivity. }
  split; [exact Hskip|].
  split.
  - intros pathname1 products1 now1 st0 barcode Hne Hfresh first.
    subst first. rewrite (Hpage pathname1 Hne).
    unfold emit, processBarcodeData.
    destruct (isProcessing st0
              || (String.eqb (lastProcessed st0) barcode
                  && (now1 - lastProcessedTime st0
                      <? duplicateTimeout pathname1)))
      eqn:E.
    { apply skip_test in E. contradiction. }
    cbn [fst snd lastProcessed lastProcessedTime]. split.
    + f_equal. unfold resolve.
      destruct (lookup products1 barcode) as [product|]; [|reflexivity].
      destruct (quantity product <=? 0); [reflexivity|].
      destruct (String.eqb pathname1 "/pos"); reflexivity.
    + intros pathname2 products2 now2 st2 Hne2 Hlast Htime Hwin.
      apply Hskip; [exact Hne2|]. right. rewrite Hlast, Htime. auto.
  - intros products now st barcode. split; [reflexivity|].
    unfold handleInventoryBarcode.
    destruct (lookup products barcode); discriminate.
Qed.

(** Scenario C: the scanner fires the same token again 40 ms later. *)
Lemma duplicate_token_skipped_witness :
  snd (emit global_page "/pos" Samples.shelf 1000 initial "8991234567890")
  = [scanned "8991234567890";
     setBarcodeData "8991234567890" Samples.cola 1000;
     toast (toast_success "Cola found")]
  /\ emit global_page "/pos" Samples.shelf 1040
           (processing_reset Samples.scanned_once) "8991234567890"
     = (processing_reset Samples.scanned_once, [scanned "8991234567890"]).
Proof.
  destruct duplicate_token_skipped as (_ & _ & _ & H & _).
  destruct (H "/pos" Samples.shelf 1000 initial "8991234567890") as [H1 H2].
  { discriminate. }
  { intros [H0 | [H0 _]]; discriminate. }
  split; [exact H1|].
  apply (H2 "/pos"); [discriminate | reflexivity | reflexivity
                     | vm_compute; reflexivity].
Defined.

(** Scenario C at the keyboard: the scanner types the token and Enter,
    and again 40 ms later.  The first burst routes the add-to-cart action.
    The keys of the second burst arrive while the resolution is in flight
    and are ignored one by one.  Had the flag been lowered in between (it
    is after 300 ms), the second burst would be decoded and its token
    skipped as a duplicate. *)
Example scenario_C_double_fire :
  let token := "8991234567890" in
  let first := Samples.burst "/pos" Samples.shelf 1000 Scanner.initial token in
  let second := Samples.burst "/pos" Samples.shelf 1053 (fst first) token in
  let late := Samples.burst "/pos" Samples.shelf 1320
                            (processing_reset (fst first)) token in
  snd first = scanned token :: dispatch (add_to_cart token Samples.cola 1013)
  /\ second = (fst first, [])
  /\ snd late = [scanned token]
  /\ buffer (fst late) = "".
Proof. vm_compute. repeat split; reflexivity. Qed.

End RouterFacts.

(** ** The scanner decoders *)

Module DecoderFacts.
Import Scanner.



Lemma emit_buffer page pathname products now st barcode :
  buffer (fst (emit page pathname products now st barcode)) = buffer st.
Proof.
  destruct page; simpl; [|reflexivity].
  unfold processBarcodeData.
  destruct (isProcessing st || _); reflexivity.
Qed.



(** An Enter keystroke that reaches the decoder commits. *)
Lemma enter_commits pathname products now st tgt :
  suspendedCount st <= 0 -> editable tgt = false ->
  isProcessing st = false ->
  handleGlobalKeyDown pathname products now st (mkKeyboardEvent "Enter" tgt)
  = commit (page_of pathname) pathname products now (set_timeout st None).
Proof.
  intros Hs He Hp. apply Z.ltb_ge in Hs.
  unfold handleGlobalKeyDown, handleKeyDown, handleInventoryKeyDown, page_of.
  cbn [key target].
  destruct (String.eqb pathname "/inventory");
    rewrite Hs, He; unfold decode; rewrite Hp; reflexivity.
Qed.


(** An Enter keystroke in the product form queues the updater of the bar
    code only above 6 characters. *)
Lemma form_enter_threshold now st event :
  ProductForm.key event = "Enter" ->
  In ProductForm.setFormData_barcode
     (snd (ProductForm.handleBarcodeKeyDown now st event)) ->
  (6 < JS.length (ProductForm.barcodeBuffer st))%nat.
Proof.
  intros Hk. unfold ProductForm.handleBarcodeKeyDown. rewrite Hk. simpl.
  destruct (negb (ProductForm.isScanningBarcode st)); simpl; [tauto|].
  destruct (negb _ && _); simpl; [tauto|].
  destruct (6 <? JS.length (ProductForm.barcodeBuffer st))%nat eqn:E;
    simpl; [|tauto].
  apply Nat.ltb_lt in E. intros _. exact E.
Qed.


(** C7: the Enter branch of the product form decoder returns without
    emptying a buffer that is too short (at most 6 characters), whereas the
    timer callback of the same decoder empties it.  The five characters
    stay in the buffer with no timer left to clear them, and the next scan
    is appended to them: after the keys 6 and 7 the buffer holds 1234567,
    and the Enter that follows finds more than 6 characters, so that it
    queues the updater of the bar code and raises the success
    notification for a scan of two characters. *)
Theorem form_enter_keeps_short_buffer :
  ProductForm.handleBarcodeKeyDown 40 Samples.form_scanning_12345 Samples.form_enter
  = (ProductForm.mkState true "12345" None "", [])
  /\ ProductForm.inactivity_timeout Samples.form_scanning_12345
     = (ProductForm.mkState true "" None "", [])
  /\ (let body := ProductForm.mkTarget "BODY" false in
      let key k := ProductForm.mkKeyboardEvent k body in
      let st1 := fst (ProductForm.handleBarcodeKeyDown 40 Samples.form_scanning_12345
                                                       Samples.form_enter) in
      let st2 := fst (ProductForm.handleBarcodeKeyDown 5000 st1 (key "6")) in
      let st3 := fst (ProductForm.handleBarcodeKeyDown 5010 st2 (key "7")) in
      ProductForm.barcodeBuffer st3 = "1234567"
      /\ ProductForm.handleBarcodeKeyDown 5020 st3 Samples.form_enter
         = (ProductForm.mkState false "" None "",
            [ProductForm.setFormData_barcode;
             ProductForm.toast
               (toast_success "Barcode scanned successfully!")])).
Proof. vm_compute. repeat split; reflexivity. Qed.

(** *** Ignored keystrokes *)

(** A keystroke on an editable element, or while scanning is suspended,
    changes nothing and raises nothing. *)
Lemma filtered_keystroke_ignored pathname products now st event :
  0 < suspendedCount st \/ editable (target event) = true ->
  handleGlobalKeyDown pathname products now st event = (st, []).
Proof.
  intros H.
  unfold handleGlobalKeyDown, handleKeyDown, handleInventoryKeyDown.
  destruct (0 <? suspendedCount st) eqn:Es;
    [destruct (String.eqb pathname "/inventory"); reflexivity|].
  destruct H as [H | H]; [apply Z.ltb_lt in H; congruence|].
  rewrite H. destruct (String.eqb pathname "/inventory"); reflexivity.
Qed.

(** A key of one character outside the accepted set leaves the buffer as
    it is and raises nothing. *)
Lemma unaccepted_key_keeps_buffer pathname products now st event :
  JS.length (key event) = 1%nat -> accepted_key (key event) = false ->
  buffer (fst (handleGlobalKeyDown pathname products now st event))
  = buffer st
  /\ snd (handleGlobalKeyDown pathname products now st event) = [].
Proof.
  intros Hlen Hacc.
  assert (Hne : String.eqb (key event) "Enter" = false).
  { apply String.eqb_neq. intros E. rewrite E in Hlen.
    vm_compute in Hlen. discriminate. }
  unfold handleGlobalKeyDown, handleKeyDown, handleInventoryKeyDown, decode.
  rewrite Hlen, Hne, Hacc. simpl.
  destruct (String.eqb pathname "/inventory"), (0 <? suspendedCount st),
    (editable (target event)), (isProcessing st); simpl; auto.
Qed.

(** More precisely, such a key leaves the whole state as it is when the
    keystroke is filtered or a resolution is in flight, and otherwise
    clears the inactivity timer. *)
Lemma unaccepted_key_state pathname products now st event :
  JS.length (key event) = 1%nat -> accepted_key (key event) = false ->
  handleGlobalKeyDown pathname products now st event
  = (if (0 <? suspendedCount st) || editable (target event) || isProcessing st
     then st else set_timeout st None, []).
Proof.
  intros Hlen Hacc.
  assert (Hne : String.eqb (key event) "Enter" = false).
  { apply String.eqb_neq. intros E. rewrite E in Hlen.
    vm_compute in Hlen. discriminate. }
  unfold handleGlobalKeyDown, handleKeyDown, handleInventoryKeyDown, decode.
  rewrite Hlen, Hne, Hacc. simpl.
  destruct (String.eqb pathname "/inventory") eqn:Ep,
    (0 <? suspendedCount st), (editable (target event)), (isProcessing st);
    simpl; rewrite ?Ep; reflexivity.
Qed.

(** C9: a key of one character outside the accepted set, here a space
    typed on the page body with [abc] in the buffer, leaves the buffer as
    it is but clears the pending inactivity timer and arms no new one, on
    the sale screen and on the inventory screen alike; a special key such
    as Shift leaves the timer pending. *)
Theorem unaccepted_key_clears_timer :
  handleGlobalKeyDown "/pos" Samples.shelf 1100 Samples.typing_abc Samples.space_key
  = (mkState 0 "abc" None false "" 0 [], [])
  /\ handleGlobalKeyDown "/inventory" Samples.shelf 1100 Samples.typing_abc Samples.space_key
     = (mkState 0 "abc" None false "" 0 [], [])
  /\ handleGlobalKeyDown "/pos" Samples.shelf 1100 Samples.typing_abc Samples.shift_key
     = (Samples.typing_abc, []).
Proof. vm_compute. repeat split; reflexivity. Qed.

(** The name of an accented letter is one code unit long (two bytes):
    the key is no special key, and clears the timer like the space. *)
Example accented_key_clears_timer :
  JS.length (key Samples.e_acute_key) = 1%nat
  /\ String.length (key Samples.e_acute_key) = 2%nat
  /\ handleGlobalKeyDown "/pos" Samples.shelf 1100 Samples.typing_abc
                         Samples.e_acute_key
     = (set_timeout Samples.typing_abc None, []).
Proof. vm_compute. repeat split; reflexivity. Qed.

End DecoderFacts.

(** ** Totals and checkout *)

Module CheckoutFacts.
Import POS.
Local Open Scope float_scope.

(** *** What [handleCheckout] asks to create *)

Lemma creates_of_app t1 t2 :
  creates_of (t1 ++ t2) = creates_of t1 ++ creates_of t2.
Proof. apply flat_map_app. Qed.

Lemma updates_of_app t1 t2 :
  updates_of (t1 ++ t2) = updates_of t1 ++ updates_of t2.
Proof. apply flat_map_app. Qed.

Lemma creates_of_loadProducts db : creates_of (loadProducts db) = [].
Proof.
  unfold loadProducts. destruct (productService.getAll db); reflexivity.
Qed.

Lemma updates_of_loadProducts db : updates_of (loadProducts db) = [].
Proof.
  unfold loadProducts. destruct (productService.getAll db); reflexivity.
Qed.

Lemma creates_of_settlement db : creates_of (on_all_fulfilled db) = [].
Proof.
  unfold on_all_fulfilled. rewrite creates_of_app, creates_of_loadProducts.
  reflexivity.
Qed.

Lemma updates_of_settlement db : updates_of (on_all_fulfilled db) = [].
Proof.
  unfold on_all_fulfilled. rewrite updates_of_app, updates_of_loadProducts.
  reflexivity.
Qed.

Lemma deliver_creates r i :
  creates_of (run_trace (deliver r i)) = creates_of (run_trace r).
Proof.
  unfold deliver, reject.
  destruct (run_tasks r !! i) as [[item|item cur|item cur|item e|item cur e]|];
    try reflexivity.
  - destruct (productService.getById (run_db r) (id item)); cbn [run_trace];
      rewrite creates_of_app; [apply app_nil_r|].
    destruct (run_settled r); apply app_nil_r.
  - destruct (productService.update _ _ _) as [db [p|e]]; cbn [run_trace];
      rewrite creates_of_app.
    + destruct (forallb _ _ && _);
        [rewrite creates_of_settlement|]; apply app_nil_r.
    + destruct (run_settled r); apply app_nil_r.
Qed.

Lemma run_creates schedule r :
  creates_of (run_trace (fold_left deliver schedule r))
  = creates_of (run_trace r).
Proof.
  revert r. induction schedule as [|i schedule IH]; simpl; intros r.
  - reflexivity.
  - rewrite IH. apply deliver_creates.
Qed.

Lemma creates_of_inventoryUpdates db cart :
  creates_of (run_trace (inventoryUpdates db cart)) = [].
Proof. simpl. induction cart; simpl; auto. Qed.

(** The one transaction [handleCheckout] can ask to create. *)
Lemma created_transaction clock schedule db st tx :
  In tx (creates_of (snd (handleCheckout clock schedule db st))) ->
  cart st <> []
  /\ exists received,
      validatePayment st = Ok received
      /\ tx = transactionData clock st received.
Proof.
  unfold handleCheckout.
  destruct (cart st) as [|item rest] eqn:Hc; simpl; [tauto|].
  destruct (validatePayment st) as [received|message]; simpl; [|tauto].
  destruct (transactionService.create db _) as [db' [saved|e]]; simpl.
  - rewrite run_creates, <- Hc, creates_of_inventoryUpdates.
    intros [<- | []]. split; [congruence | eauto].
  - intros [<- | []]. split; [congruence | eauto].
Qed.

Lemma creates_of_accepted clock schedule db st received :
  cart st <> [] -> validatePayment st = Ok received ->
  creates_of (snd (handleCheckout clock schedule db st))
  = [transactionData clock st received].
Proof.
  intros Hne Hv. unfold handleCheckout.
  destruct (cart st) as [|item rest] eqn:Hc; [congruence|]. rewrite Hv.
  destruct (transactionService.create db _) as [db' [saved|e]]; simpl;
    [|reflexivity].
  rewrite run_creates, <- Hc, creates_of_inventoryUpdates. reflexivity.
Qed.

(** *** Totals *)

Lemma fold_left_map {A B C} (f : A -> C -> A) (g : B -> C) l a :
  fold_left f (List.map g l) a = fold_left (fun acc x => f acc (g x)) l a.
Proof. revert a. induction l; simpl; auto. Qed.

Lemma unit_price_nonneg item :
  JS.nonneg_finite (price item) = true ->
  JS.nonneg_finite (unit_price item) = true.
Proof.
  unfold unit_price. destruct (JS.truthy (price item)); auto.
Qed.

Lemma line_subtotal_nonneg item :
  sellable item -> (0 <=? line_subtotal item) = true.
Proof.
  intros [Hp Hq]. unfold line_subtotal.
  apply FloatFacts.mul_nonneg_finite;
    auto using unit_price_nonneg, FloatFacts.Z2float_safe.
Qed.

Lemma subtotal_from_nonneg cart acc :
  Forall sellable cart -> (0 <=? acc) = true ->
  (0 <=? fold_left (fun total item => total + line_subtotal item) cart acc)
  = true.
Proof.
  intros H. revert acc. induction H as [|item cart Hitem _ IH]; simpl; auto.
  intros acc Hacc. apply IH, FloatFacts.add_nonneg;
    auto using line_subtotal_nonneg.
Qed.

Lemma subtotal_nonneg cart :
  Forall sellable cart -> (0 <=? calculateSubtotal cart) = true.
Proof. intros H. apply subtotal_from_nonneg; auto. Qed.

Lemma total_nonneg cart :
  Forall sellable cart -> (0 <=? calculateTotal cart) = true.
Proof.
  intros H. unfold calculateTotal, calculateTax.
  apply FloatFacts.add_nonneg, FloatFacts.tax_nonneg;
    apply subtotal_nonneg, H.
Qed.

(** C5: the transaction that a checkout asks to create (the cart is then
    not empty) carries one item per cart line, in order, with the line's
    price, quantity and [subtotal = price * quantity]; its subtotal is the
    sum of the item subtotals (added from 0 in cart order), its tax is
    [subtotal * 0.12] and its total is [subtotal + tax], as the same
    binary64 value.  When the prices of the lines are non-negative numbers
    and their quantities non-negative integers, subtotal and tax are
    non-negative and none of the values is [NaN], so that
    [subtotal + tax == total] evaluates to true. *)
Theorem transaction_totals clock schedule db st tx :
  In tx (creates_of (snd (handleCheckout clock schedule db st))) ->
  cart st <> []
  /\ Forall2 (fun item line =>
                ti_productId line = id item
                /\ ti_price line = unit_price item
                /\ ti_quantity line = quantity item
                /\ ti_subtotal line
                   = ti_price line * JS.Z2float (ti_quantity line))
             (cart st) (tx_items tx)
  /\ tx_subtotal tx
     = fold_left (fun sum line => sum + ti_subtotal line) (tx_items tx) 0
  /\ tx_tax tx = tx_subtotal tx * tax_rate
  /\ tx_total tx = tx_subtotal tx + tx_tax tx
  /\ (Forall sellable (cart st) ->
      (0 <=? tx_subtotal tx) = true
      /\ (0 <=? tx_tax tx) = true
      /\ (tx_subtotal tx + tx_tax tx =? tx_total tx) = true).
Proof.
  intros Hin.
  destruct (created_transaction _ _ _ _ _ Hin) as (Hne & received & _ & ->).
  simpl. split; [exact Hne|].
  split.
  { clear. induction (cart st) as [|item rest IH]; simpl; constructor; auto. }
  split.
  { unfold calculateSubtotal. rewrite fold_left_map. reflexivity. }
  split; [reflexivity|]. split; [reflexivity|].
  intros Hs.
  pose proof (subtotal_nonneg _ Hs) as H1.
  split; [exact H1|].
  split; [apply FloatFacts.tax_nonneg, H1|].
  apply FloatFacts.eqb_refl, FloatFacts.nonneg_not_nan, (total_nonneg _ Hs).
Qed.

Lemma transaction_totals_witness :
  let tx := transactionData Samples.noon Samples.scenario_A 300 in
  tx_subtotal tx = 200 /\ tx_tax tx = 24 /\ tx_total tx = 224
  /\ tx_change tx = 76
  /\ (tx_subtotal tx + tx_tax tx =? tx_total tx) = true.
Proof.
  intros tx.
  destruct (transaction_totals Samples.noon [0%nat; 0%nat] Samples.tea_store
              Samples.scenario_A tx) as (_ & _ & _ & _ & _ & H).
  { vm_compute. left. reflexivity. }
  destruct H as (_ & _ & H).
  { repeat constructor; unfold JS.MAX_SAFE_INTEGER; simpl; lia. }
  split; [vm_compute; reflexivity|].
  split; [vm_compute; reflexivity|].
  split; [vm_compute; reflexivity|].
  split; [vm_compute; reflexivity | exact H].
Defined.

(** *** Payment validation *)

Lemma handleCheckout_rejected clock schedule db st message :
  cart st <> [] -> validatePayment st = Err message ->
  handleCheckout clock schedule db st = (db, [toast (toast_error message)]).
Proof.
  intros Hne Hv. unfold handleCheckout.
  destruct (cart st); [congruence|]. rewrite Hv. reflexivity.
Qed.

Lemma handleCheckout_accepted clock schedule db st received :
  cart st <> [] -> validatePayment st = Ok received ->
  exists rest,
    snd (handleCheckout clock schedule db st)
    = update (setIsProcessing true)
      :: request (transactionService_create
                    (transactionData clock st received)) :: rest.
Proof.
  intros Hne Hv. unfold handleCheckout.
  destruct (cart st); [congruence|]. rewrite Hv.
  destruct (transactionService.create db _) as [db' [saved|e]]; simpl; eauto.
Qed.

Lemma parseFloat_empty : JS.truthy (JS.parseFloat "") = false.
Proof. reflexivity. Qed.

Lemma truthy_received_nonempty s :
  JS.truthy (JS.parseFloat s) = true -> JS.nonempty s = true.
Proof.
  destruct s; [rewrite parseFloat_empty; discriminate | reflexivity].
Qed.

(** C3: with a non-empty cart, a cash checkout is rejected with the
    insufficient-payment error exactly when the received amount does not
    parse as a number, parses as zero or is below the total; otherwise
    it asks to create one transaction, which records the amount and
    [change = received - total].  The amount accepted is at least the
    total whenever the total is a number, and non-negative whenever the
    total is.  A card or gcash checkout is rejected with the
    missing-reference error exactly when the trimmed reference number is
    empty, and the transaction it asks to create otherwise records
    [receivedAmount = total], [change = 0] and the trimmed reference. *)
Theorem payment_validation clock schedule db st :
  cart st <> [] ->
  let total := calculateTotal (cart st) in
  let received := JS.parseFloat (receivedAmount st) in
  let outcome := handleCheckout clock schedule db st in
  (paymentMethod st = cash ->
   (is_nan received || is_zero received || (received <? total) = true <->
    outcome = (db, [toast (toast_error "Insufficient payment amount")]))
   /\ (is_nan received || is_zero received || (received <? total) = false ->
       creates_of (snd outcome) = [transactionData clock st received]
       /\ (is_nan total = false -> (total <=? received) = true)
       /\ ((0 <=? total) = true -> (0 <=? received) = true))
   /\ (forall tx, In tx (creates_of (snd outcome)) ->
                  tx_paymentMethod tx = cash
                  /\ tx_receivedAmount tx = received
                  /\ tx_change tx = received - total))
  /\ (paymentMethod st <> cash ->
      (JS.trim (referenceNumber st) = ""%string <->
       outcome = (db, [toast (toast_error "Please enter the reference number")]))
      /\ (JS.trim (referenceNumber st) <> ""%string ->
          creates_of (snd outcome) = [transactionData clock st total])
      /\ (forall tx, In tx (creates_of (snd outcome)) ->
                     tx_paymentMethod tx = paymentMethod st
                     /\ tx_receivedAmount tx = total
                     /\ tx_change tx = 0
                     /\ tx_referenceNumber tx
                        = Some (JS.trim (referenceNumber st)))).
Proof.
  intros Hne total received outcome. subst outcome. split.
  - intros Hcash.
    assert (Hv : validatePayment st
                 = if is_nan received || is_zero received || (received <? total)
                   then Err "Insufficient payment amount" else Ok received).
    { unfold validatePayment, JS.truthy. rewrite Hcash.
      fold total. fold received. rewrite negb_involutive. reflexivity. }
    destruct (is_nan received || is_zero received || (received <? total))
      eqn:E.
    + rewrite (handleCheckout_rejected _ _ _ _ _ Hne Hv). simpl.
      split; [tauto|]. split; [discriminate | intros tx []].
    + destruct (handleCheckout_accepted clock schedule db _ _ Hne Hv)
        as [rest Hrest].
      apply orb_false_iff in E as [E Hlt].
      assert (Htruthy : JS.truthy received = true)
        by (unfold JS.truthy; rewrite E; reflexivity).
      apply orb_false_iff in E as [Hnan _].
      assert (Hle : is_nan total = false -> (total <=? received) = true)
        by (intros Ht; apply FloatFacts.not_ltb_leb; auto).
      rewrite (creates_of_accepted _ _ _ _ _ Hne Hv).
      split.
      { split; [discriminate|]. intros H. rewrite H in Hrest. discriminate. }
      split.
      { intros _. split; [reflexivity|]. split; [exact Hle|].
        intros Ht. eapply FloatFacts.nonneg_leb_trans; eauto.
        apply Hle, FloatFacts.nonneg_not_nan, Ht. }
      intros tx [<- | []].
      simpl. rewrite Hcash. unfold getChange.
      rewrite (truthy_received_nonempty _ Htruthy). auto.
  - intros Hcard.
    assert (Hv : validatePayment st
                 = if negb (JS.nonempty (JS.trim (referenceNumber st)))
                   then Err "Please enter the reference number" else Ok total).
    { unfold validatePayment.
      destruct (paymentMethod st); [congruence | reflexivity | reflexivity]. }
    destruct (JS.trim (referenceNumber st)) as [|c ref] eqn:Eref; simpl in Hv.
    + rewrite (handleCheckout_rejected _ _ _ _ _ Hne Hv).
      split; [tauto|]. split; [congruence | intros tx []].
    + destruct (handleCheckout_accepted clock schedule db _ _ Hne Hv)
        as [rest Hrest].
      rewrite (creates_of_accepted _ _ _ _ _ Hne Hv).
      split.
      { split; [discriminate|]. intros H. rewrite H in Hrest. discriminate. }
      split; [reflexivity|].
      intros tx [<- | []].
      simpl. rewrite Eref.
      destruct (paymentMethod st); [congruence | auto | auto].
Qed.

Lemma payment_validation_witness :
  handleCheckout Samples.noon [] Samples.store Samples.scenario_B
  = (Samples.store,
     [toast (toast_error "Please enter the reference number")])
  /\ (forall tx,
         In tx (creates_of (snd (handleCheckout Samples.noon [0%nat; 0%nat]
                                   Samples.tea_store Samples.scenario_A))) ->
         tx_receivedAmount tx = 300 /\ tx_change tx = 76).
Proof.
  destruct (payment_validation Samples.noon [] Samples.store Samples.scenario_B)
    as [_ HB]; [discriminate|].
  destruct (payment_validation Samples.noon [0%nat; 0%nat] Samples.tea_store
              Samples.scenario_A) as [HA _]; [discriminate|].
  split.
  - apply HB; [discriminate | reflexivity].
  - intros tx Hin.
    destruct HA as (_ & _ & HA); [reflexivity|].
    destruct (HA tx Hin) as (_ & -> & ->).
    split; vm_compute; reflexivity.
Defined.

(** The claim of C3 read as stated fails: it lets a cash amount
    through when it parses as a non-negative number that is at least the
    total.  A cart of one free item has total 0; the amount [0] is a
    non-negative number and at least the total, yet the checkout is
    rejected. *)
Lemma zero_cash_for_zero_total_rejected :
  let free := with_quantity (mkProduct "p6" "Flyer" "" "" 0 0 5 10 "" "") 1 in
  let st := mkState [free] [] cash "" "0" true false in
  calculateTotal (cart st) = 0
  /\ JS.parseFloat (receivedAmount st) = 0
  /\ (0 <=? JS.parseFloat (receivedAmount st)) = true
  /\ (calculateTotal (cart st) <=? JS.parseFloat (receivedAmount st)) = true
  /\ handleCheckout Samples.noon [] Samples.store st
     = (Samples.store, [toast (toast_error "Insufficient payment amount")]).
Proof. vm_compute. repeat split; reflexivity. Qed.

(** Scenario A does not run to the end: the cash transaction has no
    reference number, the client refuses the record, and the checkout
    stops there with the cart and the stock as they were. *)
Example scenario_A_aborts :
  let outcome := handleCheckout Samples.noon [0%nat; 0%nat] Samples.tea_store
                                Samples.scenario_A in
  fst outcome = Samples.tea_store
  /\ cart (after Samples.scenario_A (snd outcome)) = cart Samples.scenario_A
  /\ updates_of (snd outcome) = [].
Proof. vm_compute. repeat split; reflexivity. Qed.

(** A card payment records the total as received, no change and the
    trimmed reference. *)
Example card_payment_recorded :
  let tx := transactionData Samples.noon Samples.card_payment 56 in
  validatePayment Samples.card_payment = Ok 56
  /\ tx_receivedAmount tx = 56 /\ tx_change tx = 0
  /\ tx_referenceNumber tx = Some "REF-77"%string.
Proof. vm_compute. repeat split; reflexivity. Qed.

(** A reference number made of a no-break space is empty once trimmed. *)
Example blank_reference_rejected :
  JS.trim (Samples.nbsp +:+ "REF-77" +:+ Samples.nbsp) = "REF-77"%string
  /\ validatePayment (mkState [with_quantity Samples.soap 1] [Samples.soap]
                               card Samples.nbsp "" true false)
     = Err "Please enter the reference number".
Proof. vm_compute. split; reflexivity. Qed.

(** It runs to the end: the transaction is stored, the stock goes from 7
    to 6 and the cart is cleared. *)
Example card_payment_succeeds :
  let outcome := handleCheckout Samples.noon [0%nat; 0%nat] Samples.store
                                Samples.card_payment in
  cart (after Samples.card_payment (snd outcome)) = []
  /\ quantity <$> (products_coll (fst outcome) !! "p2"%string) = Some 6%Z
  /\ updates_of (snd outcome)
     = [productService_update "p2" (with_quantity Samples.soap 6)].
Proof. vm_compute. repeat split; reflexivity. Qed.

(** *** Failure to persist the transaction *)

Lemma create_failure db tx e :
  snd (transactionService.create db tx) = Err e ->
  transactionService.create db tx = (db, Err e)
  /\ ((tx_referenceNumber tx = None
       /\ e = transactionService.invalid_data tx)
      \/ (tx_referenceNumber tx <> None /\ outage db = Some e)).
Proof.
  unfold transactionService.create.
  destruct (tx_referenceNumber tx); simpl.
  - destruct (outage db); simpl; [|discriminate].
    intros [= ->]. split; [reflexivity|]. right. split; congruence.
  - intros [= <-]. split; [reflexivity|]. left. split; reflexivity.
Qed.

(** C2: when the cart is not empty, the payment is valid and the write of
    the transaction fails, [handleCheckout] does exactly this: it raises
    the processing flag, asks to create the transaction, shows one error
    message and lowers the flag.  The message is that of the first of the
    three kinds of failure whose mark the error carries, and otherwise
    the error's own message after "Transaction failed: ".  No request is
    sent to the product service, no other state is set (the cart in
    particular is as before) and the store is left as it was.  The write
    fails for one of two reasons: the payment is in cash, and the client
    refuses the record for its missing reference number; or the store
    cannot be reached. *)
Theorem persist_failure_aborts clock schedule db st received e :
  cart st <> [] ->
  validatePayment st = Ok received ->
  snd (transactionService.create db (transactionData clock st received))
  = Err e ->
  let outcome := handleCheckout clock schedule db st in
  let message :=
    if JS.includes e "Failed to create transaction"
    then "Failed to save transaction. Please check server connection."
    else if JS.includes e "Failed to fetch"
    then "Cannot connect to server. Please check if server is running."
    else if JS.includes e "database"
    then "Database error. Please check database connection."
    else "Transaction failed: "
         +:+ (if JS.nonempty e then e else "Unknown error") in
  snd outcome
  = [update (setIsProcessing true);
     request (transactionService_create (transactionData clock st received));
     toast (toast_error message);
     update (setIsProcessing false)]
  /\ updates_of (snd outcome) = []
  /\ cart (after st (snd outcome)) = cart st
  /\ after st (snd outcome) = apply_update st (setIsProcessing false)
  /\ fst outcome = db
  /\ ((paymentMethod st = cash
       /\ e = transactionService.invalid_data
                (transactionData clock st received))
      \/ (paymentMethod st <> cash /\ outage db = Some e)).
Proof.
  intros Hne Hv Hcreate outcome message. subst outcome.
  apply create_failure in Hcreate as [Hcreate Hwhy].
  unfold handleCheckout.
  destruct (cart st) as [|item rest] eqn:Hc; [congruence|].
  rewrite Hv, Hcreate. simpl.
  split.
  { unfold on_rejected, classify. fold message. subst message.
    repeat match goal with
           | |- context [if ?b then _ else _] => destruct b
           end; reflexivity. }
  split.
  { unfold on_rejected. reflexivity. }
  unfold after. simpl. rewrite Hc.
  split; [reflexivity|]. split; [reflexivity|]. split; [reflexivity|].
  simpl in Hwhy.
  destruct (paymentMethod st); destruct Hwhy as [[H1 H2]|[H1 H2]];
    try discriminate; try congruence; auto;
    right; (split; [discriminate | exact H2]).
Qed.

Lemma persist_failure_aborts_witness :
  let outcome := handleCheckout Samples.noon [0%nat; 0%nat]
                   Samples.tea_store Samples.scenario_A in
  snd outcome
  = [update (setIsProcessing true);
     request (transactionService_create
                (transactionData Samples.noon Samples.scenario_A 300));
     toast (toast_error
              ("Transaction failed: Function setDoc() called with invalid "
               +:+ "data. Unsupported field value: undefined (found in "
               +:+ "field referenceNumber in document "
               +:+ "transactions/TXN-1700000000000)"));
     update (setIsProcessing false)]
  /\ cart (after Samples.scenario_A (snd outcome)) = cart Samples.scenario_A
  /\ fst outcome = Samples.tea_store.
Proof.
  intros outcome.
  destruct (persist_failure_aborts Samples.noon [0%nat; 0%nat]
              Samples.tea_store Samples.scenario_A 300
              (transactionService.invalid_data
                 (transactionData Samples.noon Samples.scenario_A 300)))
    as (Ht & _ & Hc & _ & Hdb & _); [discriminate | reflexivity | reflexivity|].
  split; [exact Ht|]. split; [exact Hc | exact Hdb].
Defined.

(** *** Inventory updates *)

Lemma flat_map_insert {A B} (f : A -> list B) (l : list A) i t t' extra :
  l !! i = Some t -> f t' = f t ++ extra ->
  flat_map f (<[i := t']> l) ≡ₚ flat_map f l ++ extra.
Proof.
  intros Hl Hf. revert i Hl.
  induction l as [|a l IH]; intros [|i] Hl; simpl in *; try discriminate.
  - injection Hl as ->. rewrite Hf, <- !app_assoc.
    apply Permutation_app_head, Permutation_app_comm.
  - rewrite <- app_assoc. apply Permutation_app_head, IH, Hl.
Qed.

Lemma map_insert_same {A B} (g : A -> B) (l : list A) i t t' :
  l !! i = Some t -> g t' = g t -> List.map g (<[i := t']> l) = List.map g l.
Proof.
  intros Hl Hg. revert i Hl.
  induction l as [|a l IH]; intros [|i] Hl; simpl in *; try discriminate.
  - injection Hl as ->. congruence.
  - f_equal. apply IH, Hl.
Qed.

Lemma updates_of_rejection settled message :
  updates_of (if settled : bool then [] else on_rejected message) = [].
Proof. destruct settled; reflexivity. Qed.

(** One promise per cart line, whatever is delivered. *)
Lemma deliver_lines r i :
  List.map line_of (run_tasks (deliver r i)) = List.map line_of (run_tasks r).
Proof.
  unfold deliver, reject.
  destruct (run_tasks r !! i) as [[item|item cur|item cur|item e|item cur e]|]
    eqn:Hi; try reflexivity.
  - destruct (productService.getById (run_db r) (id item));
      cbn [run_tasks]; eapply map_insert_same; eauto.
  - destruct (productService.update _ _ _) as [db [p|e]];
      cbn [run_tasks]; eapply map_insert_same; eauto.
Qed.

(** The updates on the wire are those the promises have sent. *)
Lemma deliver_updates r i :
  updates_of (run_trace r) ≡ₚ flat_map sent (run_tasks r) ->
  updates_of (run_trace (deliver r i))
  ≡ₚ flat_map sent (run_tasks (deliver r i)).
Proof.
  intros Inv. unfold deliver, reject.
  destruct (run_tasks r !! i) as [[item|item cur|item cur|item e|item cur e]|]
    eqn:Hi; try exact Inv.
  - destruct (productService.getById (run_db r) (id item)) as [cur|e];
      cbn [run_tasks run_trace]; rewrite updates_of_app.
    + rewrite (flat_map_insert sent _ _ _ _
                 [productService_update (id item) (decremented cur item)] Hi)
        by reflexivity.
      simpl. apply Permutation_app_tail, Inv.
    + rewrite updates_of_rejection, app_nil_r.
      rewrite (flat_map_insert sent _ _ _ _ [] Hi) by reflexivity.
      rewrite app_nil_r. exact Inv.
  - destruct (productService.update _ _ _) as [db [p|e]];
      cbn [run_tasks run_trace]; rewrite updates_of_app.
    + rewrite (flat_map_insert sent _ _ _ _ [] Hi)
        by reflexivity.
      destruct (forallb _ _ && _);
        [rewrite updates_of_settlement|]; simpl; rewrite !app_nil_r; exact Inv.
    + rewrite updates_of_rejection, app_nil_r.
      rewrite (flat_map_insert sent _ _ _ _ [] Hi)
        by reflexivity.
      rewrite app_nil_r. exact Inv.
Qed.

Lemma run_invariant schedule db cart :
  let r := fold_left deliver schedule (inventoryUpdates db cart) in
  List.map line_of (run_tasks r) = cart
  /\ updates_of (run_trace r) ≡ₚ flat_map sent (run_tasks r).
Proof.
  assert (H0 : List.map line_of (run_tasks (inventoryUpdates db cart)) = cart
               /\ updates_of (run_trace (inventoryUpdates db cart))
                  ≡ₚ flat_map sent (run_tasks (inventoryUpdates db cart))).
  { simpl. split.
    - induction cart; simpl; congruence.
    - induction cart; simpl; auto. }
  revert H0. generalize (inventoryUpdates db cart).
  induction schedule as [|i schedule IH]; simpl; intros r [H1 H2].
  - auto.
  - apply IH. split; [rewrite deliver_lines; exact H1 | apply deliver_updates, H2].
Qed.

Lemma sent_payload t u :
  In u (sent t) ->
  exists currentProduct,
    u = productService_update (id (line_of t))
                              (decremented currentProduct (line_of t)).
Proof.
  destruct t; simpl; intros []; try tauto; subst; eauto.
Qed.

Lemma sent_fulfilled tasks :
  forallb is_fulfilled tasks = true ->
  length (flat_map sent tasks) = length tasks.
Proof.
  induction tasks as [|t tasks IH]; simpl; [reflexivity|].
  intros [Ht Hrest]%andb_true_iff.
  destruct t; try discriminate. simpl. f_equal. apply IH, Hrest.
Qed.

Lemma sent_at_most_one tasks :
  (length (flat_map sent tasks) <= length tasks)%nat.
Proof.
  induction tasks as [|t tasks IH]; simpl; [lia|].
  rewrite length_app. destruct t; simpl; lia.
Qed.

(** C4: once the transaction is persisted, [handleCheckout] starts one
    promise per cart line, in cart order.  Whatever the order in which the
    responses are delivered, a promise sends its single [update] when its
    own [getById] has returned, with the quantity
    [max(0, current - requested)] computed from the product just returned;
    the updates sent are exactly those of the promises that got their
    product (one per line once all are fulfilled), and no quantity sent is
    negative. *)
Theorem inventory_decrements clock schedule db st received db1 saved :
  cart st <> [] ->
  validatePayment st = Ok received ->
  transactionService.create db (transactionData clock st received)
  = (db1, Ok saved) ->
  let r := fold_left deliver schedule (inventoryUpdates db1 (cart st)) in
  snd (handleCheckout clock schedule db st)
  = [update (setIsProcessing true);
     request (transactionService_create (transactionData clock st received))]
    ++ run_trace r
  /\ run_tasks (inventoryUpdates db1 (cart st))
     = List.map awaiting_getById (cart st)
  /\ List.map line_of (run_tasks r) = cart st
  /\ updates_of (snd (handleCheckout clock schedule db st))
     ≡ₚ flat_map sent (run_tasks r)
  /\ (length (updates_of (snd (handleCheckout clock schedule db st)))
      <= length (cart st))%nat
  /\ (forallb is_fulfilled (run_tasks r) = true ->
      length (updates_of (snd (handleCheckout clock schedule db st)))
      = length (cart st))
  /\ (forall pid payload,
         In (productService_update pid payload)
            (updates_of (snd (handleCheckout clock schedule db st))) ->
         (0 <= quantity payload)%Z
         /\ exists item currentProduct,
             In item (cart st) /\ pid = id item
             /\ payload = with_quantity currentProduct (quantity payload)
             /\ quantity payload
                = Z.max 0 (quantity currentProduct - quantity item))
  /\ (forall r0 i item currentProduct,
         run_tasks r0 !! i = Some (awaiting_getById item) ->
         productService.getById (run_db r0) (id item) = Ok currentProduct ->
         run_trace (deliver r0 i)
         = run_trace r0
           ++ [request (productService_update
                          (id item)
                          (with_quantity currentProduct
                             (Z.max 0 (quantity currentProduct
                                       - quantity item))))]
         /\ run_db (deliver r0 i) = run_db r0).
Proof.
  intros Hne Hv Hcreate r.
  assert (Htrace : snd (handleCheckout clock schedule db st)
                   = [update (setIsProcessing true);
                      request (transactionService_create
                                 (transactionData clock st received))]
                     ++ run_trace r).
  { unfold handleCheckout.
    destruct (cart st) as [|item rest] eqn:Hc; [congruence|].
    rewrite Hv, Hcreate. subst r. reflexivity. }
  destruct (run_invariant schedule db1 (cart st)) as [Hlines Hperm].
  fold r in Hlines, Hperm.
  assert (Hupd : updates_of (snd (handleCheckout clock schedule db st))
                 ≡ₚ flat_map sent (run_tasks r)).
  { rewrite Htrace, updates_of_app. exact Hperm. }
  split; [exact Htrace|]. split; [reflexivity|]. split; [exact Hlines|].
  split; [exact Hupd|].
  split.
  { rewrite (Permutation_length Hupd), <- Hlines, length_map.
    apply sent_at_most_one. }
  split.
  { intros Hall.
    rewrite (Permutation_length Hupd), <- Hlines, length_map.
    apply sent_fulfilled, Hall. }
  split.
  { intros pid payload Hin.
    apply (Permutation_in _ Hupd) in Hin.
    apply in_flat_map in Hin as (t & Ht & Hin).
    apply sent_payload in Hin as (cur & [= -> ->]).
    simpl. split; [lia|].
    exists (line_of t), cur. repeat split.
    rewrite <- Hlines. apply in_map, Ht. }
  intros r0 i item cur Hi Hget. unfold deliver. rewrite Hi, Hget. auto.
Qed.

Lemma inventory_decrements_witness :
  let trace := snd (handleCheckout Samples.noon [0%nat; 0%nat]
                      Samples.store Samples.card_payment) in
  length (updates_of trace) = 1%nat
  /\ forall pid payload,
      In (productService_update pid payload) (updates_of trace) ->
      (0 <= quantity payload)%Z.
Proof.
  intros trace.
  destruct (inventory_decrements Samples.noon [0%nat; 0%nat] Samples.store
              Samples.card_payment 56
              (fst (transactionService.create Samples.store
                      (transactionData Samples.noon Samples.card_payment 56)))
              (transactionData Samples.noon Samples.card_payment 56))
    as (_ & _ & _ & _ & _ & Hall & Hq & _);
    [discriminate | reflexivity | reflexivity|].
  split.
  - apply Hall. vm_compute. reflexivity.
  - intros pid payload Hin. apply (Hq pid payload Hin).
Defined.

(** *** The stock after the updates

    When the store is reachable, every line is of a different product and
    every product of the cart is in the store, no promise is rejected:
    promise [i] has advanced by the number of deliveries it got, and the
    stock of its product is [max(0, stock - quantity)] once it is
    fulfilled and untouched before, in whatever order the responses
    arrive. *)

Lemma lookup_In {A} (l : list A) i x : l !! i = Some x -> In x l.
Proof.
  revert i. induction l as [|a l IH]; intros [|i]; simpl; try discriminate.
  - intros [= ->]. now left.
  - intros H. right. eapply IH, H.
Qed.

Lemma lookup_map {A B} (f : A -> B) (l : list A) i :
  List.map f l !! i = f <$> (l !! i).
Proof.
  revert i. induction l as [|a l IH]; intros [|i]; simpl; auto.
Qed.


Lemma progress_saturates n item cur :
  (2 <= n)%nat -> progress (S n) item cur = progress n item cur.
Proof. destruct n as [|[|n]]; simpl; [lia | lia | reflexivity]. Qed.





(** The rate is the binary64 value of the literal [0.12]. *)
Example tax_rate_literal : JS.parseFloat "0.12" = tax_rate.
Proof. reflexivity. Qed.

End CheckoutFacts.

(** ** The buttons of the cart *)

Module SessionFacts.
Import Cart SaleScreen.

Lemma with_quantity_same (item : CartLine) :
  with_quantity item (quantity item) = item.
Proof. destruct item; reflexivity. Qed.

Lemma distinct_same_line cart (a b : CartLine) :
  distinct_lines cart -> In a cart -> In b cart -> id a = id b -> a = b.
Proof.
  intros ND Ha Hb Hid.
  pose proof (CartFacts.distinct_line_found (id b) cart a ND Ha Hid) as Fa.
  pose proof (CartFacts.distinct_line_found (id b) cart b ND Hb eq_refl) as Fb.
  congruence.
Qed.

Lemma requantify_absent pid q cart :
  ~ In pid (List.map id cart) ->
  List.map (fun item => if is_line_of pid item
                        then with_quantity item q else item) cart = cart.
Proof.
  induction cart as [|x cart IH]; simpl; intros Hnone; [reflexivity|].
  destruct (is_line_of pid x) eqn:E.
  - apply CartFacts.is_line_of_iff in E. tauto.
  - rewrite IH by tauto. reflexivity.
Qed.

Lemma requantify_line pid q cart item :
  In item (List.map (fun item => if is_line_of pid item
                                 then with_quantity item q else item) cart) ->
  (id item = pid /\ quantity item = q) \/ (id item <> pid /\ In item cart).
Proof.
  rewrite in_map_iff. intros (x & <- & Hx).
  destruct (is_line_of pid x) eqn:E.
  - apply CartFacts.is_line_of_iff in E. left. simpl. auto.
  - apply CartFacts.is_line_of_false in E. right. auto.
Qed.

Lemma requantify_other pid q cart item :
  id item <> pid -> In item cart ->
  In item (List.map (fun item => if is_line_of pid item
                                 then with_quantity item q else item) cart).
Proof.
  intros Hne Hin. apply in_map_iff. exists item. split; [|exact Hin].
  apply CartFacts.is_line_of_false in Hne. rewrite Hne. reflexivity.
Qed.

(** X1: [updateQuantity] with a new quantity of at least 1, when the
    product is fetched.  It is refused, with the insufficient-stock
    notification and the cart left as it is, when the fetched stock is
    below the new quantity.  Otherwise nothing is raised, the lines stay
    the same products in the same order, every line of the product gets
    the new quantity, the other lines are untouched, and no line is
    created for a product that has none. *)
Theorem updateQuantity_checks_stock db cart productId newQuantity product :
  1 <= newQuantity ->
  productService.getById db productId = Ok product ->
  let cart' := fst (updateQuantity db cart productId newQuantity) in
  let toasts := snd (updateQuantity db cart productId newQuantity) in
  (quantity product < newQuantity ->
   cart' = cart /\ toasts = [insufficient_stock (quantity product)])
  /\ (newQuantity <= quantity product ->
      toasts = []
      /\ List.map id cart' = List.map id cart
      /\ (forall item, In item cart' -> id item = productId ->
                       quantity item = newQuantity)
      /\ (forall item, id item <> productId ->
                       (In item cart' <-> In item cart))
      /\ (~ In productId (List.map id cart) -> cart' = cart)).
Proof.
  intros Hq Hget cart' toasts. subst cart' toasts. unfold updateQuantity.
  apply Z.ltb_ge in Hq. rewrite Hq, Hget.
  destruct (quantity product <? newQuantity) eqn:Hlt; simpl.
  - apply Z.ltb_lt in Hlt. split; [auto | lia].
  - apply Z.ltb_ge in Hlt. split; [lia|]. intros _.
    split; [reflexivity|].
    split; [apply (CartFacts.map_id_requantify (fun _ => newQuantity))|].
    split.
    { intros item Hin Hid.
      destruct (requantify_line _ _ _ _ Hin) as [[_ H]|[H _]];
        [exact H | contradiction]. }
    split.
    { intros item Hne. split.
      - intros Hin.
        destruct (requantify_line _ _ _ _ Hin) as [[H _]|[_ H]];
          [contradiction | exact H].
      - apply requantify_other, Hne. }
    apply requantify_absent.
Qed.

Lemma updateQuantity_checks_stock_witness :
  let cart := [with_quantity Samples.soap 2; with_quantity Samples.cola 1] in
  fst (updateQuantity Samples.store cart "p2" 8) = cart
  /\ snd (updateQuantity Samples.store cart "p2" 8) = [insufficient_stock 7].
Proof.
  intros cart.
  destruct (updateQuantity_checks_stock Samples.store cart "p2" 8 Samples.soap
              ltac:(lia) eq_refl) as [H _].
  apply H. vm_compute. reflexivity.
Defined.

Lemma add_updater_positive product cart :
  positive_lines cart -> positive_lines (add_updater product cart).
Proof.
  unfold positive_lines, add_updater. intros H.
  destruct (List.find (is_line_of (id product)) cart).
  - apply List.Forall_forall. intros item Hin.
    apply in_map_iff in Hin as (x & <- & Hx).
    rewrite List.Forall_forall in H. specialize (H x Hx).
    unfold incremented. destruct (is_line_of (id product) x); simpl; lia.
  - apply List.Forall_app. split; [exact H|].
    constructor; [simpl; lia | constructor].
Qed.

Lemma removeFromCart_positive cart pid :
  positive_lines cart -> positive_lines (removeFromCart cart pid).
Proof.
  unfold positive_lines. rewrite !List.Forall_forall. intros H item Hin.
  apply CartFacts.removeFromCart_others in Hin as [Hin _]. auto.
Qed.

Lemma addToCart_positive db closure cart product :
  positive_lines cart ->
  positive_lines (fst (addToCart db closure cart product)).
Proof.
  intros H. unfold addToCart.
  destruct (productService.getById db (id product)) as [cur|e]; simpl; auto.
  destruct (quantity cur <=? currentCartQuantity closure (id product));
    simpl; auto using add_updater_positive.
Qed.

Lemma updateQuantity_positive db cart pid q :
  positive_lines cart -> positive_lines (fst (updateQuantity db cart pid q)).
Proof.
  intros H. unfold updateQuantity.
  destruct (q <? 1) eqn:Hq; simpl; auto using removeFromCart_positive.
  apply Z.ltb_ge in Hq.
  destruct (productService.getById db pid) as [p|e]; simpl; auto.
  destruct (quantity p <? q); simpl; auto.
  unfold positive_lines in *. rewrite List.Forall_forall in *.
  intros item Hin.
  destruct (requantify_line _ _ _ _ Hin) as [[_ Hx]|[_ Hx]]; [lia | auto].
Qed.

(** X2: from the empty cart, whatever the sequence of [addToCart],
    [updateQuantity] and [removeFromCart] calls, whatever the store
    answers and whatever cart a render closure had captured, every line
    of the cart holds at least one unit. *)
Theorem cart_quantities_positive actions item :
  In item (Cart.run actions) -> 1 <= quantity item.
Proof.
  assert (H : forall cart, positive_lines cart ->
                           positive_lines (fold_left perform actions cart)).
  { induction actions as [|a actions IH]; simpl; intros cart Hc; [exact Hc|].
    apply IH. destruct a; simpl;
      auto using addToCart_positive, updateQuantity_positive,
                 removeFromCart_positive. }
  intros Hin. specialize (H [] (List.Forall_nil _)).
  unfold positive_lines in H. rewrite List.Forall_forall in H.
  apply H, Hin.
Qed.

Lemma cart_quantities_positive_witness :
  1 <= quantity (with_quantity Samples.soap 1).
Proof.
  apply (cart_quantities_positive
           [AddToCart Samples.store [] Samples.soap;
            AddToCart Samples.store [] Samples.soap;
            UpdateQuantity Samples.store "p2" 1]).
  vm_compute. left. reflexivity.
Defined.

Lemma incremented_line cart (item : CartLine) :
  distinct_lines cart -> In item cart ->
  List.map (incremented (id item)) cart
  = List.map (fun x => if is_line_of (id item) x
                       then with_quantity x (quantity item + 1) else x) cart.
Proof.
  intros ND Hin. apply List.map_ext_in. intros x Hx. unfold incremented.
  destruct (is_line_of (id item) x) eqn:E; [|reflexivity].
  apply CartFacts.is_line_of_iff in E.
  rewrite (distinct_same_line cart x item ND Hx Hin E). reflexivity.
Qed.

(** X3: on a cart with one line per product, the [+] button of a line
    and a click on the card of the same product do the same to the cart:
    both are refused when the fetched stock is at most the quantity on
    the line, and both add one unit to the line otherwise.  When the
    product is fetched they also raise the same notification. *)
Theorem plus_button_is_addToCart db cart line item product :
  distinct_lines cart ->
  cart !! line = Some item ->
  0 <= quantity item ->
  id product = id item ->
  fst (gesture db cart (click_plus line))
  = fst (addToCart db cart cart product)
  /\ (forall currentProduct,
         productService.getById db (id item) = Ok currentProduct ->
         snd (gesture db cart (click_plus line))
         = snd (addToCart db cart cart product)).
Proof.
  intros ND Hline Hq Hid.
  assert (Hin : In item cart) by (eapply CheckoutFacts.lookup_In, Hline).
  pose proof (CartFacts.distinct_line_found (id item) cart item ND Hin eq_refl)
    as Hfind.
  unfold gesture. rewrite Hline. unfold updateQuantity, addToCart.
  replace (quantity item + 1 <? 1) with false by (symmetry; apply Z.ltb_ge; lia).
  rewrite Hid. unfold currentCartQuantity, add_updater. rewrite Hfind.
  destruct (productService.getById db (id item)) as [cur|e]; simpl.
  - replace (quantity cur <? quantity item + 1)
      with (quantity cur <=? quantity item)
      by (destruct (Z.leb_spec (quantity cur) (quantity item)),
                   (Z.ltb_spec (quantity cur) (quantity item + 1));
          reflexivity || lia).
    destruct (quantity cur <=? quantity item); simpl.
    + split; [reflexivity|]. intros _ _. reflexivity.
    + rewrite Hid, Hfind.
      split; [symmetry; apply incremented_line; assumption|].
      intros _ _. reflexivity.
  - split; [reflexivity|]. intros cur Hcur. discriminate.
Qed.

Lemma plus_button_is_addToCart_witness :
  let cart := [with_quantity Samples.soap 2; with_quantity Samples.cola 1] in
  fst (gesture Samples.store cart (click_plus 0))
  = fst (addToCart Samples.store cart cart Samples.soap).
Proof.
  intros cart.
  apply (plus_button_is_addToCart Samples.store cart 0%nat
           (with_quantity Samples.soap 2) Samples.soap).
  - repeat constructor; simpl; intuition discriminate.
  - reflexivity.
  - simpl. lia.
  - reflexivity.
Defined.

Lemma remove_appended cart (line : CartLine) :
  ~ In (id line) (List.map id cart) ->
  removeFromCart (cart ++ [line]) (id line) = cart.
Proof.
  intros Hnone. unfold removeFromCart. rewrite List.filter_app. simpl.
  unfold is_line_of at 2. rewrite String.eqb_refl. simpl.
  rewrite List.app_nil_r.
  induction cart as [|x cart IH]; simpl in *; [reflexivity|].
  destruct (is_line_of (id line) x) eqn:E; simpl.
  - apply CartFacts.is_line_of_iff in E. tauto.
  - rewrite IH by tauto. reflexivity.
Qed.

Lemma requantify_incremented cart (item : CartLine) :
  distinct_lines cart -> In item cart ->
  List.map (fun x => if is_line_of (id item) x
                     then with_quantity x (quantity item) else x)
           (List.map (incremented (id item)) cart) = cart.
Proof.
  intros ND Hin. rewrite List.map_map.
  rewrite <- (List.map_id cart) at 2.
  apply List.map_ext_in. intros x Hx. unfold incremented.
  destruct (is_line_of (id item) x) eqn:E.
  - unfold is_line_of in *. simpl. rewrite E.
    apply String.eqb_eq in E.
    rewrite (distinct_same_line cart x item ND Hx Hin E).
    destruct item; reflexivity.
  - rewrite E. reflexivity.
Qed.

(** X4: adding a product and then pressing [-] on its line gives back
    the cart one started from.  The cart has one line per product and at
    least one unit on every line, the product is fetched and the addition
    is accepted; the store is the same for both gestures. *)
Theorem add_then_minus_restores db cart product currentProduct :
  distinct_lines cart ->
  positive_lines cart ->
  productService.getById db (id product) = Ok currentProduct ->
  currentCartQuantity cart (id product) < quantity currentProduct ->
  let cart1 := fst (addToCart db cart cart product) in
  In (id product) (List.map id cart1)
  /\ forall line item,
      cart1 !! line = Some item -> id item = id product ->
      gesture db cart1 (click_minus line) = (cart, []).
Proof.
  intros ND Hpos Hget Hlt cart1.
  assert (Hcart1 : cart1 = add_updater product cart).
  { subst cart1. unfold addToCart. rewrite Hget.
    apply Z.leb_gt in Hlt. rewrite Hlt. reflexivity. }
  rewrite Hcart1. clear cart1 Hcart1.
  unfold add_updater, currentCartQuantity in *.
  destruct (List.find (is_line_of (id product)) cart) as [found|] eqn:F.
  - (* the product has a line *)
    assert (Hfound : In found cart /\ id found = id product).
    { apply List.find_some in F as [H1 H2].
      apply CartFacts.is_line_of_iff in H2. auto. }
    destruct Hfound as [Hin Hidf].
    split.
    { unfold incremented.
      rewrite (CartFacts.map_id_requantify (fun x => quantity x + 1)).
      rewrite <- Hidf. apply in_map, Hin. }
    intros line item Hline Hid.
    assert (Hitem : item = with_quantity found (quantity found + 1)).
    { apply CheckoutFacts.lookup_In, in_map_iff in Hline as (x & <- & Hx).
      unfold incremented in *.
      destruct (is_line_of (id product) x) eqn:E.
      - apply CartFacts.is_line_of_iff in E.
        rewrite (distinct_same_line cart x found ND Hx Hin) by congruence.
        reflexivity.
      - apply CartFacts.is_line_of_false in E. contradiction. }
    unfold gesture. rewrite Hline. subst item. simpl.
    unfold updateQuantity.
    unfold positive_lines in Hpos. rewrite List.Forall_forall in Hpos.
    specialize (Hpos found Hin).
    replace (quantity found + 1 - 1) with (quantity found) by lia.
    replace (quantity found <? 1) with false by (symmetry; apply Z.ltb_ge; lia).
    rewrite Hidf, Hget.
    replace (quantity currentProduct <? quantity found) with false
      by (symmetry; apply Z.ltb_ge; lia).
    rewrite <- Hidf. rewrite (requantify_incremented cart found ND Hin).
    reflexivity.
  - (* the line is new *)
    apply CartFacts.find_line_none in F.
    split.
    { rewrite List.map_app, in_app_iff. right. simpl. auto. }
    intros line item Hline Hid.
    assert (Hitem : item = with_quantity product 1).
    { apply CheckoutFacts.lookup_In, in_app_iff in Hline as [Hin|[<-|[]]].
      - exfalso. apply F. rewrite <- Hid. apply in_map, Hin.
      - reflexivity. }
    unfold gesture. rewrite Hline. subst item. simpl.
    unfold updateQuantity. simpl.
    pose proof (remove_appended cart (with_quantity product 1) F) as Hrem.
    simpl in Hrem. rewrite Hrem. reflexivity.
Qed.

Lemma add_then_minus_restores_witness :
  let cart := [with_quantity Samples.soap 2] in
  gesture Samples.store (fst (addToCart Samples.store cart cart Samples.soap))
          (click_minus 0)
  = (cart, []).
Proof.
  intros cart.
  destruct (add_then_minus_restores Samples.store cart Samples.soap Samples.soap)
    as [_ H].
  - repeat constructor; simpl; tauto.
  - repeat constructor; simpl; lia.
  - reflexivity.
  - vm_compute. reflexivity.
  - apply (H 0%nat (with_quantity Samples.soap 3)); reflexivity.
Defined.

Lemma addToCart_within_stock db cart product :
  distinct_lines cart -> within_stock db cart ->
  within_stock db (fst (addToCart db cart cart product)).
Proof.
  intros ND Hin.
  destruct (productService.getById db (id product)) as [cur|e] eqn:Hget.
  2:{ unfold addToCart. rewrite Hget. exact Hin. }
  destruct (CartFacts.addToCart_checked db cart cart product cur Hget eq_refl)
    as (_ & Hkept & Hadded).
  destruct (Z.le_gt_cases (quantity cur) (currentCartQuantity cart (id product)))
    as [Hle|Hlt].
  - rewrite (Hkept Hle). exact Hin.
  - destruct (Hadded Hlt) as (_ & _ & _ & Hothers & _ & _ & Hline).
    intros item Hitem.
    destruct (String.eqb_spec (id item) (id product)) as [Heq|Hne].
    + exists cur. rewrite Heq. split; [exact Hget|].
      apply (Hline ND item Hitem Heq).
    + apply Hin, Hothers; assumption.
Qed.

Lemma updateQuantity_within_stock db cart pid q :
  within_stock db cart -> within_stock db (fst (updateQuantity db cart pid q)).
Proof.
  intros Hin. unfold updateQuantity.
  destruct (q <? 1); simpl.
  { intros item Hitem.
    apply CartFacts.removeFromCart_others in Hitem as [Hitem _]. auto. }
  destruct (productService.getById db pid) as [p|e] eqn:Hget; simpl; auto.
  destruct (quantity p <? q) eqn:Hq; simpl; auto.
  apply Z.ltb_ge in Hq. intros item Hitem.
  destruct (requantify_line _ _ _ _ Hitem) as [[Hid Hx]|[_ Hx]]; [|auto].
  exists p. rewrite Hid. split; [exact Hget | lia].
Qed.

Lemma gesture_invariant db cart g :
  distinct_lines cart /\ positive_lines cart /\ within_stock db cart ->
  let cart' := fst (gesture db cart g) in
  distinct_lines cart' /\ positive_lines cart' /\ within_stock db cart'.
Proof.
  intros (ND & Hpos & Hin). destruct g as [product|line|line|line]; simpl.
  - destruct (getStockWarning product) as [[|]|]; simpl;
      auto using CartFacts.addToCart_distinct, addToCart_positive,
                 addToCart_within_stock.
  - destruct (cart !! line); simpl;
      auto using CartFacts.updateQuantity_distinct, updateQuantity_positive,
                 updateQuantity_within_stock.
  - destruct (cart !! line); simpl;
      auto using CartFacts.updateQuantity_distinct, updateQuantity_positive,
                 updateQuantity_within_stock.
  - destruct (cart !! line); simpl; [|auto].
    split; [apply CartFacts.removeFromCart_distinct, ND|].
    split; [apply removeFromCart_positive, Hpos|].
    intros item Hitem.
    apply CartFacts.removeFromCart_others in Hitem as [Hitem _]. auto.
Qed.

Lemma gesture_on_rendered db cart g :
  gesture_on db cart cart g = gesture db cart g.
Proof. destruct g; reflexivity. Qed.

Lemma sale_invariant db moments :
  forall fresh screen,
    unhurried fresh moments = true ->
    (fresh = true -> shown screen = held screen) ->
    distinct_lines (held screen) /\ positive_lines (held screen)
    /\ within_stock db (held screen) ->
    let screen' := fold_left (moment db) moments screen in
    distinct_lines (held screen') /\ positive_lines (held screen')
    /\ within_stock db (held screen').
Proof.
  induction moments as [|m moments IH]; simpl; intros fresh screen Hu Hs Hc;
    [exact Hc|].
  destruct m as [g|]; simpl.
  - apply andb_true_iff in Hu as [Hf Hu].
    apply (IH false); [exact Hu | discriminate|]. simpl.
    rewrite (Hs Hf), gesture_on_rendered.
    apply gesture_invariant, Hc.
  - apply (IH true); [exact Hu | reflexivity | exact Hc].
Qed.

(** X5: a sale made of clicks on product cards and on the [+], [-] and
    remove buttons of the cart, against a store that does not change
    meanwhile and with every gesture made on a screen that shows the
    state (the component has rendered since the gesture before), never
    holds more than the stock: every line of the cart is of a product
    the store has, with at least one unit and at most the stock of that
    product; and no product has two lines. *)
Theorem session_within_stock db moments :
  unhurried true moments = true ->
  let cart := held (sale db moments) in
  distinct_lines cart
  /\ forall item,
      In item cart ->
      exists product,
        productService.getById db (id item) = Ok product
        /\ 1 <= quantity item <= quantity product.
Proof.
  intros Hu cart.
  destruct (sale_invariant db moments true (mkScreen [] []) Hu
                           (fun _ => eq_refl)) as (ND & Hpos & Hin).
  { split; [constructor|]. split; [constructor|]. intros item []. }
  split; [exact ND|]. intros item Hitem.
  destruct (Hin item Hitem) as (product & Hget & Hle).
  exists product. split; [exact Hget|].
  unfold positive_lines in Hpos. rewrite List.Forall_forall in Hpos.
  specialize (Hpos item Hitem). lia.
Qed.

Lemma session_within_stock_witness :
  distinct_lines
    (held (sale Samples.store
                [makes (click_product Samples.cola); renders;
                 makes (click_product Samples.cola); renders;
                 makes (click_product Samples.soap); renders;
                 makes (click_plus 1)])).
Proof.
  apply (session_within_stock Samples.store
           [makes (click_product Samples.cola); renders;
            makes (click_product Samples.cola); renders;
            makes (click_product Samples.soap); renders;
            makes (click_plus 1)]).
  reflexivity.
Defined.

Lemma enabled_card product :
  0 < quantity product ->
  forall db shown prevCart,
    gesture_on db shown prevCart (click_product product)
    = addToCart db shown prevCart product.
Proof.
  intros Hq db shown prevCart. unfold gesture_on, getStockWarning.
  replace (quantity product <=? 0) with false
    by (symmetry; apply Z.leb_gt, Hq).
  destruct (quantity product <=? threshold product); reflexivity.
Qed.

(** X6: clicking the card of the same product [k] times, from the empty
    cart and against a store that holds [stock] units of it.  When the
    component renders after each click, the line ends with
    [min(k, stock)] units (none when the stock is not positive): every
    addition below the stock is accepted, every one beyond it refused.
    When the [k] clicks are all made on the first render, every one of
    them checks the stock against the empty cart of that render: with
    stock for one unit, the line ends with [k] units, whatever the
    stock. *)
Theorem repeated_adds_stop_at_stock db product currentProduct (k : nat) :
  productService.getById db (id product) = Ok currentProduct ->
  0 < quantity product ->
  let click := makes (click_product product) in
  let first := mkScreen [] [] in
  currentCartQuantity
    (held (Nat.iter k (fun screen => moment db (moment db screen click)
                                            renders) first))
    (id product)
  = Z.max 0 (Z.min (Z.of_nat k) (quantity currentProduct))
  /\ (0 < quantity currentProduct ->
      currentCartQuantity
        (held (Nat.iter k (fun screen => moment db screen click) first))
        (id product)
      = Z.of_nat k).
Proof.
  intros Hget Hcard click first. split.
  - assert (H : let screen := Nat.iter k (fun screen =>
                                 moment db (moment db screen click) renders)
                                first in
                shown screen = held screen
                /\ currentCartQuantity (held screen) (id product)
                   = Z.max 0 (Z.min (Z.of_nat k) (quantity currentProduct))).
    { induction k as [|k IH].
      - simpl. split; [reflexivity|]. unfold currentCartQuantity. simpl. lia.
      - rewrite Nat.iter_succ.
        set (screen := Nat.iter k _ first) in *.
        destruct IH as [Hs IH]. cbn [moment held shown]. subst click.
        cbn [moment held shown]. split; [reflexivity|].
        rewrite (enabled_card product Hcard), Hs.
        unfold addToCart. rewrite Hget, IH.
        destruct (quantity currentProduct
                  <=? Z.max 0 (Z.min (Z.of_nat k) (quantity currentProduct)))
          eqn:Hle; simpl.
        + apply Z.leb_le in Hle. rewrite IH. lia.
        + apply Z.leb_gt in Hle.
          rewrite CartFacts.quantity_add_updater, IH. lia. }
    apply H.
  - intros Hstock.
    assert (H : let screen := Nat.iter k (fun screen => moment db screen click)
                                       first in
                shown screen = []
                /\ currentCartQuantity (held screen) (id product)
                   = Z.of_nat k).
    { induction k as [|k IH].
      - simpl. split; reflexivity.
      - rewrite Nat.iter_succ.
        set (screen := Nat.iter k _ first) in *.
        destruct IH as [Hs IH]. subst click.
        cbn [moment held shown]. split; [exact Hs|].
        rewrite (enabled_card product Hcard), Hs.
        unfold addToCart. rewrite Hget.
        change (currentCartQuantity [] (id product)) with 0.
        replace (quantity currentProduct <=? 0) with false
          by (symmetry; apply Z.leb_gt, Hstock).
        simpl. rewrite CartFacts.quantity_add_updater, IH. lia. }
    apply H.
Qed.

Lemma repeated_adds_stop_at_stock_witness :
  let click := makes (click_product Samples.soap) in
  currentCartQuantity
    (held (Nat.iter 9 (fun screen => moment Samples.store
                                            (moment Samples.store screen click)
                                            renders)
                    (mkScreen [] [])))
    "p2" = 7
  /\ currentCartQuantity
       (held (Nat.iter 9 (fun screen => moment Samples.store screen click)
                       (mkScreen [] [])))
       "p2" = 9.
Proof.
  intros click.
  destruct (repeated_adds_stop_at_stock Samples.store Samples.soap
              Samples.soap 9) as [H1 H2];
    [reflexivity | simpl; lia|].
  split; [exact H1 | apply H2; simpl; lia].
Defined.

End SessionFacts.

(** ** The provider over time *)

Module ProviderFacts.
Import Scanner Provider.

(** *** The processing flag *)

Lemma processBarcodeData_backed pathname products now st barcode :
  flag_backed st ->
  flag_backed (fst (processBarcodeData pathname products now st barcode)).
Proof.
  unfold flag_backed, processBarcodeData. intros H.
  destruct (isProcessing st) eqn:Hp; simpl; [rewrite Hp; exact H|].
  destruct (String.eqb (lastProcessed st) barcode
            && (now - lastProcessedTime st <? duplicateTimeout pathname));
    simpl.
  - rewrite Hp. exact H.
  - rewrite H. reflexivity.
Qed.

Lemma emit_backed page pathname products now st barcode :
  flag_backed st ->
  flag_backed (fst (emit page pathname products now st barcode)).
Proof.
  intros H. destruct page; simpl; [|exact H].
  pose proof (processBarcodeData_backed pathname products now st barcode H)
    as H'.
  destruct (processBarcodeData pathname products now st barcode). exact H'.
Qed.

Lemma commit_backed page pathname products now st :
  flag_backed st -> flag_backed (fst (commit page pathname products now st)).
Proof.
  intros H. unfold commit.
  destruct (MIN_BARCODE_LENGTH <=? JS.length (JS.trim (buffer st)))%nat.
  - pose proof (emit_backed page pathname products now st
                            (JS.trim (buffer st)) H) as H'.
    destruct (emit page pathname products now st (JS.trim (buffer st))).
    exact H'.
  - exact H.
Qed.

Lemma decode_backed page pathname products now st event :
  flag_backed st ->
  flag_backed (fst (decode page pathname products now st event)).
Proof.
  intros H. unfold decode.
  destruct (isProcessing st) eqn:Hp; [exact H|].
  destruct ((1 <? JS.length (key event))%nat
            && negb (String.eqb (key event) "Enter")); [exact H|].
  assert (H' : flag_backed (set_timeout st None)) by exact H.
  destruct (String.eqb (key event) "Enter"); [apply commit_backed, H'|].
  destruct (accepted_key (key event)); exact H.
Qed.

Lemma step_backed st input :
  flag_backed st -> flag_backed (fst (step st input)).
Proof.
  intros H.
  destruct input as [pathname products now event|page pathname products now
                    | |pathname products now token| |]; simpl.
  - unfold handleGlobalKeyDown, handleInventoryKeyDown, handleKeyDown.
    destruct (String.eqb pathname "/inventory");
      destruct (0 <? suspendedCount st); try exact H;
      destruct (editable (target event)); try exact H;
      apply decode_backed, H.
  - destruct (timeout st); [|exact H].
    unfold inactivity_timeout. apply commit_backed. exact H.
  - destruct (resets st) as [|t rest] eqn:Hr; [exact H|].
    unfold flag_backed in *. simpl. rewrite Hr in *.
    destruct (isProcessing st); [|discriminate].
    injection H as _ ->. reflexivity.
  - pose proof (processBarcodeData_backed pathname products now st token H)
      as H'.
    destruct (processBarcodeData pathname products now st token). exact H'.
  - exact H.
  - exact H.
Qed.

Lemma run_backed inputs st :
  flag_backed st ->
  flag_backed (fold_left (fun st input => fst (step st input)) inputs st).
Proof.
  revert st. induction inputs as [|input inputs IH]; simpl; intros st H.
  - exact H.
  - apply IH, step_backed, H.
Qed.

(** X7: the scanner cannot lock up.  Whatever key events, timer
    expiries, [manualScan], [suspendScanning] and [resumeScanning] calls
    the provider has gone through since it was mounted: while it refuses
    tokens because a resolution is under way, exactly one timer is pending
    that lowers the flag, due 300 ms after the token was taken, and its
    expiry does lower it; and no such timer is pending otherwise. *)
Theorem processing_flag_is_released inputs :
  let st := run inputs in
  (isProcessing st = true ->
   resets st = [lastProcessedTime st + 300]
   /\ isProcessing (fst (step st processing_done)) = false
   /\ resets (fst (step st processing_done)) = [])
  /\ (isProcessing st = false -> resets st = []).
Proof.
  intros st.
  assert (H : flag_backed st).
  { apply run_backed. reflexivity. }
  unfold flag_backed in H. split; intros Hp; rewrite Hp in H.
  - split; [exact H|]. simpl. rewrite H. simpl. rewrite H.
    split; reflexivity.
  - exact H.
Qed.

(** *** The suspension counter *)

Lemma step_suspended st input :
  0 <= suspendedCount st -> 0 <= suspendedCount (fst (step st input)).
Proof.
  intros H.
  assert (Hemit : forall page pathname products now st barcode,
             suspendedCount (fst (emit page pathname products now st barcode))
             = suspendedCount st).
  { intros page pathname products now st0 barcode. destruct page; simpl.
    - unfold processBarcodeData.
      destruct (isProcessing st0 || _); reflexivity.
    - reflexivity. }
  assert (Hcommit : forall page pathname products now st,
             suspendedCount (fst (commit page pathname products now st))
             = suspendedCount st).
  { intros page pathname products now st0. unfold commit.
    destruct (MIN_BARCODE_LENGTH <=? _)%nat; [|reflexivity].
    specialize (Hemit page pathname products now st0 (JS.trim (buffer st0))).
    destruct (emit page pathname products now st0 (JS.trim (buffer st0))).
    exact Hemit. }
  assert (Hdecode : forall page pathname products now st event,
             suspendedCount (fst (decode page pathname products now st event))
             = suspendedCount st).
  { intros page pathname products now st0 event. unfold decode.
    destruct (isProcessing st0); [reflexivity|].
    destruct ((1 <? JS.length (key event))%nat
              && negb (String.eqb (key event) "Enter")); [reflexivity|].
    destruct (String.eqb (key event) "Enter"); [rewrite Hcommit; reflexivity|].
    destruct (accepted_key (key event)); reflexivity. }
  destruct input as [pathname products now event|page pathname products now
                    | |pathname products now token| |]; simpl.
  - unfold handleGlobalKeyDown, handleInventoryKeyDown, handleKeyDown.
    destruct (String.eqb pathname "/inventory");
      destruct (0 <? suspendedCount st); try exact H;
      destruct (editable (target event)); try exact H;
      rewrite Hdecode; exact H.
  - destruct (timeout st); [|exact H].
    unfold inactivity_timeout. rewrite Hcommit. exact H.
  - destruct (resets st); exact H.
  - unfold processBarcodeData. destruct (isProcessing st || _); exact H.
  - lia.
  - lia.
Qed.

(** X8: the suspension counter is never negative, so a page that
    suspends scanning and later resumes it leaves the provider exactly
    as it found it (the modal of the product form does so on mouse enter
    and mouse leave), nested suspensions included; and a stray
    [resumeScanning] while nothing is suspended changes nothing. *)
Theorem suspend_resume_round_trip inputs :
  let st := run inputs in
  0 <= suspendedCount st
  /\ resumeScanning (suspendScanning st) = st
  /\ resumeScanning (resumeScanning (suspendScanning (suspendScanning st)))
     = st
  /\ (suspendedCount st = 0 -> resumeScanning st = st).
Proof.
  intros st.
  assert (H : 0 <= suspendedCount st).
  { subst st. unfold run.
    assert (H0 : 0 <= suspendedCount initial) by (simpl; lia).
    revert H0. generalize initial as st0.
    induction inputs as [|input inputs IH]; simpl; intros st0 H0; [exact H0|].
    apply IH, step_suspended, H0. }
  split; [exact H|].
  destruct st as [n b t p l lt r]. simpl in H.
  unfold resumeScanning, suspendScanning. simpl.
  split; [f_equal; lia|]. split; [f_equal; lia|].
  intros ->. reflexivity.
Qed.

(** *** Where a token is routed *)

(** X9: what the router does with a token it resolves.  It sets the
    bar-code data for the sale screen only on [/pos], navigates to the
    sale screen only from another page, and does either only with the
    first product of the catalogue that has the token as bar code or as
    id, and only when the catalogue shows stock for it; a first match
    without stock only raises the out-of-stock notification, whatever
    follows in the catalogue; and a token is reported unknown only when no
    product has it as bar code or as id. *)
Theorem routing_sound pathname products now token :
  match resolve pathname products now token with
  | add_to_cart b product t =>
      b = token /\ t = now /\ pathname = "/pos"
      /\ lookup products token = Some product /\ In product products
      /\ (barcode product = token \/ id product = token)
      /\ 0 < quantity product
  | handoff product =>
      pathname <> "/pos"
      /\ lookup products token = Some product /\ In product products
      /\ (barcode product = token \/ id product = token)
      /\ 0 < quantity product
  | out_of_stock product =>
      lookup products token = Some product /\ In product products
      /\ (barcode product = token \/ id product = token)
      /\ quantity product <= 0
  | unknown b =>
      b = token
      /\ forall product, In product products ->
                         barcode product <> token /\ id product <> token
  end.
Proof.
  unfold resolve.
  destruct (lookup products token) as [product|] eqn:L.
  - assert (Hm : In product products
                 /\ (barcode product = token \/ id product = token)).
    { unfold lookup in L. apply List.find_some in L as [Hin Hm].
      apply RouterFacts.matches_iff in Hm. auto. }
    destruct Hm as [Hin Hm].
    destruct (quantity product <=? 0) eqn:Hq.
    + apply Z.leb_le in Hq. auto.
    + apply Z.leb_gt in Hq.
      destruct (String.eqb_spec pathname "/pos") as [->|Hne]; simpl.
      * repeat split; auto.
      * repeat split; auto.
  - split; [reflexivity|]. intros product Hin.
    unfold lookup in L.
    pose proof (List.find_none _ _ L product Hin) as Hm.
    apply RouterFacts.matches_false in Hm. exact Hm.
Qed.

(** *** From key events to a token *)

Lemma accepted_plain c rest :
  accepted_char c = true ->
  JS.white_space_width (String c rest) = 0%nat /\ JS.units c = 1%nat.
Proof.
  destruct c as [[] [] [] [] [] [] [] []]; intros H; vm_compute in H;
    try discriminate H; split; reflexivity.
Qed.

Lemma append_empty_r s : s +:+ "" = s.
Proof.
  induction s as [|a s IH]; [reflexivity|].
  change (String a (s +:+ "") = String a s). f_equal. exact IH.
Qed.

Lemma append_cons_r s c token :
  (s +:+ String c "") +:+ token = s +:+ String c token.
Proof.
  induction s as [|a s IH]; [reflexivity|].
  change (String a ((s +:+ String c "") +:+ token)
          = String a (s +:+ String c token)).
  f_equal. exact IH.
Qed.

Lemma trimStart_accepted s : all_accepted s = true -> JS.trimStart s = s.
Proof.
  destruct s as [|a s]; [reflexivity|]. intros H.
  apply andb_true_iff in H as [Ha _].
  unfold JS.trimStart. cbn [JS.trimStart_from].
  rewrite (proj1 (accepted_plain a s Ha)). reflexivity.
Qed.

Lemma trimEnd_accepted s : all_accepted s = true -> JS.trimEnd s = s.
Proof.
  induction s as [|a s IH]; [reflexivity|]. intros H.
  pose proof (trimStart_accepted _ H) as Hstart.
  apply andb_true_iff in H as [Ha H].
  cbn [JS.trimEnd]. unfold JS.blank. rewrite Hstart. cbn [JS.nonempty negb].
  rewrite (IH H). reflexivity.
Qed.

Lemma trim_accepted s : all_accepted s = true -> JS.trim s = s.
Proof.
  intros H. unfold JS.trim. rewrite (trimStart_accepted s H).
  apply trimEnd_accepted, H.
Qed.

Lemma length_accepted s :
  all_accepted s = true -> JS.length s = String.length s.
Proof.
  induction s as [|a s IH]; [reflexivity|]. intros H.
  apply andb_true_iff in H as [Ha H]. cbn [JS.length String.length].
  rewrite (proj2 (accepted_plain a s Ha)), (IH H). reflexivity.
Qed.

Lemma accepted_key_reaches_buffer pathname products now st c tgt :
  suspendedCount st <= 0 -> editable tgt = false ->
  isProcessing st = false -> accepted_char c = true ->
  handleGlobalKeyDown pathname products now st
                      (mkKeyboardEvent (String c EmptyString) tgt)
  = (set_timeout (set_buffer st (buffer st +:+ String c EmptyString))
                 (Some (now + 150)), []).
Proof.
  intros Hs He Hp Hc. apply Z.ltb_ge in Hs.
  assert (Henter : String.eqb (String c EmptyString) "Enter" = false).
  { simpl. destruct (Ascii.eqb c "E"); reflexivity. }
  unfold handleGlobalKeyDown, handleKeyDown, handleInventoryKeyDown.
  cbn [key target].
  destruct (String.eqb pathname "/inventory");
    rewrite Hs, He; unfold decode; rewrite Hp; cbn [key JS.length];
    rewrite Henter, (proj2 (accepted_plain c "" Hc)); simpl; rewrite Hc;
    reflexivity.
Qed.

Lemma elapse_idle fuel pathname products now st :
  due now st = None -> elapse fuel pathname products now st = (st, []).
Proof. intros H. destruct fuel; simpl; [|rewrite H]; reflexivity. Qed.

Lemma due_later now st :
  resets st = [] ->
  (forall deadline, timeout st = Some deadline -> now < deadline) ->
  due now st = None.
Proof.
  intros Hr Ht. unfold due. rewrite Hr.
  destruct (timeout st) as [deadline|]; [|reflexivity].
  replace (deadline <=? now) with false; [reflexivity|].
  symmetry. apply Z.leb_gt, Ht. reflexivity.
Qed.

Lemma key_at_early pathname products st now event :
  resets st = [] ->
  (forall deadline, timeout st = Some deadline -> now < deadline) ->
  key_at pathname products st now event
  = handleGlobalKeyDown pathname products now st event.
Proof.
  intros Hr Ht. unfold key_at.
  rewrite (elapse_idle _ _ _ _ _ (due_later now st Hr Ht)).
  destruct (handleGlobalKeyDown pathname products now st event). reflexivity.
Qed.

Lemma paced_app gap times now :
  paced gap (times ++ [now]) ->
  paced gap times
  /\ forall t, List.last times now = t -> times <> [] -> t <= now < t + gap.
Proof.
  induction times as [|t1 times IH]; simpl; [tauto|].
  destruct times as [|t2 times]; simpl in *.
  - intros [H _]. split; [tauto|]. intros t <- _. exact H.
  - intros [H1 H2]. destruct (IH H2) as [IH1 IH2].
    split; [tauto|]. intros t Ht _. apply IH2; [exact Ht | discriminate].
Qed.

Lemma last_cons {A} (a : A) l d d' : List.last (a :: l) d = List.last (a :: l) d'.
Proof.
  revert a. induction l as [|b l IH]; intros a; [reflexivity|].
  change (List.last (b :: l) d = List.last (b :: l) d'). apply IH.
Qed.

Lemma feed_keys pathname products tgt token :
  editable tgt = false -> all_accepted token = true ->
  forall times st acc,
    length times = String.length token ->
    suspendedCount st <= 0 -> isProcessing st = false ->
    resets st = [] ->
    paced 150 times ->
    (forall t deadline,
        head times = Some t -> timeout st = Some deadline -> t < deadline) ->
    fold_left (fun acc e =>
                 let '(st', effects) :=
                   key_at pathname products (fst acc) (fst e) (snd e) in
                 (st', snd acc ++ effects))
              (combine times (keys tgt token)) (st, acc)
    = (set_timeout (set_buffer st (buffer st +:+ token))
                   (List.last (List.map (fun t => Some (t + 150)) times)
                              (timeout st)),
       acc).
Proof.
  intros He. induction token as [|c token IH]; simpl;
    intros Hacc times st acc Hlen Hs Hp Hr Hpaced Hfirst.
  - destruct times; [|discriminate]. simpl.
    destruct st as [n b t p l lt r]. simpl.
    rewrite append_empty_r. reflexivity.
  - apply andb_true_iff in Hacc as [Hc Hacc].
    destruct times as [|now times]; [discriminate|].
    cbn [combine fold_left fst snd].
    rewrite (key_at_early pathname products st now _ Hr
               (fun deadline H => Hfirst now deadline eq_refl H)).
    rewrite (accepted_key_reaches_buffer pathname products now st c tgt
               Hs He Hp Hc).
    rewrite List.app_nil_r.
    rewrite (IH Hacc times
                (set_timeout (set_buffer st (buffer st +:+ String c EmptyString))
                             (Some (now + 150)))
                acc).
    + cbn [buffer set_timeout set_buffer suspendedCount isProcessing
           lastProcessed lastProcessedTime resets timeout].
      rewrite append_cons_r. f_equal. f_equal.
      destruct times as [|t2 times]; [reflexivity|].
      change (List.last (List.map (fun t => Some (t + 150)) (t2 :: times))
                        (Some (now + 150))
              = List.last (List.map (fun t => Some (t + 150)) (t2 :: times))
                          (timeout st)).
      apply last_cons.
    + simpl in Hlen. lia.
    + exact Hs.
    + exact Hp.
    + exact Hr.
    + destruct Hpaced as [_ H]. exact H.
    + intros t deadline Ht [= <-].
      destruct times as [|t2 times]; [discriminate|].
      injection Ht as ->. destruct Hpaced as [H _]. lia.
Qed.

(** What the keys of a token leave behind when they arrive less than
    150 ms apart on an idle decoder. *)
Lemma typed_token pathname products st token times tgt now :
  all_accepted token = true ->
  length times = String.length token ->
  paced 150 (times ++ [now]) ->
  suspendedCount st <= 0 ->
  isProcessing st = false ->
  buffer st = "" ->
  timeout st = None ->
  resets st = [] ->
  editable tgt = false ->
  exists t,
    feed pathname products st (combine times (keys tgt token))
    = (set_timeout (set_buffer st token) t, [])
    /\ (forall deadline, t = Some deadline -> now < deadline).
Proof.
  intros Hacc Hlen Hpaced Hs Hp Hb Ht Hr He.
  destruct (paced_app _ _ _ Hpaced) as [Hpaced' Hlast].
  exists (List.last (List.map (fun t => Some (t + 150)) times) (timeout st)).
  split.
  - unfold feed.
    rewrite (feed_keys pathname products tgt token He Hacc times st []
               Hlen Hs Hp Hr Hpaced').
    + rewrite Hb. reflexivity.
    + intros t deadline _ Hd. congruence.
  - rewrite Ht. intros deadline Hd.
    destruct times as [|t1 times]; [discriminate|].
    assert (Hl : List.last (List.map (fun t => Some (t + 150)) (t1 :: times))
                           None
                 = Some (List.last (t1 :: times) now + 150)).
    { clear. generalize t1. induction times as [|t2 times IH]; intros t;
        [reflexivity|].
      change (List.last (List.map (fun t => Some (t + 150)) (t2 :: times)) None
              = Some (List.last (t2 :: times) now + 150)).
      apply IH. }
    rewrite Hl in Hd. injection Hd as <-.
    exact (proj2 (Hlast _ eq_refl ltac:(discriminate))).
Qed.

Lemma emit_effects_same page pathname products now st1 st2 token :
  isProcessing st1 = isProcessing st2 ->
  lastProcessed st1 = lastProcessed st2 ->
  lastProcessedTime st1 = lastProcessedTime st2 ->
  snd (emit page pathname products now st1 token)
  = snd (emit page pathname products now st2 token).
Proof.
  intros H1 H2 H3. destruct page; simpl; [|reflexivity].
  unfold processBarcodeData. rewrite H1, H2, H3.
  destruct (isProcessing st2 || _); reflexivity.
Qed.

Lemma emit_timeout page pathname products now st token :
  timeout (fst (emit page pathname products now st token)) = timeout st.
Proof.
  destruct page; simpl; [|reflexivity].
  unfold processBarcodeData. destruct (isProcessing st || _); reflexivity.
Qed.

(** Keys that come too slowly are cut by the timer: typed 200 ms apart,
    each character is dropped before the next arrives; and a pause in
    the middle of a bar code commits its first part as a token of its
    own. *)
Example slow_typing_is_cut :
  feed "/pos" Samples.shelf initial
       (combine [1000; 1200; 1400; 1600; 1800] (keys Samples.body "12345"))
  = (set_timeout (set_buffer initial "5") (Some 1950), [])
  /\ snd (feed "/pos" Samples.shelf initial
               (combine [1000; 1001; 1002; 1003; 1400; 1401]
                        (keys Samples.body "899123")))
     = [scanned "8991";
        toast (toast_error ("Product with barcode " +:+ dquote +:+ "8991"
                            +:+ dquote +:+ " not found"))].
Proof. vm_compute. split; reflexivity. Qed.

(** X10: what the scanner types is what the router gets.  The decoder
    is idle (empty buffer, no timer pending, no resolution in flight) and
    the scanner sends a token made of accepted characters, key by key on
    an element that is not editable, each key less than 150 ms after the
    one before, and then Enter, again less than 150 ms later.  The key
    events raise nothing and leave the token in the buffer; the Enter key
    commits as the expiry of the inactivity timer would have; the commit
    hands on exactly the token when it has at least 4 characters, with
    the effects of its resolution on the current page, and nothing when
    it is shorter; and it leaves the buffer empty and no inactivity timer
    pending. *)
Theorem scan_round_trip pathname products st token times tgt now :
  all_accepted token = true ->
  length times = String.length token ->
  paced 150 (times ++ [now]) ->
  suspendedCount st <= 0 ->
  isProcessing st = false ->
  buffer st = "" ->
  timeout st = None ->
  resets st = [] ->
  editable tgt = false ->
  let typed := feed pathname products st (combine times (keys tgt token)) in
  let entered := key_at pathname products (fst typed) now (Enter tgt) in
  snd typed = []
  /\ buffer (fst typed) = token
  /\ entered
     = inactivity_timeout (page_of pathname) pathname products now (fst typed)
  /\ snd entered
     = (if (4 <=? JS.length token)%nat
        then snd (emit (page_of pathname) pathname products now st token)
        else [])
  /\ buffer (fst entered) = ""
  /\ timeout (fst entered) = None.
Proof.
  intros Hacc Hlen Hpaced Hs Hp Hb Ht Hr He typed entered.
  destruct (typed_token pathname products st token times tgt now
              Hacc Hlen Hpaced Hs Hp Hb Ht Hr He) as (t & Htyped & Hlate).
  fold typed in Htyped.
  assert (Hentered : entered
                     = commit (page_of pathname) pathname products now
                              (set_timeout (fst typed) None)).
  { subst entered. unfold Enter. rewrite Htyped. cbn [fst].
    rewrite key_at_early; [|exact Hr | exact Hlate].
    apply DecoderFacts.enter_commits; assumption. }
  rewrite Hentered, Htyped. cbn [fst snd].
  split; [reflexivity|]. split; [reflexivity|]. split; [reflexivity|].
  unfold commit, MIN_BARCODE_LENGTH. cbn [buffer set_timeout set_buffer].
  rewrite (trim_accepted token Hacc).
  set (st1 := set_timeout (set_timeout (set_buffer st token) t) None).
  destruct (4 <=? JS.length token)%nat.
  - pose proof (emit_effects_same (page_of pathname) pathname products now
                                  st1 st token eq_refl eq_refl eq_refl) as Heff.
    pose proof (emit_timeout (page_of pathname) pathname products now
                             st1 token) as Htime.
    destruct (emit (page_of pathname) pathname products now st1 token)
      as [st2 effects]. simpl in *.
    split; [exact Heff|]. split; [reflexivity | exact Htime].
  - split; [reflexivity|]. split; reflexivity.
Qed.

Lemma scan_round_trip_witness :
  snd (key_at "/pos" Samples.shelf
         (fst (feed "/pos" Samples.shelf initial
                    (combine [1000; 1001; 1002; 1003; 1004]
                             (keys Samples.body "12345"))))
         1013 (Enter Samples.body))
  = snd (emit global_page "/pos" Samples.shelf 1013 initial "12345").
Proof.
  destruct (scan_round_trip "/pos" Samples.shelf initial "12345"
              [1000; 1001; 1002; 1003; 1004] Samples.body 1013)
    as (_ & _ & _ & H & _);
    [reflexivity | reflexivity | simpl; lia | simpl; lia | reflexivity
     | reflexivity | reflexivity | reflexivity | reflexivity |].
  exact H.
Defined.

(** *** Scans on the inventory page *)

Lemma handleInventoryBarcode_navigates products token b :
  In (navigate_add_product b) (handleInventoryBarcode products token)
  <-> b = token
      /\ forall product, In product products ->
                         barcode product <> token /\ id product <> token.
Proof.
  unfold handleInventoryBarcode.
  destruct (lookup products token) as [product|] eqn:L.
  - unfold lookup in L. apply List.find_some in L as [Hin Hm].
    apply RouterFacts.matches_iff in Hm. simpl. split.
    + intros [H|[]]. discriminate.
    + intros [_ H]. destruct (H product Hin). tauto.
  - unfold lookup in L. simpl. split.
    + intros [H|[[= ->]|[]]]; [discriminate|].
      split; [reflexivity|]. intros product Hin.
      apply RouterFacts.matches_false, (List.find_none _ _ L product Hin).
    + intros [-> _]. right. left. reflexivity.
Qed.

(** X11: a scan on the inventory page.  When the decoder is idle and
    the scanner sends a token of at least 4 accepted characters and
    Enter, each key less than 150 ms after the one before, while the
    page is [/inventory], the provider navigates to the add-product
    form, with exactly that token as the bar code to fill in, when no
    product of the catalogue has the token as bar code or as id, and it
    does not navigate otherwise; in neither case does the provider start
    a resolution or remember the token: its refs end as they were. *)
Theorem inventory_scan_opens_form products st token times tgt now :
  all_accepted token = true ->
  (4 <= JS.length token)%nat ->
  length times = String.length token ->
  paced 150 (times ++ [now]) ->
  suspendedCount st <= 0 ->
  isProcessing st = false ->
  buffer st = "" ->
  timeout st = None ->
  resets st = [] ->
  editable tgt = false ->
  let typed :=
    feed "/inventory" products st (combine times (keys tgt token)) in
  let entered := key_at "/inventory" products (fst typed) now (Enter tgt) in
  (forall b, In (navigate_add_product b) (snd entered) <->
             b = token
             /\ forall product, In product products ->
                                barcode product <> token
                                /\ id product <> token)
  /\ fst entered = st.
Proof.
  intros Hacc Hmin Hlen Hpaced Hs Hp Hb Ht Hr He typed entered.
  destruct (typed_token "/inventory" products st token times tgt now
              Hacc Hlen Hpaced Hs Hp Hb Ht Hr He) as (t & Htyped & Hlate).
  fold typed in Htyped.
  assert (Hentered : entered
                     = commit inventory_page "/inventory" products now
                              (set_timeout (fst typed) None)).
  { subst entered. unfold Enter. rewrite Htyped. cbn [fst].
    rewrite key_at_early; [|exact Hr | exact Hlate].
    apply (DecoderFacts.enter_commits "/inventory"); assumption. }
  rewrite Hentered, Htyped. cbn [fst snd].
  unfold commit, MIN_BARCODE_LENGTH. cbn [buffer set_timeout set_buffer].
  rewrite (trim_accepted token Hacc).
  apply Nat.leb_le in Hmin. rewrite Hmin. cbn [emit fst snd].
  split.
  - intros b. rewrite <- handleInventoryBarcode_navigates. simpl.
    split; [intros [H|H]; [discriminate | exact H] | auto].
  - destruct st as [n buf t0 p l lt r]. simpl in *. subst buf t0.
    reflexivity.
Qed.

Lemma inventory_scan_opens_form_witness :
  In (navigate_add_product "555-01")
     (snd (key_at "/inventory" Samples.shelf
             (fst (feed "/inventory" Samples.shelf initial
                        (combine [1000; 1001; 1002; 1003; 1004; 1005]
                                 (keys Samples.body "555-01"))))
             1010 (Enter Samples.body))).
Proof.
  destruct (inventory_scan_opens_form Samples.shelf initial "555-01"
              [1000; 1001; 1002; 1003; 1004; 1005] Samples.body 1010)
    as [H _]; [reflexivity | simpl; lia | reflexivity | simpl; lia
              | simpl; lia | reflexivity | reflexivity | reflexivity
              | reflexivity | reflexivity |].
  apply H. split; [reflexivity|].
  intros product [<-|[<-|[<-|[]]]]; split; discriminate.
Defined.

End ProviderFacts.

(** ** Scanning into the product form *)

Module FormFacts.
Import ProductForm ProductModal.

Lemma form_accepted_is_accepted token :
  all_accepted token = true -> Provider.all_accepted token = true.
Proof.
  induction token as [|c token IH]; simpl; [reflexivity|].
  intros H. apply andb_true_iff in H as [Hc H]. rewrite (IH H), andb_true_r.
  unfold accepted_char in Hc. unfold Scanner.accepted_char.
  rewrite Hc. reflexivity.
Qed.




(** Switching scanning off ends with the [TypeError], the state set and
    the buffer emptied. *)
Example stop_scanning_throws :
  toggleBarcodeScanning (mkState true "48" (Some 100) "")
  = (mkState false "" None "", TypeError_toast_info_is_not_a_function).
Proof. reflexivity. Qed.



End FormFacts.

(** ** Scans and keys on the sale screen *)

Module SaleFacts.
Import Cart SaleScreen.

(** X13: the line a scan creates is the store's record, not the
    catalogue's.  When [handleBarcodeScanned] is given a catalogue entry
    whose product the store holds with stock, and the cart has no line of
    that product yet, the new line is the record fetched from the store
    (its name, its price) with quantity 1, whatever the catalogue entry
    said, and the only notification is the success one. *)
Theorem scan_adds_refetched_record db1 db2 cart product currentProduct stocked :
  productService.getById db1 (id product) = Ok currentProduct ->
  0 < quantity currentProduct ->
  productService.getById db2 (id currentProduct) = Ok stocked ->
  0 < quantity stocked ->
  ~ In (id currentProduct) (List.map id cart) ->
  handleBarcodeScanned db1 db2 cart cart product
  = (cart ++ [with_quantity currentProduct 1],
     [toast_success (name currentProduct +:+ " added to cart!")]).
Proof.
  intros Hget1 Hq1 Hget2 Hq2 Hnone.
  unfold handleBarcodeScanned. rewrite Hget1.
  apply Z.ltb_lt in Hq1. rewrite Hq1.
  apply CartFacts.find_line_none in Hnone.
  unfold addToCart, currentCartQuantity, add_updater.
  rewrite Hget2, Hnone.
  apply Z.leb_gt in Hq2. rewrite Hq2. reflexivity.
Qed.

Lemma scan_adds_refetched_record_witness :
  handleBarcodeScanned Samples.store Samples.store [] []
    (mkProduct "p2" "Soap (old label)" "" "" 45 30 0 10 "4800011122233" "")
  = ([with_quantity Samples.soap 1], [toast_success "Soap added to cart!"]).
Proof.
  apply (scan_adds_refetched_record Samples.store Samples.store []
           (mkProduct "p2" "Soap (old label)" "" "" 45 30 0 10
                      "4800011122233" "")
           Samples.soap Samples.soap);
    [reflexivity | simpl; lia | reflexivity | simpl; lia | simpl; tauto].
Defined.

(** X14: [handleBarcodeScanned] announces the addition whether or not
    it took place.  When its own fetch shows stock, the notification
    "added to cart!" is raised after whatever [addToCart] raised: if
    [addToCart] refuses the unit because the cart already holds the
    whole stock, or cannot fetch the product, the cart is left as it is
    and the operator sees the error followed by the success
    notification. *)
Theorem scan_at_stock_limit_announces_success
        db1 db2 cart product currentProduct :
  productService.getById db1 (id product) = Ok currentProduct ->
  0 < quantity currentProduct ->
  let added := toast_success (name currentProduct +:+ " added to cart!") in
  (forall stocked,
      productService.getById db2 (id currentProduct) = Ok stocked ->
      quantity stocked <= currentCartQuantity cart (id currentProduct) ->
      handleBarcodeScanned db1 db2 cart cart product
      = (cart, [insufficient_stock (quantity stocked); added]))
  /\ (forall e,
         productService.getById db2 (id currentProduct) = Err e ->
         handleBarcodeScanned db1 db2 cart cart product
         = (cart, [toast_error "Error checking stock availability"; added])).
Proof.
  intros Hget1 Hq1 added. apply Z.ltb_lt in Hq1.
  unfold handleBarcodeScanned. rewrite Hget1, Hq1. unfold addToCart.
  split.
  - intros stocked Hget2 Hle. rewrite Hget2.
    apply Z.leb_le in Hle. rewrite Hle. reflexivity.
  - intros e Hget2. rewrite Hget2. reflexivity.
Qed.

Lemma scan_at_stock_limit_announces_success_witness :
  handleBarcodeScanned Samples.store Samples.store
    [with_quantity Samples.cola 1] [with_quantity Samples.cola 1] Samples.cola
  = ([with_quantity Samples.cola 1],
     [insufficient_stock 1; toast_success "Cola added to cart!"]).
Proof.
  destruct (scan_at_stock_limit_announces_success Samples.store Samples.store
              [with_quantity Samples.cola 1] Samples.cola Samples.cola)
    as [H _]; [reflexivity | simpl; lia |].
  apply (H Samples.cola); [reflexivity | vm_compute; discriminate].
Defined.

(** X15: from the scanner to the cart.  On [/pos], with the decoder
    idle (empty buffer, no timer pending, no resolution in flight) and
    the token not the one last processed, a scanner that sends the bar
    code of a product the catalogue shows in stock (at least 4 accepted
    characters, then Enter, each key less than 150 ms after the one
    before) makes the provider publish the catalogue entry as bar-code
    data, time-stamped with the time of the Enter key; the effect of the
    sale screen, which has not seen that time stamp, hands the entry to
    [handleBarcodeScanned]; and when the store holds the product under
    that id with more stock than the cart has on its line, one unit of it
    is added to the cart, with the success notification only. *)
Theorem scan_to_cart products db st cart token times tgt now processed
        product currentProduct :
  Provider.all_accepted token = true ->
  (4 <= JS.length token)%nat ->
  length times = String.length token ->
  Provider.paced 150 (times ++ [now]) ->
  Scanner.suspendedCount st <= 0 ->
  Scanner.isProcessing st = false ->
  Scanner.buffer st = "" ->
  Scanner.timeout st = None ->
  Scanner.resets st = [] ->
  Scanner.lastProcessed st <> token ->
  Scanner.editable tgt = false ->
  Scanner.lookup products token = Some product ->
  0 < quantity product ->
  now <> 0 ->
  processed <> Some now ->
  productService.getById db (id product) = Ok currentProduct ->
  id currentProduct = id product ->
  0 < quantity currentProduct ->
  currentCartQuantity cart (id product) < quantity currentProduct ->
  let typed :=
    Provider.feed "/pos" products st
                  (combine times (Provider.keys tgt token)) in
  let entered :=
    Provider.key_at "/pos" products (fst typed) now (Provider.Enter tgt) in
  snd entered
  = [Scanner.scanned token;
     Scanner.setBarcodeData token product now;
     Scanner.toast (toast_success (name product +:+ " found"))]
  /\ onBarcodeData processed (Some (token, product, now))
     = (Some now, Some product)
  /\ handleBarcodeScanned db db cart cart product
     = (add_updater currentProduct cart,
        [toast_success (name currentProduct +:+ " added to cart!")])
  /\ currentCartQuantity (add_updater currentProduct cart) (id product)
     = currentCartQuantity cart (id product) + 1.
Proof.
  intros Hacc Hmin Hlen Hpaced Hs Hp Hb Ht Hr Hlast He Hlook Hq Hnow Hproc
         Hget Hid Hstock Hroom typed entered.
  destruct (ProviderFacts.typed_token "/pos" products st token times tgt now
              Hacc Hlen Hpaced Hs Hp Hb Ht Hr He) as (t & Htyped & Hlate).
  fold typed in Htyped.
  split.
  { subst entered. unfold Provider.Enter. rewrite Htyped. cbn [fst].
    rewrite ProviderFacts.key_at_early; [|exact Hr | exact Hlate].
    rewrite DecoderFacts.enter_commits by assumption.
    unfold Scanner.commit, Scanner.MIN_BARCODE_LENGTH, Scanner.page_of.
    cbn [Scanner.buffer Scanner.set_timeout Scanner.set_buffer String.eqb
         Ascii.eqb Bool.eqb].
    rewrite (ProviderFacts.trim_accepted token Hacc).
    apply Nat.leb_le in Hmin. rewrite Hmin.
    unfold Scanner.emit, Scanner.processBarcodeData.
    cbn [Scanner.isProcessing Scanner.lastProcessed Scanner.set_timeout
         Scanner.set_buffer].
    rewrite Hp. apply String.eqb_neq in Hlast. rewrite Hlast. simpl.
    unfold Scanner.resolve. rewrite Hlook.
    apply Z.leb_gt in Hq. rewrite Hq. reflexivity. }
  split.
  { unfold onBarcodeData. apply Z.eqb_neq in Hnow. rewrite Hnow.
    destruct processed as [p|]; [|reflexivity].
    replace (p =? now) with false; [reflexivity|].
    symmetry. apply Z.eqb_neq. congruence. }
  split.
  { unfold handleBarcodeScanned. rewrite Hget.
    apply Z.ltb_lt in Hstock. rewrite Hstock.
    unfold addToCart. rewrite Hid, Hget.
    apply Z.leb_gt in Hroom. rewrite Hroom. reflexivity. }
  rewrite <- Hid. apply CartFacts.quantity_add_updater.
Qed.

Lemma scan_to_cart_witness :
  handleBarcodeScanned Samples.store Samples.store [] [] Samples.cola
  = ([with_quantity Samples.cola 1], [toast_success "Cola added to cart!"]).
Proof.
  destruct (scan_to_cart Samples.shelf Samples.store Scanner.initial []
              "8991234567890"
              [1000; 1001; 1002; 1003; 1004; 1005; 1006; 1007; 1008; 1009;
               1010; 1011; 1012]
              Samples.body 1013 None Samples.cola Samples.cola)
    as (_ & _ & H & _);
    [reflexivity | simpl; lia | reflexivity | simpl; lia | simpl; lia
    | reflexivity | reflexivity | reflexivity | reflexivity | discriminate
    | reflexivity | reflexivity | simpl; lia
    | discriminate | discriminate | reflexivity | reflexivity | simpl; lia
    | vm_compute; reflexivity |].
  exact H.
Defined.

(** *** The Enter key in the checkout dialogue *)

Lemma leb_zero_not_pos (total x : float) :
  is_zero x = true -> (total <=? x)%float = true -> (0 <? total)%float = false.
Proof.
  unfold is_zero.
  rewrite FloatAxioms.eqb_spec, FloatAxioms.leb_spec, FloatAxioms.ltb_spec.
  rewrite FloatFacts.zero_spec. unfold SFeqb, SFleb, SFltb.
  destruct (Prim2SF x) as [sx|sx| |sx mx ex],
           (Prim2SF total) as [st|st| |st mt et];
    simpl; try congruence;
    try (destruct sx; simpl; congruence);
    try (destruct st; simpl; congruence).
Qed.

Lemma pos_not_nan (x : float) : (0 <? x)%float = true -> is_nan x = false.
Proof.
  rewrite FloatFacts.is_nan_spec, FloatAxioms.ltb_spec, FloatFacts.zero_spec.
  unfold SFltb. destruct (Prim2SF x); simpl; congruence.
Qed.

Lemma nonempty_length s : (0 <? String.length s)%nat = JS.nonempty s.
Proof. destruct s; reflexivity. Qed.

(** X16: the Enter key and the checkout agree.  For a cart whose total
    is positive, the test [canCheckout] made on an Enter key in the open
    checkout dialogue holds exactly when no checkout is under way and the
    payment check of [handleCheckout] accepts the payment; so the key
    either does nothing or starts a checkout that is not rejected by the
    payment check. *)
Theorem enter_key_gate_agrees clock schedule db st :
  (0 <? POS.calculateTotal (POS.cart st))%float = true ->
  POS.cart st <> [] ->
  (canCheckout st = true <->
   POS.isProcessing st = false
   /\ exists received, POS.validatePayment st = Ok received)
  /\ (POS.showCheckout st = true ->
      handleGlobalKeys clock schedule db st "Enter" = (db, [])
      \/ exists received,
          POS.validatePayment st = Ok received
          /\ handleGlobalKeys clock schedule db st "Enter"
             = POS.handleCheckout clock schedule db st).
Proof.
  intros Hpos Hcart.
  assert (Hgate : canCheckout st = true <->
                  POS.isProcessing st = false
                  /\ exists received, POS.validatePayment st = Ok received).
  { unfold canCheckout, POS.validatePayment.
    destruct (POS.cart st) as [|item cart] eqn:Hc; [congruence|].
    rewrite <- Hc in *. clear Hc item cart.
    replace (0 <? length (POS.cart st))%nat with true
      by (destruct (POS.cart st); [congruence | reflexivity]).
    rewrite andb_true_r.
    destruct (POS.isProcessing st); simpl.
    { split; [discriminate | intros [H _]; discriminate]. }
    destruct (POS.paymentMethod st).
    - (* cash *)
      set (total := POS.calculateTotal (POS.cart st)) in *.
      destruct (JS.nonempty (POS.receivedAmount st)) eqn:Hne.
      + set (received := JS.parseFloat (POS.receivedAmount st)).
        split.
        * intros Hle. split; [reflexivity|].
          assert (Ht : JS.truthy received = true).
          { unfold JS.truthy.
            rewrite (FloatFacts.leb_not_nan _ _ Hle). simpl.
            destruct (is_zero received) eqn:Hz; [|reflexivity].
            rewrite (leb_zero_not_pos total received Hz Hle) in Hpos.
            discriminate. }
          rewrite Ht, (FloatFacts.leb_not_ltb _ _ Hle). simpl. eauto.
        * intros [_ [r Hr]].
          destruct (JS.truthy received) eqn:Ht; simpl in Hr; [|discriminate].
          destruct (received <? total)%float eqn:Hlt; [discriminate|].
          apply FloatFacts.not_ltb_leb;
            [apply FloatFacts.truthy_not_nan, Ht | apply pos_not_nan, Hpos
            | exact Hlt].
      + split.
        * intros Hle. exfalso.
          assert (Hz : is_zero (JS.parseFloat "0") = true) by reflexivity.
          rewrite (leb_zero_not_pos total _ Hz Hle) in Hpos. discriminate.
        * intros [_ [r Hr]].
          destruct (JS.truthy (JS.parseFloat (POS.receivedAmount st))) eqn:Ht.
          -- apply CheckoutFacts.truthy_received_nonempty in Ht. congruence.
          -- simpl in Hr. discriminate.
    - rewrite nonempty_length.
      destruct (JS.nonempty (JS.trim (POS.referenceNumber st))); simpl.
      + split; eauto.
      + split; [discriminate | intros [_ [r Hr]]; discriminate].
    - rewrite nonempty_length.
      destruct (JS.nonempty (JS.trim (POS.referenceNumber st))); simpl.
      + split; eauto.
      + split; [discriminate | intros [_ [r Hr]]; discriminate]. }
  split; [exact Hgate|].
  intros Hshow. unfold handleGlobalKeys. simpl. rewrite Hshow.
  destruct (canCheckout st) eqn:Hcan; [|left; reflexivity].
  right. destruct (proj1 Hgate eq_refl) as [_ [received Hr]]. eauto.
Qed.

Lemma enter_key_gate_agrees_witness :
  canCheckout Samples.scenario_A = true
  <-> POS.isProcessing Samples.scenario_A = false
      /\ exists received, POS.validatePayment Samples.scenario_A = Ok received.
Proof.
  destruct (enter_key_gate_agrees Samples.noon [] Samples.tea_store
              Samples.scenario_A) as [H _];
    [vm_compute; reflexivity | discriminate |].
  exact H.
Defined.

(** *** The category filter *)

Lemma existsb_eqb_In value elements :
  existsb (String.eqb value) elements = true <-> In value elements.
Proof.
  rewrite existsb_exists. split.
  - intros (x & Hx & E). apply String.eqb_eq in E. congruence.
  - intros H. exists value. split; [exact H | apply String.eqb_refl].
Qed.

Lemma add_In elements value x :
  In x (JSSet.add elements value) <-> In x elements \/ x = value.
Proof.
  unfold JSSet.add.
  destruct (existsb (String.eqb value) elements) eqn:E.
  - apply existsb_eqb_In in E. split; [auto | intros [H| ->]; assumption].
  - rewrite in_app_iff. simpl. intuition congruence.
Qed.

Lemma add_NoDup elements value :
  List.NoDup elements -> List.NoDup (JSSet.add elements value).
Proof.
  intros ND. unfold JSSet.add.
  destruct (existsb (String.eqb value) elements) eqn:E; [exact ND|].
  apply List.NoDup_app; [exact ND | repeat constructor; simpl; tauto |].
  intros x Hx [<-|[]].
  apply existsb_eqb_In in Hx. congruence.
Qed.

Lemma fold_add_spec values elements :
  List.NoDup elements ->
  List.NoDup (fold_left JSSet.add values elements)
  /\ forall x, In x (fold_left JSSet.add values elements)
               <-> In x elements \/ In x values.
Proof.
  revert elements.
  induction values as [|v values IH]; simpl; intros elements ND.
  - split; [exact ND | intros x; tauto].
  - destruct (IH _ (add_NoDup elements v ND)) as [ND' Hin].
    split; [exact ND'|]. intros x. rewrite Hin, add_In. intuition congruence.
Qed.

Lemma filter_add keep elements value :
  List.filter keep (JSSet.add elements value)
  = if keep value then JSSet.add (List.filter keep elements) value
    else List.filter keep elements.
Proof.
  unfold JSSet.add.
  destruct (existsb (String.eqb value) elements) eqn:E.
  - destruct (keep value) eqn:K; [|reflexivity].
    replace (existsb (String.eqb value) (List.filter keep elements)) with true;
      [reflexivity|].
    symmetry. apply existsb_eqb_In, filter_In.
    split; [apply existsb_eqb_In, E | exact K].
  - rewrite List.filter_app. simpl.
    destruct (keep value) eqn:K; [|apply List.app_nil_r].
    replace (existsb (String.eqb value) (List.filter keep elements)) with false;
      [reflexivity|].
    symmetry. apply not_true_is_false. intros H.
    apply existsb_eqb_In, filter_In in H as [H _].
    apply existsb_eqb_In in H. congruence.
Qed.

Lemma filter_fold_add keep values elements :
  List.filter keep (fold_left JSSet.add values elements)
  = fold_left JSSet.add (List.filter keep values) (List.filter keep elements).
Proof.
  revert elements. induction values as [|v values IH]; simpl; intros elements.
  - reflexivity.
  - rewrite IH, filter_add. destruct (keep v); reflexivity.
Qed.

(** X17: the category filter of the sale screen lists every category of
    the catalogue once: the list has no duplicate and no empty name, a
    name is in it exactly when it is the non-empty category of some
    product, and it is the very list, in the same order, that the
    inventory screen computes (which drops the empty names before, not
    after, making the names unique). *)
Theorem categories_listed_once products :
  List.NoDup (getUniqueCategories products)
  /\ (forall category,
         In category (getUniqueCategories products)
         <-> category <> ""
             /\ exists product,
                 In product products /\ category_name product = category)
  /\ getUniqueCategories products
     = InventoryScreen.getUniqueCategories products.
Proof.
  unfold getUniqueCategories, InventoryScreen.getUniqueCategories,
    JSSet.of_list.
  destruct (fold_add_spec (List.map category_name products) []
                          (List.NoDup_nil _)) as [ND Hin].
  split; [apply List.NoDup_filter, ND|]. split.
  - intros category. rewrite filter_In, Hin, in_map_iff. simpl.
    assert (Hne : JS.nonempty category = true <-> category <> "").
    { destruct category; simpl; split; congruence. }
    rewrite Hne. split.
    + intros [[[]|(p & Hp & Hinp)] H]. split; [exact H | eauto].
    + intros [H (p & Hinp & Hp)]. split; [right; eauto | exact H].
  - apply filter_fold_add.
Qed.

End SaleFacts.

(** ** The end of a checkout *)

Module SettlementFacts.
Import POS Settlement.

Lemma after_app st t1 t2 : after st (t1 ++ t2) = after (after st t1) t2.
Proof. unfold after. apply fold_left_app. Qed.

Lemma after_notices st trace : after st trace = after st (notices trace).
Proof.
  revert st. induction trace as [|e trace IH]; intros st; [reflexivity|].
  destruct e as [t|u|r]; simpl; apply IH.
Qed.

Lemma notices_app t1 t2 : notices (t1 ++ t2) = notices t1 ++ notices t2.
Proof. unfold notices. apply List.filter_app. Qed.

Lemma notices_requests trace :
  forallb is_request trace = true -> notices trace = [].
Proof.
  induction trace as [|e trace IH]; simpl; [reflexivity|].
  intros H. apply andb_true_iff in H as [He H].
  rewrite He. simpl. apply IH, H.
Qed.

Lemma forallb_app_requests t1 t2 :
  forallb is_request t1 = true -> forallb is_request t2 = true ->
  forallb is_request (t1 ++ t2) = true.
Proof. intros H1 H2. rewrite List.forallb_app, H1, H2. reflexivity. Qed.

Lemma update_transactions db pid payload :
  transactions_coll (fst (productService.update db pid payload))
  = transactions_coll db.
Proof.
  unfold productService.update.
  destruct (outage db); [reflexivity|].
  destruct (products_coll db !! pid); reflexivity.
Qed.

Lemma deliver_transactions r i :
  transactions_coll (run_db (deliver r i)) = transactions_coll (run_db r).
Proof.
  unfold deliver, reject.
  destruct (run_tasks r !! i) as [[item|item cur|item cur|item e|item cur e]|];
    try reflexivity.
  - destruct (productService.getById (run_db r) (id item)); reflexivity.
  - pose proof (update_transactions (run_db r) (id item)
                                    (decremented cur item)) as H.
    destruct (productService.update _ _ _) as [db [p|e]]; exact H.
Qed.

Lemma run_transactions schedule r :
  transactions_coll (run_db (fold_left deliver schedule r))
  = transactions_coll (run_db r).
Proof.
  revert r. induction schedule as [|i schedule IH]; simpl; intros r.
  - reflexivity.
  - rewrite IH. apply deliver_transactions.
Qed.

Lemma forallb_lookup_false {A} (f : A -> bool) (l : list A) i x :
  l !! i = Some x -> f x = false -> forallb f l = false.
Proof.
  intros Hi Hx. apply not_true_is_false. intros H.
  rewrite forallb_forall in H.
  rewrite (H x (CheckoutFacts.lookup_In l i x Hi)) in Hx. discriminate.
Qed.




Lemma inventoryUpdates_requests db1 cart :
  forallb is_request (run_trace (inventoryUpdates db1 cart)) = true.
Proof.
  unfold inventoryUpdates. cbn [run_trace].
  induction cart as [|item cart IH]; simpl; [reflexivity | exact IH].
Qed.


Lemma handleCheckout_persisted clock schedule db st received db1 saved :
  cart st <> [] ->
  validatePayment st = Ok received ->
  transactionService.create db (transactionData clock st received)
  = (db1, Ok saved) ->
  let r := fold_left deliver schedule (inventoryUpdates db1 (cart st)) in
  handleCheckout clock schedule db st
  = (run_db r,
     [update (setIsProcessing true);
      request (transactionService_create (transactionData clock st received))]
     ++ run_trace r).
Proof.
  intros Hne Hv Hcreate. unfold handleCheckout.
  destruct (cart st) as [|item items]; [congruence|].
  rewrite Hv, Hcreate. reflexivity.
Qed.

Lemma create_persists clock db st received :
  paymentMethod st <> cash ->
  outage db = None ->
  let data := transactionData clock st received in
  transactionService.create db data
  = ({| products_coll := products_coll db;
        transactions_coll := <[tx_id data := data]> (transactions_coll db);
        outage := outage db |}, Ok data).
Proof.
  intros Hcard Hup data. unfold transactionService.create.
  subst data. cbn [tx_referenceNumber transactionData].
  destruct (paymentMethod st); [congruence | |]; rewrite Hup; reflexivity.
Qed.


(** A threshold stored as 0 is read as 10. *)
Example stored_zero_threshold_reads_as_ten :
  let flyer := mkProduct "p6" "Flyer" "" "" 0 0 5 0 "" "" in
  productService.getById (mkBackend (<["p6" := flyer]> ∅) ∅ None) "p6"
  = Ok (mkProduct "p6" "Flyer" "" "" 0 0 5 10 "" "").
Proof. reflexivity. Qed.



(** *** A product of the cart is gone from the store *)

Lemma notices_on_rejected message :
  notices (on_rejected message) = on_rejected message.
Proof. reflexivity. Qed.

(** The run while the product of line [i0] is not in the store: the
    store stays reachable, the product stays out, an update that was sent
    finds its document, and the first rejection is that of a [getById]. *)
Lemma deliver_missing (item0 : CartLine) i0 r i :
  outage (run_db r) = None
  /\ products_coll (run_db r) !! id item0 = None
  /\ (forall j itemj cur,
         run_tasks r !! j = Some (awaiting_update itemj cur) ->
         is_Some (products_coll (run_db r) !! id itemj))
  /\ (run_settled r = false ->
      forallb is_request (run_trace r) = true
      /\ run_tasks r !! i0 = Some (awaiting_getById item0))
  /\ (run_settled r = true ->
      notices (run_trace r) = on_rejected "Product not found") ->
  let r' := deliver r i in
  (outage (run_db r') = None
   /\ products_coll (run_db r') !! id item0 = None
   /\ (forall j itemj cur,
          run_tasks r' !! j = Some (awaiting_update itemj cur) ->
          is_Some (products_coll (run_db r') !! id itemj))
   /\ (run_settled r' = false ->
       forallb is_request (run_trace r') = true
       /\ run_tasks r' !! i0 = Some (awaiting_getById item0))
   /\ (run_settled r' = true ->
       notices (run_trace r') = on_rejected "Product not found"))
  /\ (run_settled r = true -> run_settled r' = true)
  /\ (i = i0 -> run_settled r' = true).
Proof.
  intros (Hup & Hgone & Hsent & Hopen & Hclosed) r'. subst r'.
  unfold deliver.
  destruct (run_tasks r !! i) as [[item|item cur|item cur|item e|item cur e]|]
    eqn:Hi.
  - (* a [getById] is answered *)
    assert (Hlen : (i < length (run_tasks r))%nat).
    { apply lookup_lt_is_Some. rewrite Hi. eauto. }
    unfold productService.getById. rewrite Hup.
    destruct (products_coll (run_db r) !! id item) as [cur|] eqn:Hcur.
    + cbn [run_db run_tasks run_settled run_trace].
      split; [|split; [auto|]].
      * split; [exact Hup|]. split; [exact Hgone|]. split.
        { intros j itemj curj Hj.
          destruct (Nat.eq_dec i j) as [<-|Hne].
          - rewrite list_lookup_insert_eq in Hj by exact Hlen.
            injection Hj as <- <-. rewrite Hcur. eauto.
          - rewrite list_lookup_insert_ne in Hj by exact Hne. eauto. }
        split.
        { intros Hs. destruct (Hopen Hs) as [Hreq Htask].
          split; [apply forallb_app_requests; [exact Hreq | reflexivity]|].
          destruct (Nat.eq_dec i i0) as [->|Hne].
          - rewrite Hi in Htask. injection Htask as ->. congruence.
          - rewrite list_lookup_insert_ne by exact Hne. exact Htask. }
        intros Hs. rewrite notices_app, (Hclosed Hs). reflexivity.
      * intros ->. destruct (run_settled r) eqn:Hs; [reflexivity|].
        destruct (Hopen eq_refl) as [_ Htask].
        rewrite Hi in Htask. injection Htask as ->. congruence.
    + unfold reject. cbn [run_db run_tasks run_settled run_trace].
      split; [|split; reflexivity].
      split; [exact Hup|]. split; [exact Hgone|]. split.
      { intros j itemj curj Hj.
        destruct (Nat.eq_dec i j) as [<-|Hne].
        - rewrite list_lookup_insert_eq in Hj by exact Hlen. discriminate.
        - rewrite list_lookup_insert_ne in Hj by exact Hne. eauto. }
      split; [discriminate|]. intros _.
      destruct (run_settled r) eqn:Hs.
      * rewrite List.app_nil_r. apply Hclosed. reflexivity.
      * destruct (Hopen eq_refl) as [Hreq _].
        rewrite notices_app, (notices_requests _ Hreq). reflexivity.
  - (* an [update] is answered *)
    assert (Hlen : (i < length (run_tasks r))%nat).
    { apply lookup_lt_is_Some. rewrite Hi. eauto. }
    destruct (Hsent i item cur Hi) as [old Hold].
    unfold productService.update. rewrite Hup, Hold.
    cbn [run_db run_tasks run_settled run_trace products_coll outage].
    assert (Hne0 : id item <> id item0) by congruence.
    assert (Hpending : run_settled r = false ->
                       forallb is_fulfilled
                               (<[i:=fulfilled item cur]> (run_tasks r))
                       = false).
    { intros Hs. destruct (Hopen Hs) as [_ Htask].
      apply (forallb_lookup_false is_fulfilled _ i0 (awaiting_getById item0));
        [|reflexivity].
      rewrite list_lookup_insert_ne; [exact Htask|]. congruence. }
    split; [|split].
    + split; [reflexivity|].
      split; [rewrite lookup_insert_ne by exact Hne0; exact Hgone|].
      split.
      { intros j itemj curj Hj.
        destruct (Nat.eq_dec i j) as [<-|Hne].
        - rewrite list_lookup_insert_eq in Hj by exact Hlen. discriminate.
        - rewrite list_lookup_insert_ne in Hj by exact Hne.
          destruct (String.eqb_spec (id item) (id itemj)) as [->|Hk].
          + rewrite lookup_insert_eq. eauto.
          + rewrite lookup_insert_ne by exact Hk. eauto. }
      destruct (run_settled r) eqn:Hs.
      * cbn [negb orb]. rewrite andb_false_r. split; [discriminate|].
        intros _. rewrite List.app_nil_r. apply Hclosed. reflexivity.
      * rewrite (Hpending eq_refl). cbn [negb orb andb].
        split; [|discriminate]. intros _.
        destruct (Hopen eq_refl) as [Hreq Htask].
        rewrite List.app_nil_r. split; [exact Hreq|].
        rewrite list_lookup_insert_ne; [exact Htask | congruence].
    + intros ->. reflexivity.
    + intros ->. destruct (run_settled r) eqn:Hs; [reflexivity|].
      destruct (Hopen eq_refl) as [_ Htask]. congruence.
  - split; [auto|]. split; [auto|]. intros ->.
    destruct (run_settled r) eqn:Hs; [reflexivity|].
    destruct (Hopen eq_refl) as [_ Htask]. congruence.
  - split; [auto|]. split; [auto|]. intros ->.
    destruct (run_settled r) eqn:Hs; [reflexivity|].
    destruct (Hopen eq_refl) as [_ Htask]. congruence.
  - split; [auto|]. split; [auto|]. intros ->.
    destruct (run_settled r) eqn:Hs; [reflexivity|].
    destruct (Hopen eq_refl) as [_ Htask]. congruence.
  - split; [auto|]. split; [auto|]. intros ->.
    destruct (run_settled r) eqn:Hs; [reflexivity|].
    destruct (Hopen eq_refl) as [_ Htask]. congruence.
Qed.

Lemma run_missing (item0 : CartLine) i0 schedule :
  forall r,
    outage (run_db r) = None
    /\ products_coll (run_db r) !! id item0 = None
    /\ (forall j itemj cur,
           run_tasks r !! j = Some (awaiting_update itemj cur) ->
           is_Some (products_coll (run_db r) !! id itemj))
    /\ (run_settled r = false ->
        forallb is_request (run_trace r) = true
        /\ run_tasks r !! i0 = Some (awaiting_getById item0))
    /\ (run_settled r = true ->
        notices (run_trace r) = on_rejected "Product not found") ->
    let r' := fold_left deliver schedule r in
    outage (run_db r') = None
    /\ (run_settled r' = false -> forallb is_request (run_trace r') = true)
    /\ (run_settled r' = true ->
        notices (run_trace r') = on_rejected "Product not found")
    /\ (run_settled r = true \/ In i0 schedule -> run_settled r' = true).
Proof.
  induction schedule as [|i schedule IH]; simpl; intros r H.
  - destruct H as (Hup & _ & _ & Hopen & Hclosed).
    split; [exact Hup|]. split; [intros Hs; apply Hopen, Hs|].
    split; [exact Hclosed|]. intros [Hs|[]]. exact Hs.
  - destruct (deliver_missing item0 i0 r i H) as (H' & Hstays & Hhit).
    destruct (IH _ H') as (Hup & Hopen & Hclosed & Hset).
    split; [exact Hup|]. split; [exact Hopen|]. split; [exact Hclosed|].
    intros [Hs|[->|Hin]]; apply Hset; auto.
Qed.

(** X19: a sale whose stock cannot be updated.  When a line of the cart
    is of a product that is no longer in the store (deleted on the
    inventory screen, say) and the store is reachable, a checkout by card
    or gcash with a reference number still records the transaction, and
    it never completes:
    in whatever order the responses arrive, the completion notification
    is not raised and the cart, the payment fields and the dialogue stay
    as they were.  As soon as the request for the missing product is
    answered the operator sees the single error "Transaction failed:
    Product not found" and the processing flag is lowered; the sale is
    then in the store and in the cart at the same time. *)
Theorem inventory_failure_keeps_sale clock schedule db st received i0 item0 :
  cart st <> [] ->
  paymentMethod st <> cash ->
  validatePayment st = Ok received ->
  outage db = None ->
  cart st !! i0 = Some item0 ->
  products_coll db !! id item0 = None ->
  let data := transactionData clock st received in
  let outcome := handleCheckout clock schedule db st in
  let st' := after st (snd outcome) in
  Store.transaction_getById (fst outcome) (tx_id data) = Ok data
  /\ ~ In completed (snd outcome)
  /\ cart st' = cart st
  /\ showCheckout st' = showCheckout st
  /\ receivedAmount st' = receivedAmount st
  /\ referenceNumber st' = referenceNumber st
  /\ (In i0 schedule ->
      notices (snd outcome)
      = [update (setIsProcessing true);
         toast (toast_error "Transaction failed: Product not found");
         update (setIsProcessing false)]
      /\ isProcessing st' = false).
Proof.
  intros Hne Hcard Hv Hup Hline Hgone data outcome st'.
  set (db1 := {| products_coll := products_coll db;
                 transactions_coll :=
                   <[tx_id data := data]> (transactions_coll db);
                 outage := outage db |}).
  assert (Hcreate : transactionService.create db data = (db1, Ok data))
    by exact (create_persists clock db st received Hcard Hup).
  set (r := fold_left deliver schedule (inventoryUpdates db1 (cart st))).
  assert (Hout : outcome
                 = (run_db r,
                    [update (setIsProcessing true);
                     request (transactionService_create data)]
                    ++ run_trace r)).
  { apply (handleCheckout_persisted clock schedule db st received db1 data
             Hne Hv Hcreate). }
  destruct (run_missing item0 i0 schedule (inventoryUpdates db1 (cart st)))
    as (Hupr & Hopen & Hclosed & Hset).
  { cbn [inventoryUpdates run_db run_tasks run_settled run_trace].
    split; [exact Hup|]. split; [exact Hgone|]. split.
    { intros j itemj cur Hj. rewrite CheckoutFacts.lookup_map in Hj.
      destruct (cart st !! j); discriminate. }
    split; [|discriminate]. intros _.
    split; [apply (inventoryUpdates_requests db1 (cart st))|].
    rewrite CheckoutFacts.lookup_map, Hline. reflexivity. }
  fold r in Hupr, Hopen, Hclosed, Hset.
  assert (Hnotices :
            notices (snd outcome)
            = update (setIsProcessing true)
              :: (if run_settled r then on_rejected "Product not found"
                  else [])).
  { rewrite Hout. cbn [snd]. rewrite notices_app. simpl. f_equal.
    destruct (run_settled r).
    - apply Hclosed. reflexivity.
    - apply notices_requests, Hopen. reflexivity. }
  split.
  { rewrite Hout. cbn [fst]. unfold Store.transaction_getById.
    rewrite Hupr. subst r. rewrite run_transactions.
    cbn [run_db inventoryUpdates]. subst db1. cbn [transactions_coll].
    rewrite lookup_insert_eq. reflexivity. }
  split.
  { intros Hin.
    assert (H : In completed (notices (snd outcome))).
    { unfold notices. apply filter_In. split; [exact Hin | reflexivity]. }
    rewrite Hnotices in H. destruct (run_settled r); simpl in H.
    - destruct H as [H|[H|[H|[]]]]; discriminate.
    - destruct H as [H|[]]. discriminate. }
  subst st'. rewrite after_notices, Hnotices.
  destruct (run_settled r) eqn:Hs.
  - do 4 (split; [reflexivity|]). intros _. split; reflexivity.
  - do 4 (split; [reflexivity|]). intros Hin.
    specialize (Hset (or_intror Hin)). congruence.
Qed.

Lemma inventory_failure_keeps_sale_witness :
  let st := Samples.card_payment in
  cart (after st (snd (handleCheckout Samples.noon [0%nat] Samples.tea_store st)))
  = cart st.
Proof.
  intros st.
  destruct (inventory_failure_keeps_sale Samples.noon [0%nat] Samples.tea_store
              st 56%float 0%nat (with_quantity Samples.soap 1))
    as (_ & _ & H & _).
  - discriminate.
  - discriminate.
  - vm_compute. reflexivity.
  - reflexivity.
  - reflexivity.
  - vm_compute. reflexivity.
  - exact H.
Defined.

(** *** Transaction ids *)

Lemma update_outage db pid payload :
  outage (fst (productService.update db pid payload)) = outage db.
Proof.
  unfold productService.update.
  destruct (outage db) eqn:E; [exact E|].
  destruct (products_coll db !! pid); simpl; [reflexivity | exact E].
Qed.

Lemma run_outage schedule r :
  outage (run_db (fold_left deliver schedule r)) = outage (run_db r).
Proof.
  revert r. induction schedule as [|i schedule IH]; simpl; intros r.
  - reflexivity.
  - rewrite IH. unfold deliver, reject.
    destruct (run_tasks r !! i)
      as [[item|item cur|item cur|item e|item cur e]|]; try reflexivity.
    + destruct (productService.getById (run_db r) (id item)); reflexivity.
    + pose proof (update_outage (run_db r) (id item) (decremented cur item))
        as H.
      destruct (productService.update _ _ _) as [db [p|e]]; exact H.
Qed.

Lemma checkout_records clock schedule db st received :
  cart st <> [] ->
  paymentMethod st <> cash ->
  validatePayment st = Ok received ->
  outage db = None ->
  let data := transactionData clock st received in
  let db' := fst (handleCheckout clock schedule db st) in
  outage db' = None
  /\ transactions_coll db' = <[tx_id data := data]> (transactions_coll db).
Proof.
  intros Hne Hcard Hv Hup data db'. subst db'.
  set (db1 := {| products_coll := products_coll db;
                 transactions_coll :=
                   <[tx_id data := data]> (transactions_coll db);
                 outage := outage db |}).
  assert (Hcreate : transactionService.create db data = (db1, Ok data))
    by exact (create_persists clock db st received Hcard Hup).
  rewrite (handleCheckout_persisted clock schedule db st received db1 data
             Hne Hv Hcreate).
  cbn [fst]. rewrite run_outage, run_transactions. auto.
Qed.

(** X20: transaction ids are unique per millisecond only.  The id of a
    transaction is [TXN-] followed by the clock reading of its checkout.
    Of two checkouts by card or gcash, each with its reference number,
    made one after the other on a reachable store, the second is always
    found under its id afterwards;
    the first is found under its own id when the two clock readings
    differ; when they are equal the two ids are the same and the record of
    the second checkout has replaced that of the first. *)
Theorem transaction_ids_by_millisecond
        clock1 clock2 schedule1 schedule2 db st1 st2 received1 received2 :
  cart st1 <> [] ->
  paymentMethod st1 <> cash ->
  validatePayment st1 = Ok received1 ->
  cart st2 <> [] ->
  paymentMethod st2 <> cash ->
  validatePayment st2 = Ok received2 ->
  outage db = None ->
  let data1 := transactionData clock1 st1 received1 in
  let data2 := transactionData clock2 st2 received2 in
  let db1 := fst (handleCheckout clock1 schedule1 db st1) in
  let db2 := fst (handleCheckout clock2 schedule2 db1 st2) in
  Store.transaction_getById db1 (tx_id data1) = Ok data1
  /\ Store.transaction_getById db2 (tx_id data2) = Ok data2
  /\ (now clock1 <> now clock2 ->
      Store.transaction_getById db2 (tx_id data1) = Ok data1)
  /\ (now clock1 = now clock2 ->
      tx_id data1 = tx_id data2
      /\ Store.transaction_getById db2 (tx_id data1) = Ok data2).
Proof.
  intros Hne1 Hcard1 Hv1 Hne2 Hcard2 Hv2 Hup data1 data2 db1 db2.
  destruct (checkout_records clock1 schedule1 db st1 received1 Hne1 Hcard1
              Hv1 Hup) as [Hup1 Htx1]. fold data1 db1 in Hup1, Htx1.
  destruct (checkout_records clock2 schedule2 db1 st2 received2 Hne2 Hcard2
              Hv2 Hup1) as [Hup2 Htx2]. fold data2 db2 in Hup2, Htx2.
  unfold Store.transaction_getById. rewrite Hup1, Hup2, Htx2, Htx1.
  split; [rewrite lookup_insert_eq; reflexivity|].
  split; [rewrite lookup_insert_eq; reflexivity|].
  split.
  - intros Hclock.
    assert (Hid : tx_id data2 <> tx_id data1).
    { subst data1 data2. cbn [tx_id transactionData]. intros Heq.
      apply String.app_inj, pretty_Z_inj in Heq. congruence. }
    rewrite lookup_insert_ne by exact Hid.
    rewrite lookup_insert_eq. reflexivity.
  - intros Hclock.
    assert (Hid : tx_id data1 = tx_id data2).
    { subst data1 data2. cbn [tx_id transactionData]. rewrite Hclock.
      reflexivity. }
    split; [exact Hid|]. rewrite Hid, lookup_insert_eq. reflexivity.
Qed.

Lemma transaction_ids_by_millisecond_witness :
  let second :=
    mkState [with_quantity Samples.cola 1] [] gcash "GC-2041" "" true false in
  let db1 := fst (handleCheckout Samples.noon [0%nat; 0%nat] Samples.store
                                 Samples.card_payment) in
  let db2 := fst (handleCheckout Samples.noon [0%nat; 0%nat] db1 second) in
  Store.transaction_getById db2 "TXN-1700000000000"
  = Ok (transactionData Samples.noon second 112).
Proof.
  intros second db1 db2.
  destruct (transaction_ids_by_millisecond Samples.noon Samples.noon
              [0%nat; 0%nat] [0%nat; 0%nat] Samples.store
              Samples.card_payment second 56%float 112%float)
    as (_ & _ & _ & H).
  - discriminate.
  - discriminate.
  - vm_compute. reflexivity.
  - discriminate.
  - discriminate.
  - vm_compute. reflexivity.
  - reflexivity.
  - apply H. reflexivity.
Defined.

End SettlementFacts.

(** ** The inventory audit *)

Module AuditFacts.
Import Audit.

Lemma handleStockChange_spec prev productId newCount :
  List.map item_id (handleStockChange prev productId newCount)
  = List.map item_id prev
  /\ List.map currentStock (handleStockChange prev productId newCount)
     = List.map currentStock prev
  /\ forall item,
      In item (handleStockChange prev productId newCount) ->
      (countedStock item = newCount
       /\ discrepancy item = newCount - currentStock item
       /\ verified item = false)
      \/ In item prev.
Proof.
  unfold handleStockChange. split; [|split].
  - induction prev as [|x prev IH]; simpl; [reflexivity|].
    rewrite IH. destruct (String.eqb (item_id x) productId); reflexivity.
  - induction prev as [|x prev IH]; simpl; [reflexivity|].
    rewrite IH. destruct (String.eqb (item_id x) productId); reflexivity.
  - intros item Hin. apply in_map_iff in Hin as (x & <- & Hx).
    destruct (String.eqb (item_id x) productId); simpl; auto.
Qed.

Lemma relabel_spec (f : Item -> Item) (change : Item -> bool) prev :
  (forall x, item_id (f x) = item_id x
             /\ currentStock (f x) = currentStock x
             /\ countedStock (f x) = countedStock x
             /\ discrepancy (f x) = discrepancy x) ->
  let next := List.map (fun item => if change item then f item else item) prev in
  List.map item_id next = List.map item_id prev
  /\ List.map currentStock next = List.map currentStock prev
  /\ forall item, In item next ->
       exists x, In x prev
                 /\ currentStock item = currentStock x
                 /\ countedStock item = countedStock x
                 /\ discrepancy item = discrepancy x.
Proof.
  intros Hf next. subst next. split; [|split].
  - induction prev as [|x prev IH]; simpl; [reflexivity|].
    rewrite IH. destruct (change x); [|reflexivity].
    destruct (Hf x) as (-> & _). reflexivity.
  - induction prev as [|x prev IH]; simpl; [reflexivity|].
    rewrite IH. destruct (change x); [|reflexivity].
    destruct (Hf x) as (_ & -> & _). reflexivity.
  - intros item Hin. apply in_map_iff in Hin as (x & <- & Hx).
    exists x. split; [exact Hx|].
    destruct (change x); [|auto]. destruct (Hf x) as (_ & -> & -> & ->). auto.
Qed.

Lemma currentProduct_In st current :
  currentProduct st = Some current -> In current (auditData st).
Proof.
  unfold currentProduct. destruct (currentProductIndex st <? 0); [discriminate|].
  apply CheckoutFacts.lookup_In.
Qed.

Lemma step_books st e :
  let audited st :=
    (forall item, In item (auditData st) ->
                  discrepancy item = countedStock item - currentStock item)
    /\ 0 <= currentProductIndex st
    /\ (auditData st <> [] ->
        currentProductIndex st < Z.of_nat (length (auditData st))) in
  audited st ->
  List.map item_id (auditData (step st e)) = List.map item_id (auditData st)
  /\ List.map currentStock (auditData (step st e))
     = List.map currentStock (auditData st)
  /\ audited (step st e)
  /\ ((forall item, In item (auditData st) -> 0 <= countedStock item) ->
      forall item, In item (auditData (step st e)) -> 0 <= countedStock item).
Proof.
  intros audited (Hd & H0 & Hlt). subst audited. cbv beta.
  assert (Hsame : forall data,
             List.map item_id data = List.map item_id (auditData st) ->
             data <> [] -> auditData st <> []
             /\ length data = length (auditData st)).
  { intros data Hids Hne.
    assert (Hl : length data = length (auditData st)).
    { rewrite <- (length_map item_id data), Hids. apply length_map. }
    split; [|exact Hl]. intros Hnil. rewrite Hnil in Hl.
    destruct data; [congruence | discriminate]. }
  unfold step. destruct (currentProduct st) as [current|] eqn:Hcur.
  2:{ repeat split; auto. }
  pose proof (currentProduct_In st current Hcur) as Hin.
  assert (Hstock : forall n,
             let data := handleStockChange (auditData st) (item_id current) n in
             List.map item_id data = List.map item_id (auditData st)
             /\ List.map currentStock data
                = List.map currentStock (auditData st)
             /\ ((forall item, In item data ->
                     discrepancy item = countedStock item - currentStock item)
                 /\ 0 <= currentProductIndex st
                 /\ (data <> [] ->
                     currentProductIndex st < Z.of_nat (length data)))
             /\ (0 <= n ->
                 (forall item, In item (auditData st) -> 0 <= countedStock item) ->
                 forall item, In item data -> 0 <= countedStock item)).
  { intros n data.
    destruct (handleStockChange_spec (auditData st) (item_id current) n)
      as (Hids & Hstocks & Hitems). fold data in Hids, Hstocks, Hitems.
    split; [exact Hids|]. split; [exact Hstocks|]. split.
    - split.
      + intros item Hitem.
        destruct (Hitems item Hitem) as [(-> & -> & _)|Hold]; auto.
      + split; [exact H0|]. intros Hne.
        destruct (Hsame data Hids Hne) as [Hne' ->]. auto.
    - intros Hn Hpos item Hitem.
      destruct (Hitems item Hitem) as [(-> & _)|Hold]; auto. }
  assert (Hlabel : forall (f : Item -> Item),
             (forall x, item_id (f x) = item_id x
                        /\ currentStock (f x) = currentStock x
                        /\ countedStock (f x) = countedStock x
                        /\ discrepancy (f x) = discrepancy x) ->
             let data :=
               List.map (fun item =>
                           if String.eqb (item_id item) (item_id current)
                           then f item else item) (auditData st) in
             List.map item_id data = List.map item_id (auditData st)
             /\ List.map currentStock data
                = List.map currentStock (auditData st)
             /\ ((forall item, In item data ->
                     discrepancy item = countedStock item - currentStock item)
                 /\ 0 <= currentProductIndex st
                 /\ (data <> [] ->
                     currentProductIndex st < Z.of_nat (length data)))
             /\ ((forall item, In item (auditData st) -> 0 <= countedStock item) ->
                 forall item, In item data -> 0 <= countedStock item)).
  { intros f Hf data.
    destruct (relabel_spec f (fun item => String.eqb (item_id item)
                                                     (item_id current))
                           (auditData st) Hf) as (Hids & Hstocks & Hitems).
    fold data in Hids, Hstocks, Hitems.
    split; [exact Hids|]. split; [exact Hstocks|]. split.
    - split.
      + intros item Hitem.
        destruct (Hitems item Hitem) as (x & Hx & -> & -> & ->). auto.
      + split; [exact H0|]. intros Hne.
        destruct (Hsame data Hids Hne) as [Hne' ->]. auto.
    - intros Hpos item Hitem.
      destruct (Hitems item Hitem) as (x & Hx & _ & -> & _). auto. }
  destruct e as [|value| |text| | |]; cbn [auditData currentProductIndex].
  - destruct (Hstock (Z.max 0 (countedStock current - 1)))
      as (H1 & H2 & H3 & H4).
    repeat split; try apply H3; auto. apply H4. lia.
  - destruct (Hstock (Z.max 0 (default 0 value))) as (H1 & H2 & H3 & H4).
    repeat split; try apply H3; auto. apply H4. lia.
  - destruct (Hstock (countedStock current + 1)) as (H1 & H2 & H3 & H4).
    repeat split; try apply H3; auto.
    intros Hpos. apply H4; [|exact Hpos]. specialize (Hpos current Hin). lia.
  - apply (Hlabel (fun item =>
                     mkItem (item_id item) (item_name item) (item_category item)
                            (currentStock item) (countedStock item)
                            (discrepancy item) text (verified item)
                            (item_barcode item))).
    intros x. auto.
  - apply (Hlabel (fun item =>
                     mkItem (item_id item) (item_name item) (item_category item)
                            (currentStock item) (countedStock item)
                            (discrepancy item) (notes item) true
                            (item_barcode item))).
    intros x. auto.
  - split; [reflexivity|]. split; [reflexivity|]. split; [|auto].
    split; [exact Hd|]. unfold nextProduct.
    destruct (currentProductIndex st <? Z.of_nat (length (auditData st)) - 1)
      eqn:E.
    + apply Z.ltb_lt in E. split; [lia|]. intros _. lia.
    + auto.
  - split; [reflexivity|]. split; [reflexivity|]. split; [|auto].
    split; [exact Hd|]. unfold previousProduct.
    destruct (0 <? currentProductIndex st) eqn:E.
    + apply Z.ltb_lt in E. split; [lia|]. intros Hne. specialize (Hlt Hne). lia.
    + auto.
Qed.

Lemma run_books events :
  forall st0,
    (forall item, In item (auditData st0) ->
                  discrepancy item = countedStock item - currentStock item) ->
    0 <= currentProductIndex st0 ->
    (auditData st0 <> [] ->
     currentProductIndex st0 < Z.of_nat (length (auditData st0))) ->
    let st := fold_left step events st0 in
    List.map item_id (auditData st) = List.map item_id (auditData st0)
    /\ List.map currentStock (auditData st)
       = List.map currentStock (auditData st0)
    /\ (forall item, In item (auditData st) ->
                     discrepancy item = countedStock item - currentStock item)
    /\ 0 <= currentProductIndex st
    /\ (auditData st <> [] ->
        currentProductIndex st < Z.of_nat (length (auditData st)))
    /\ ((forall item, In item (auditData st0) -> 0 <= countedStock item) ->
        forall item, In item (auditData st) -> 0 <= countedStock item).
Proof.
  induction events as [|e events IH]; simpl; intros st0 Hd H0 Hlt.
  - repeat split; auto.
  - destruct (step_books st0 e (conj Hd (conj H0 Hlt)))
      as (Hids & Hstocks & (Hd' & H0' & Hlt') & Hpos').
    destruct (IH (step st0 e) Hd' H0' Hlt')
      as (Hids2 & Hstocks2 & Hd2 & H02 & Hlt2 & Hpos2).
    split; [congruence|]. split; [congruence|]. repeat split; auto.
Qed.

Lemma initializeAuditData_items category products auditMode
      selectedCategories item :
  In item (initializeAuditData category products auditMode
                               selectedCategories) ->
  exists product,
    In product products
    /\ item_id item = id product
    /\ currentStock item = quantity product
    /\ countedStock item = quantity product
    /\ discrepancy item = 0.
Proof.
  unfold initializeAuditData. intros Hin.
  apply in_map_iff in Hin as (product & <- & Hp).
  exists product. simpl. repeat split.
  destruct auditMode; [exact Hp|].
  destruct (0 <? length selectedCategories)%nat; [|exact Hp].
  apply filter_In in Hp as [Hp _]. exact Hp.
Qed.

(** X21: the audit keeps its books.  From the start of an audit and
    through any sequence of what the auditor can do on the screen (the
    [-] and [+] buttons, a typed count, notes, the verified box, next and
    previous): the items audited and the system stock recorded for each
    stay those the audit started with; the discrepancy shown for every
    item is its counted stock minus its system stock; no counted stock is
    negative when no product of the catalogue had a negative quantity; and
    whenever there is something to audit the cursor is on an item. *)
Theorem audit_keeps_its_books category products auditMode selectedCategories
        events :
  let started :=
    initializeAuditData category products auditMode selectedCategories in
  let st := run category products auditMode selectedCategories events in
  List.map item_id (auditData st) = List.map item_id started
  /\ List.map currentStock (auditData st) = List.map currentStock started
  /\ (forall item, In item (auditData st) ->
                   discrepancy item = countedStock item - currentStock item)
  /\ ((forall product, In product products -> 0 <= quantity product) ->
      forall item, In item (auditData st) -> 0 <= countedStock item)
  /\ (auditData st <> [] -> exists current, currentProduct st = Some current).
Proof.
  intros started st.
  assert (Hst : st = fold_left step events (mkState started 0))
    by reflexivity.
  clearbody st.
  destruct (run_books events (mkState started 0))
    as (Hids & Hstocks & Hd & H0 & Hlt & Hpos).
  - intros item Hin.
    destruct (initializeAuditData_items _ _ _ _ _ Hin)
      as (product & _ & _ & -> & -> & ->). lia.
  - simpl. lia.
  - simpl. destruct started; [congruence | simpl; lia].
  - rewrite <- Hst in Hids, Hstocks, Hd, H0, Hlt, Hpos. cbn [auditData] in *.
    split; [exact Hids|]. split; [exact Hstocks|]. split; [exact Hd|]. split.
    + intros Hq. apply Hpos. intros item Hin.
      destruct (initializeAuditData_items _ _ _ _ _ Hin)
        as (product & Hp & _ & _ & -> & _). auto.
    + intros Hne. specialize (Hlt Hne). unfold currentProduct.
      replace (currentProductIndex st <? 0) with false
        by (symmetry; apply Z.ltb_ge; exact H0).
      apply lookup_lt_is_Some. lia.
Qed.

Lemma run_audited category products auditMode selectedCategories events :
  let st := run category products auditMode selectedCategories events in
  List.map item_id (auditData st)
  = List.map item_id (initializeAuditData category products auditMode
                                          selectedCategories)
  /\ forall item, In item (auditData st) ->
                  discrepancy item = countedStock item - currentStock item.
Proof.
  intros st.
  destruct (run_books events
              (mkState (initializeAuditData category products auditMode
                                            selectedCategories) 0))
    as (Hids & _ & Hd & _).
  - intros item Hin.
    destruct (initializeAuditData_items _ _ _ _ _ Hin)
      as (product & _ & _ & -> & -> & ->). lia.
  - simpl. lia.
  - simpl. destruct (initializeAuditData _ _ _ _); [congruence | simpl; lia].
  - split; [exact Hids | exact Hd].
Qed.

Lemma count_signs (data : list Item) :
  Nat.add (length (List.filter (fun item => 0 <? discrepancy item) data))
          (length (List.filter (fun item => discrepancy item <? 0) data))
  = length (List.filter (fun item => negb (discrepancy item =? 0)) data).
Proof.
  induction data as [|x data IH]; simpl; [reflexivity|].
  destruct (Z.ltb_spec 0 (discrepancy x)), (Z.ltb_spec (discrepancy x) 0),
           (Z.eqb_spec (discrepancy x) 0); simpl; lia.
Qed.

Lemma sum_adjustments (data : list Item) acc :
  (forall item, In item data ->
                discrepancy item = countedStock item - currentStock item) ->
  fold_left (fun sum item => sum + Z.abs (discrepancy item)) data acc
  = fold_left (fun sum item =>
                 sum + Z.abs (countedStock item - currentStock item)) data acc.
Proof.
  revert acc. induction data as [|x data IH]; simpl; intros acc H.
  - reflexivity.
  - rewrite (H x) by auto. apply IH. auto.
Qed.

(** X22: what an audit writes.  At any point of an audit, the updates
    that [completeAudit] asks for are one per item whose counted stock
    differs from the system stock, and none for the other items; each is
    based on the catalogue entry of that id and overwrites its quantity
    with the counted stock; their number is the total of the summary,
    which is the sum of the surplus and shortage counts, and is the
    number of discrepancies of the audit record, whose total adjustment
    is the sum of the absolute differences between counted and system
    stock. *)
Theorem audit_writes_the_counts
        clock category products auditMode selectedCategories auditNotes
        events :
  let st := run category products auditMode selectedCategories events in
  let updates := completeAudit_updates products (auditData st) in
  let summary := getDiscrepancySummary (auditData st) in
  let record := auditRecord clock auditMode auditNotes (auditData st) in
  (forall productId base newQuantity,
      In (productId, base, newQuantity) updates ->
      (exists product,
          base = Some product /\ In product products
          /\ id product = productId)
      /\ exists item,
          In item (auditData st) /\ item_id item = productId
          /\ countedStock item = newQuantity
          /\ countedStock item <> currentStock item)
  /\ (forall item,
         In item (auditData st) ->
         countedStock item <> currentStock item ->
         exists base, In (item_id item, base, countedStock item) updates)
  /\ positive summary + negative summary = totalItems summary
  /\ totalItems summary = Z.of_nat (length updates)
  /\ discrepancies record = Z.of_nat (length updates)
  /\ totalAdjustments record
     = fold_left (fun sum item =>
                    sum + Z.abs (countedStock item - currentStock item))
                 (auditData st) 0.
Proof.
  intros st updates summary record.
  destruct (run_audited category products auditMode selectedCategories
                        events) as (Hids & Hd).
  fold st in Hids, Hd.
  split.
  { intros pid base q Hin. subst updates. unfold completeAudit_updates in Hin.
    apply in_map_iff in Hin as (item & [= <- <- <-] & Hitem).
    apply filter_In in Hitem as [Hitem Hne].
    apply negb_true_iff, Z.eqb_neq in Hne. split.
    - assert (Hid : In (item_id item) (List.map item_id (auditData st)))
        by (apply in_map, Hitem).
      rewrite Hids in Hid. apply in_map_iff in Hid as (item0 & Hid0 & Hin0).
      destruct (initializeAuditData_items _ _ _ _ _ Hin0)
        as (product & Hp & Hidp & _).
      destruct (List.find (fun p => String.eqb (id p) (item_id item)) products)
        as [found|] eqn:F.
      + apply List.find_some in F as [Hf Hfid].
        apply String.eqb_eq in Hfid. eauto.
      + pose proof (List.find_none _ _ F product Hp) as Hnone.
        apply String.eqb_neq in Hnone. congruence.
    - exists item. rewrite (Hd item Hitem) in Hne.
      repeat split; auto. lia. }
  split.
  { intros item Hitem Hne. eexists. subst updates.
    unfold completeAudit_updates. apply in_map_iff. exists item.
    split; [reflexivity|]. apply filter_In. split; [exact Hitem|].
    apply negb_true_iff, Z.eqb_neq. rewrite (Hd item Hitem). lia. }
  subst updates summary record.
  unfold getDiscrepancySummary, completeAudit_updates, auditRecord.
  cbn [positive negative totalItems discrepancies totalAdjustments].
  rewrite length_map.
  split; [rewrite <- Nat2Z.inj_add, count_signs; reflexivity|].
  split; [reflexivity|]. split; [reflexivity|].
  apply sum_adjustments, Hd.
Qed.

End AuditFacts.

(** ** What the screens display *)

Module ViewFacts.
Import InventoryScreen.

Lemma threshold_nonneg product :
  0 <= lowStockThreshold product -> 0 < SaleScreen.threshold product.
Proof.
  unfold SaleScreen.threshold.
  destruct (Z.eqb_spec (lowStockThreshold product) 0); lia.
Qed.

Lemma has_status_tests product :
  has_status Out_of_Stock product = (quantity product <=? 0)
  /\ has_status Low_Stock product
     = negb (quantity product <=? 0)
       && (quantity product <=? SaleScreen.threshold product)
  /\ has_status In_Stock product
     = negb (quantity product <=? 0)
       && negb (quantity product <=? SaleScreen.threshold product).
Proof.
  unfold has_status, getStockStatus.
  destruct (quantity product <=? 0),
           (quantity product <=? SaleScreen.threshold product); auto.
Qed.

(** X23: the tiles of the inventory screen against the labels of its
    cards.  On any list of products, the out-of-stock tile counts the
    cards labelled "Out of Stock", the in-stock tile counts the cards
    labelled "Low Stock" or "In Stock", and the three labels account for
    every product; and when no threshold is negative the low-stock tile
    counts the cards labelled "Low Stock" together with those labelled
    "Out of Stock". *)
Theorem stats_match_labels filteredProducts :
  let stats := getInventoryStats filteredProducts in
  outOfStock stats = labelled Out_of_Stock filteredProducts
  /\ inStock stats
     = labelled Low_Stock filteredProducts + labelled In_Stock filteredProducts
  /\ totalProducts stats
     = labelled Out_of_Stock filteredProducts
       + labelled Low_Stock filteredProducts
       + labelled In_Stock filteredProducts
  /\ ((forall product, In product filteredProducts ->
                       0 <= lowStockThreshold product) ->
      lowStock stats
      = labelled Low_Stock filteredProducts
        + labelled Out_of_Stock filteredProducts).
Proof.
  intros stats. subst stats. unfold getInventoryStats, labelled.
  cbn [outOfStock inStock totalProducts lowStock].
  induction filteredProducts as [|p products IH]; [simpl; auto with zarith|].
  destruct IH as (IH1 & IH2 & IH3 & IH4).
  cbn [List.filter].
  destruct (has_status_tests p) as (-> & -> & ->).
  assert (Hlow : (forall product, In product (p :: products) ->
                                  0 <= lowStockThreshold product) ->
                 Z.of_nat (length (List.filter
                                     (fun p => quantity p
                                               <=? SaleScreen.threshold p)
                                     products))
                 = Z.of_nat (length (List.filter (has_status Low_Stock)
                                                 products))
                   + Z.of_nat (length (List.filter (has_status Out_of_Stock)
                                                   products))).
  { intros Hth. apply IH4. intros product Hin. apply Hth. right. exact Hin. }
  destruct (Z.leb_spec (quantity p) 0) as [Hq|Hq];
    destruct (Z.leb_spec (quantity p) (SaleScreen.threshold p)) as [Hl|Hl];
    cbn [negb andb length]; rewrite ?Nat2Z.inj_succ;
    (split; [lia|]); (split; [lia|]); (split; [lia|]); intros Hth;
    specialize (Hlow Hth);
    pose proof (threshold_nonneg p (Hth p (or_introl eq_refl))); lia.
Qed.

Lemma prefix_nonempty (p s : string) :
  JS.nonempty p = true -> String.prefix p s = true -> JS.nonempty s = true.
Proof. destruct p, s; simpl; congruence. Qed.

(** X24: the address under which an image is shown.  [resolveImageUrl]
    returns either the address it is given or the placeholder, never the
    empty string; it returns the address it is given whenever that one
    starts with [http://], [https://] or [/uploads/]; and resolving an
    address that is already resolved changes nothing. *)
Theorem resolveImageUrl_settles imageUrl :
  let resolved := imageUtils.resolveImageUrl imageUrl in
  (resolved = imageUrl \/ resolved = imageUtils.placeholder)
  /\ resolved <> ""
  /\ (imageUtils.startsWith imageUrl "http://"
      || imageUtils.startsWith imageUrl "https://"
      || imageUtils.startsWith imageUrl "/uploads/" = true ->
      resolved = imageUrl)
  /\ imageUtils.resolveImageUrl resolved = resolved.
Proof.
  intros resolved. subst resolved. unfold imageUtils.resolveImageUrl.
  destruct (JS.nonempty imageUrl) eqn:Hne; cbn [negb].
  2:{ split; [auto|]. split; [discriminate|]. split; [|reflexivity].
      destruct imageUrl; discriminate. }
  destruct (imageUtils.startsWith imageUrl "http://"
            || imageUtils.startsWith imageUrl "https://") eqn:Hweb.
  { rewrite Hne, Hweb. cbn [negb].
    split; [auto|]. split; [destruct imageUrl; discriminate|]. auto. }
  destruct (imageUtils.startsWith imageUrl "/uploads/") eqn:Hup.
  { rewrite Hne, Hweb, Hup. cbn [negb].
    split; [auto|]. split; [destruct imageUrl; discriminate|]. auto. }
  split; [auto|]. split; [discriminate|]. split; [discriminate|]. reflexivity.
Qed.

End ViewFacts.

(** ** Manual entry and deleted products *)

Module EntryFacts.
Import Cart SaleScreen.

(** X25: a code typed in the manual entry box against the same code
    scanned.  The box looks its trimmed content up as the router does.
    Blank content does nothing.  A code the router would report unknown
    raises the not-found notification, which quotes the content as typed,
    and keeps the box.  A code the router would send to the cart empties
    the box and hands the same catalogue entry to [handleBarcodeScanned];
    and so does a code whose first match the catalogue shows out of
    stock, for which the router stops at the notification: the box asks
    the store all the same. *)
Theorem manual_entry_follows_router db1 db2 products cart manualBarcode now :
  let token := JS.trim manualBarcode in
  let manual :=
    handleManualBarcodeSubmit db1 db2 products cart cart manualBarcode in
  (token = "" -> manual = (cart, manualBarcode, []))
  /\ (token <> "" ->
      match Scanner.resolve "/pos" products now token with
      | Scanner.unknown _ =>
          manual
          = (cart, manualBarcode,
             [toast_error ("Product with barcode " +:+ Scanner.dquote
                           +:+ manualBarcode +:+ Scanner.dquote
                           +:+ " not found")])
      | Scanner.add_to_cart _ product _
      | Scanner.out_of_stock product
      | Scanner.handoff product =>
          manual
          = (fst (handleBarcodeScanned db1 db2 cart cart product), "",
             snd (handleBarcodeScanned db1 db2 cart cart product))
      end).
Proof.
  intros token manual. subst manual. unfold handleManualBarcodeSubmit.
  fold token. split.
  - intros ->. reflexivity.
  - intros Hne.
    replace (JS.nonempty token) with true
      by (destruct token; [congruence | reflexivity]).
    unfold Scanner.resolve, Scanner.lookup.
    destruct (List.find (Scanner.matches token) products) as [product|].
    + assert (Hpos : String.eqb "/pos" "/pos" = true) by reflexivity.
      rewrite Hpos. cbn [negb].
      destruct (quantity product <=? 0);
        destruct (handleBarcodeScanned db1 db2 cart cart product)
          as [cart' toasts]; reflexivity.
    + reflexivity.
Qed.

(** X26: a product deleted while it is in a cart.  Once
    [productService.delete] has removed a product from a reachable store,
    [getById] fails for it with "Product not found" and answers as before
    for every other id; a click on the product and any change of its
    line to a quantity of at least 1 are refused with their error
    notification and leave the cart as it is; lowering the line below 1
    still removes it, without asking the store. *)
Theorem deleted_product_in_cart db productId :
  outage db = None ->
  let db' := fst (Store.product_delete db productId) in
  productService.getById db' productId = Err "Product not found"
  /\ (forall other, other <> productId ->
                    productService.getById db' other
                    = productService.getById db other)
  /\ (forall cart product,
         id product = productId ->
         addToCart db' cart cart product
         = (cart, [toast_error "Error checking stock availability"]))
  /\ (forall cart newQuantity,
         1 <= newQuantity ->
         updateQuantity db' cart productId newQuantity
         = (cart, [toast_error "Error updating quantity"]))
  /\ (forall cart newQuantity,
         newQuantity < 1 ->
         updateQuantity db' cart productId newQuantity
         = (removeFromCart cart productId, [])).
Proof.
  intros Hup db'.
  assert (Hgone : productService.getById db' productId
                  = Err "Product not found").
  { subst db'. unfold Store.product_delete, productService.getById.
    rewrite Hup. cbn [fst outage products_coll].
    rewrite lookup_delete_eq. reflexivity. }
  split; [exact Hgone|]. split.
  { intros other Hne. subst db'.
    unfold Store.product_delete, productService.getById.
    rewrite Hup. cbn [fst outage products_coll].
    rewrite lookup_delete_ne by congruence. reflexivity. }
  split.
  { intros cart product Hid. unfold addToCart. rewrite Hid, Hgone.
    reflexivity. }
  split.
  { intros cart q Hq. unfold updateQuantity.
    apply Z.ltb_ge in Hq. rewrite Hq, Hgone. reflexivity. }
  intros cart q Hq. unfold updateQuantity.
  apply Z.ltb_lt in Hq. rewrite Hq. reflexivity.
Qed.

Lemma deleted_product_in_cart_witness :
  addToCart (fst (Store.product_delete Samples.store "p2"))
            [with_quantity Samples.soap 2] [with_quantity Samples.soap 2]
            Samples.soap
  = ([with_quantity Samples.soap 2],
     [toast_error "Error checking stock availability"]).
Proof.
  destruct (deleted_product_in_cart Samples.store "p2" eq_refl)
    as (_ & _ & H & _).
  apply H. reflexivity.
Defined.

(** X28: a scan made on another page.  On a page other than [/pos] and
    [/inventory], with the decoder idle (empty buffer, no timer pending,
    no resolution in flight) and the token not the one last processed, a
    scanner that sends the bar code of a product the catalogue shows in
    stock (at least 4 accepted characters, then Enter, each key less
    than 150 ms after the one before) makes the provider announce the
    product and navigate to the sale screen with the catalogue entry;
    the effect of the sale screen on the navigation state hands that
    entry to [handleBarcodeScanned] and remembers its id; and as long as
    the id is remembered (the timer clears it after a second) the same
    product arriving again by navigation is not handed on. *)
Theorem handoff_reaches_sale_screen
        pathname products st token times tgt now product :
  Provider.all_accepted token = true ->
  (4 <= JS.length token)%nat ->
  length times = String.length token ->
  Provider.paced 150 (times ++ [now]) ->
  Scanner.suspendedCount st <= 0 ->
  Scanner.isProcessing st = false ->
  Scanner.buffer st = "" ->
  Scanner.timeout st = None ->
  Scanner.resets st = [] ->
  Scanner.lastProcessed st <> token ->
  Scanner.editable tgt = false ->
  pathname <> "/pos" ->
  pathname <> "/inventory" ->
  Scanner.lookup products token = Some product ->
  0 < quantity product ->
  let typed :=
    Provider.feed pathname products st
                  (combine times (Provider.keys tgt token)) in
  let entered :=
    Provider.key_at pathname products (fst typed) now (Provider.Enter tgt) in
  snd entered
  = [Scanner.scanned token;
     Scanner.toast (toast_success ("Product found: " +:+ name product
                                   +:+ ". Navigating to POS..."));
     Scanner.navigate_pos product]
  /\ onLocationState None (Some product) = (Some (id product), Some product)
  /\ forall again,
      id again = id product ->
      onLocationState (Some (id product)) (Some again)
      = (Some (id product), None).
Proof.
  intros Hacc Hmin Hlen Hpaced Hs Hp Hb Ht Hr Hlast He Hpos Hinv Hlook Hq
         typed entered.
  destruct (ProviderFacts.typed_token pathname products st token times tgt
              now Hacc Hlen Hpaced Hs Hp Hb Ht Hr He)
    as (t & Htyped & Hlate).
  fold typed in Htyped.
  split.
  { subst entered. unfold Provider.Enter. rewrite Htyped. cbn [fst].
    rewrite ProviderFacts.key_at_early; [|exact Hr | exact Hlate].
    rewrite DecoderFacts.enter_commits by assumption.
    unfold Scanner.commit, Scanner.MIN_BARCODE_LENGTH, Scanner.page_of.
    apply String.eqb_neq in Hinv. rewrite Hinv.
    cbn [Scanner.buffer Scanner.set_timeout Scanner.set_buffer].
    rewrite (ProviderFacts.trim_accepted token Hacc).
    apply Nat.leb_le in Hmin. rewrite Hmin.
    unfold Scanner.emit, Scanner.processBarcodeData.
    cbn [Scanner.isProcessing Scanner.lastProcessed Scanner.set_timeout
         Scanner.set_buffer].
    rewrite Hp. apply String.eqb_neq in Hlast. rewrite Hlast. simpl.
    unfold Scanner.resolve. rewrite Hlook.
    apply Z.leb_gt in Hq. rewrite Hq.
    apply String.eqb_neq in Hpos. rewrite Hpos. reflexivity. }
  split; [reflexivity|].
  intros again Hid. unfold onLocationState. rewrite Hid, String.eqb_refl.
  reflexivity.
Qed.

Lemma handoff_reaches_sale_screen_witness :
  snd (Provider.key_at "/sales" Samples.shelf
         (fst (Provider.feed "/sales" Samples.shelf Scanner.initial
                 (combine [1000; 1001; 1002; 1003; 1004; 1005; 1006; 1007;
                           1008; 1009; 1010; 1011; 1012]
                          (Provider.keys Samples.body "8991234567890"))))
         1013 (Provider.Enter Samples.body))
  = [Scanner.scanned "8991234567890";
     Scanner.toast (toast_success "Product found: Cola. Navigating to POS...");
     Scanner.navigate_pos Samples.cola].
Proof.
  destruct (handoff_reaches_sale_screen "/sales" Samples.shelf Scanner.initial
              "8991234567890"
              [1000; 1001; 1002; 1003; 1004; 1005; 1006; 1007; 1008; 1009;
               1010; 1011; 1012]
              Samples.body 1013 Samples.cola)
    as (H & _);
    [reflexivity | simpl; lia | reflexivity | simpl; lia | simpl; lia
    | reflexivity | reflexivity | reflexivity | reflexivity | discriminate
    | reflexivity | discriminate | discriminate
    | reflexivity | simpl; lia |].
  exact H.
Defined.

End EntryFacts.

(** ** The image of a product on save *)

Module ImageFacts.
Import ProductModal.

Lemma deleteOldImage_In {FormData : Type} (original : option string) url :
  In (delete_image url) (@deleteOldImage FormData original)
  <-> original = Some url /\ imageUtils.startsWith url "/uploads/" = true.
Proof.
  unfold deleteOldImage. destruct original as [old|]; simpl.
  2:{ split; [intros [] | intros [H _]; discriminate]. }
  destruct (JS.nonempty old) eqn:Hne; simpl.
  - destruct (imageUtils.startsWith old "/uploads/") eqn:Hup; simpl.
    + split.
      * intros [[= <-]|[]]. auto.
      * intros [[= <-] _]. auto.
    + split; [intros [] | intros [[= <-] H]; congruence].
  - split; [intros []|]. intros [[= <-] H].
    destruct old; [discriminate H | discriminate Hne].
Qed.

(** X27: when saving a product deletes an image.  [handleSubmit] asks
    the server to delete an image in one case only: a new file was
    chosen, its upload returned an address, [onSave] was fulfilled, and
    the product had an image before, stored under [/uploads/] and other
    than the new one; the image deleted is then that old one.  In
    particular, after [removeImage] the product is saved with an empty
    image address and the file it had stays on the server. *)
Theorem old_image_deleted_only_when_replaced
        {FormData : Type} (formData : FormData) images upload saved :
  (forall url,
      In (delete_image url) (handleSubmit formData images upload saved)
      <-> exists file new,
          imageFile images = Some file
          /\ upload = uploaded (Some new)
          /\ new <> ""
          /\ saved = true
          /\ originalImageUrl images = Some url
          /\ url <> new
          /\ imageUtils.startsWith url "/uploads/" = true)
  /\ handleSubmit formData (removeImage images) upload saved
     = onSave formData (Some "")
       :: (if saved then [] else [toast_error_saving]).
Proof.
  split.
  - intros url. unfold handleSubmit.
    destruct (imageFile images) as [file|] eqn:Hfile.
    + (* a file was chosen *)
      destruct upload as [[new|]|]; cbn [truthy].
      * destruct (JS.nonempty new) eqn:Hnew.
        -- destruct saved.
           ++ destruct (originalImageUrl images) as [old|] eqn:Hold;
                cbn [truthy andb].
              ** destruct (JS.nonempty old) eqn:Hne; cbn [andb].
                 --- destruct (String.eqb_spec old new) as [->|Hdiff];
                       cbn [negb].
                     +++ split.
                         *** intros [H|[H|[H|[H|[]]]]]; discriminate.
                         *** intros (f & n & _ & [= <-] & _ & _ & [= <-] & H & _).
                             congruence.
                     +++ split.
                         *** intros [H|[H|[H|[H|H]]]]; try discriminate.
                             apply deleteOldImage_In in H as [[= ->] Hup].
                             exists file, new. repeat split; auto.
                             intros ->. discriminate.
                         *** intros (f & n & _ & [= <-] & _ & _ & [= <-] & _ & Hup).
                             do 4 right.
                             apply deleteOldImage_In. auto.
                 --- split.
                     +++ intros [H|[H|[H|[H|[]]]]]; discriminate.
                     +++ intros (f & n & _ & _ & _ & _ & [= <-] & _ & Hup).
                         destruct old; discriminate.
              ** split.
                 --- intros [H|[H|[H|[H|[]]]]]; discriminate.
                 --- intros (f & n & _ & _ & _ & _ & H & _). discriminate.
           ++ split.
              ** intros [H|[H|[H|[H|[H|[]]]]]]; discriminate.
              ** intros (f & n & _ & _ & _ & H & _). discriminate.
        -- split.
           ++ destruct saved; simpl.
              ** intros [H|[H|[H|[H|[]]]]]; discriminate.
              ** intros [H|[H|[H|[H|[H|[]]]]]]; discriminate.
           ++ intros (f & n & _ & [= <-] & H & _).
              destruct new; [congruence | discriminate].
      * split.
        -- destruct saved; simpl.
           ++ intros [H|[H|[H|[H|[]]]]]; discriminate.
           ++ intros [H|[H|[H|[H|[H|[]]]]]]; discriminate.
        -- intros (f & n & _ & H & _). discriminate.
      * split.
        -- intros [H|[H|[H|[H|[]]]]]; discriminate.
        -- intros (f & n & _ & H & _). discriminate.
    + (* no file: nothing is uploaded, nothing deleted *)
      split.
      * destruct (truthy (originalImageUrl images) && _);
          [|destruct (negb (truthy (imagePreview images)))];
          destruct saved; simpl;
          intros H; repeat (destruct H as [H|H]; try discriminate);
          destruct H.
      * intros (f & n & H & _). discriminate.
  - unfold handleSubmit, removeImage. cbn [imageFile imagePreview
                                            originalImageUrl truthy negb].
    destruct (originalImageUrl images) as [old|]; cbn [truthy andb];
      [rewrite andb_false_r|]; destruct saved; reflexivity.
Qed.

End ImageFacts.

(** ** The decoders, key by key *)

Module KeystrokeFacts.
Import Scanner.



(** X30: the key events the provider's decoder ignores.  A key event is
    ignored altogether (refs unchanged, nothing raised) while scanning is
    suspended, on an editable element, while a resolution is under way
    (whatever the key, Enter and accepted characters included), and when
    the name of the key has more than one code unit and is not Enter.  A
    key of one code unit outside the accepted set (a space, an accented
    letter) that reaches the decoder raises nothing and changes nothing
    but the inactivity timer, which it clears. *)
Theorem ignored_key_events pathname products now st event :
  (0 < suspendedCount st
   \/ editable (target event) = true
   \/ isProcessing st = true
   \/ ((1 < JS.length (key event))%nat /\ key event <> "Enter") ->
   handleGlobalKeyDown pathname products now st event = (st, []))
  /\ (JS.length (key event) = 1%nat ->
      accepted_key (key event) = false ->
      handleGlobalKeyDown pathname products now st event
      = (if (0 <? suspendedCount st) || editable (target event)
            || isProcessing st
         then st else set_timeout st None, [])).
Proof.
  split.
  - intros H.
    unfold handleGlobalKeyDown, handleKeyDown, handleInventoryKeyDown, decode.
    destruct (0 <? suspendedCount st) eqn:Es;
      [destruct (String.eqb pathname "/inventory"); reflexivity|].
    destruct (editable (target event)) eqn:Ee;
      [destruct (String.eqb pathname "/inventory"); reflexivity|].
    destruct (isProcessing st) eqn:Ep;
      [destruct (String.eqb pathname "/inventory"); reflexivity|].
    destruct H as [H|[H|[H|[Hlen Hne]]]];
      [apply Z.ltb_lt in H; congruence | discriminate | discriminate |].
    apply Nat.ltb_lt in Hlen. apply String.eqb_neq in Hne.
    rewrite Hlen, Hne. destruct (String.eqb pathname "/inventory"); reflexivity.
  - apply DecoderFacts.unaccepted_key_state.
Qed.

End KeystrokeFacts.
